(** * GhostCrew tools: a shallow embedding of the orchestration, completion,
    filesystem and code search tools, and the properties their specification
    states.

    Modelling conventions.
    - Python values that travel through tool arguments (parsed JSON) are
      [pyval]: [None], booleans, integers, text, lists and dicts.  Floats
      are not modelled; where [json.loads] would produce one, the model
      answers [Unsupported].
    - Python text is [string]; one [ascii] is one character, so the model
      covers text over the 8-bit alphabet.  An escape that denotes a
      character beyond it is [Unsupported] as well.
    - A tool's [arguments] dict is a [gmap string pyval]; dicts that are
      values keep their insertion order and are association lists, whose
      keys are distinct in a well-formed value.
    - A tool function is a program ([prog]) over the operations of its
      collaborators (worker pool and LLM for the crew tools, pathlib for the
      filesystem tools); it ends by returning a value or by raising.
      Running it against a handler for these operations gives the calls it
      made, the collaborators' final state and its outcome. *)

From Stdlib Require Import ZArith Ascii String List Lia Bool.
From Stdlib Require Import DecimalString DecimalZ DecimalPos DecimalFacts.
From stdpp Require Import base option list strings gmap.

Local Open Scope string_scope.
Local Open Scope list_scope.
Local Open Scope Z_scope.

(** ** Python values *)

Unset Elimination Schemes.
Inductive pyval : Type :=
| PNone
| PBool (b : bool)
| PInt (z : Z)
| PStr (s : string)
| PList (xs : list pyval)
| PDict (kvs : list (string * pyval)).
Set Elimination Schemes.

(** [bool(v)]: the truth value Python's [if], [not] and [or] use. *)
Definition truthy (v : pyval) : bool :=
  match v with
  | PNone => false
  | PBool b => b
  | PInt z => negb (z =? 0)
  | PStr s => negb (String.eqb s "")
  | PList xs => match xs with [] => false | _ => true end
  | PDict kvs => match kvs with [] => false | _ => true end
  end.

(** [a or b] *)
Definition py_or (a b : pyval) : pyval := if truthy a then a else b.

(** ** Text helpers *)

Definition nl : string := String (ascii_of_nat 10) "".

(** The double quote and the backslash. *)
Definition dquote : ascii := ascii_of_nat 34.
Definition backslash : ascii := ascii_of_nat 92.

Definition code (c : ascii) : Z := Z.of_N (N_of_ascii c).

Definition chr (n : Z) : ascii := ascii_of_N (Z.to_N n).

(** [s[n:]] *)
Fixpoint string_drop (n : nat) (s : string) : string :=
  match n, s with
  | O, _ => s
  | Datatypes.S n', String _ s' => string_drop n' s'
  | Datatypes.S _, "" => ""
  end.

(** [s.startswith(prefix)] *)
Fixpoint startswith (s prefix : string) {struct prefix} : bool :=
  match prefix with
  | "" => true
  | String a prefix' =>
      match s with
      | String b s' => Ascii.eqb a b && startswith s' prefix'
      | "" => false
      end
  end.

(** [sep.join(parts)] *)
Definition join (sep : string) (parts : list string) : string :=
  String.concat sep parts.

(** [str(n)] for an integer: decimal digits, a leading [-] when negative. *)
Definition dec (z : Z) : string := NilZero.string_of_int (Z.to_int z).

Definition hexdig (d : Z) : ascii :=
  nth (Z.to_nat d) (list_ascii_of_string "0123456789abcdef") "0"%char.

(** Two lower-case hexadecimal digits, as in the format [%02x]. *)
Definition hex2 (n : Z) : string :=
  String (hexdig (n / 16)) (String (hexdig (n mod 16)) "").

Fixpoint contains_char (c : ascii) (s : string) : bool :=
  match s with
  | "" => false
  | String d s' => Ascii.eqb c d || contains_char c s'
  end.

(** [str.isprintable] on one character of the 8-bit alphabet: the controls
    0x00-0x1f and 0x7f-0x9f, the no-break space 0xa0 and the soft hyphen 0xad
    are not printable; the ASCII space is. *)
Definition isprintable (c : ascii) : bool :=
  let n := code c in
  (32 <=? n) && negb ((127 <=? n) && (n <=? 160)) && negb (n =? 173).

Definition repr_char (quote c : ascii) : string :=
  if Ascii.eqb c quote || Ascii.eqb c backslash then String backslash (String c "")
  else if code c =? 9 then "\t"
  else if code c =? 10 then "\n"
  else if code c =? 13 then "\r"
  else if isprintable c then String c ""
  else "\x" +:+ hex2 (code c).

Fixpoint repr_chars (quote : ascii) (s : string) : string :=
  match s with
  | "" => ""
  | String c s' => repr_char quote c +:+ repr_chars quote s'
  end.

(** [repr(s)] for text: single quotes, unless the text has a single quote and
    no double quote. *)
Definition repr_str (s : string) : string :=
  let quote :=
    if contains_char "'"%char s && negb (contains_char dquote s)
    then dquote else "'"%char in
  String quote (repr_chars quote s) +:+ String quote "".

(** [repr(v)] *)
Fixpoint py_repr (v : pyval) : string :=
  match v with
  | PNone => "None"
  | PBool true => "True"
  | PBool false => "False"
  | PInt z => dec z
  | PStr s => repr_str s
  | PList xs => "[" +:+ join ", " (List.map py_repr xs) +:+ "]"
  | PDict kvs =>
      "{" +:+ join ", "
        (List.map (fun kv => match kv with
                             | (k, x) => repr_str k +:+ ": " +:+ py_repr x
                             end) kvs) +:+ "}"
  end.

(** [str(v)], which is what an f-string placeholder [{v}] renders. *)
Definition py_str (v : pyval) : string :=
  match v with
  | PStr s => s
  | _ => py_repr v
  end.

(** [type(v).__name__] *)
Definition type_name (v : pyval) : string :=
  match v with
  | PNone => "NoneType"
  | PBool _ => "bool"
  | PInt _ => "int"
  | PStr _ => "str"
  | PList _ => "list"
  | PDict _ => "dict"
  end.

(** [d.get(k)] on an insertion-ordered dict *)
Fixpoint assoc (k : string) (kvs : list (string * pyval)) : option pyval :=
  match kvs with
  | [] => None
  | (k', v) :: rest => if String.eqb k k' then Some v else assoc k rest
  end.

(** Booleans are integers for [==]: [True == 1] and [False == 0]. *)
Definition as_int (v : pyval) : option Z :=
  match v with
  | PBool b => Some (if b then 1 else 0)
  | PInt z => Some z
  | _ => None
  end.

(** [a == b].  Lists compare element by element; dicts compare as mappings,
    whatever the order of their keys. *)
Fixpoint py_eqb (a b : pyval) : bool :=
  match a with
  | PNone => match b with PNone => true | _ => false end
  | PBool _ | PInt _ =>
      match as_int a, as_int b with
      | Some x, Some y => x =? y
      | _, _ => false
      end
  | PStr s => match b with PStr t => String.eqb s t | _ => false end
  | PList xs =>
      match b with
      | PList ys =>
          (fix go (xs ys : list pyval) : bool :=
             match xs, ys with
             | [], [] => true
             | x :: xs', y :: ys' => py_eqb x y && go xs' ys'
             | _, _ => false
             end) xs ys
      | _ => false
      end
  | PDict kvs =>
      match b with
      | PDict kvs' =>
          (length kvs =? length kvs')%nat &&
          (fix all (l : list (string * pyval)) : bool :=
             match l with
             | [] => true
             | (k, x) :: l' =>
                 match assoc k kvs' with
                 | Some y => py_eqb x y
                 | None => false
                 end && all l'
             end) kvs
      | _ => false
      end
  end.

(** ** Exceptions and programs *)

(** The exception classes the tools meet; all derive from [Exception]. *)
Inductive exn_class : Type :=
| KeyError | ValueError | TypeError | AttributeError
| UnicodeDecodeError | UnicodeEncodeError | JSONDecodeError
| OSError | RuntimeError.

(** A raised exception: its class and [str(e)]. *)
Record exn : Type := Exn { exn_cls : exn_class; exn_msg : string }.

(** [except ValueError] also catches its subclasses. *)
Definition is_ValueError (e : exn) : bool :=
  match exn_cls e with
  | ValueError | UnicodeDecodeError | UnicodeEncodeError | JSONDecodeError => true
  | _ => false
  end.

Definition is_UnicodeDecodeError (e : exn) : bool :=
  match exn_cls e with UnicodeDecodeError => true | _ => false end.

Definition is_TypeError (e : exn) : bool :=
  match exn_cls e with TypeError => true | _ => false end.

Definition is_JSONDecodeError (e : exn) : bool :=
  match exn_cls e with JSONDecodeError => true | _ => false end.

(** What a call gives back: a value, or a raised exception. *)
Inductive reply (A : Type) : Type :=
| Ok (a : A)
| Raise (e : exn).
Arguments Ok {A} a.
Arguments Raise {A} e.

#[global] Instance reply_ret : MRet reply := fun _ a => Ok a.
#[global] Instance reply_bind : MBind reply :=
  fun _ _ f r => match r with Ok a => f a | Raise e => Raise e end.

(** The operations of a tool's collaborators and what each answers. *)
Record signature : Type := Signature { op : Type; ans : op -> Type }.

(** A tool body: it returns, raises, or calls a collaborator and goes on
    with the collaborator's reply. *)
Inductive prog (Σ : signature) (A : Type) : Type :=
| Ret (a : A)
| Throw (e : exn)
| Call (o : op Σ) (k : reply (ans Σ o) -> prog Σ A).
Arguments Ret {Σ A} a.
Arguments Throw {Σ A} e.
Arguments Call {Σ A} o k.

Fixpoint bind {Σ A B} (p : prog Σ A) (f : A -> prog Σ B) : prog Σ B :=
  match p with
  | Ret a => f a
  | Throw e => Throw e
  | Call o k => Call o (fun r => bind (k r) f)
  end.

#[global] Instance prog_ret Σ : MRet (prog Σ) := fun _ a => Ret a.
#[global] Instance prog_bind Σ : MBind (prog Σ) := fun _ _ f p => bind p f.

(** A collaborator call whose exception, if any, propagates. *)
Definition call {Σ} (o : op Σ) : prog Σ (ans Σ o) :=
  Call o (fun r => match r with Ok x => Ret x | Raise e => Throw e end).

(** A pure computation that may raise. *)
Definition lift {Σ A} (r : reply A) : prog Σ A :=
  match r with Ok a => Ret a | Raise e => Throw e end.

(** [try: p  except ...: h e]; [h] re-raises what its clauses do not catch. *)
Fixpoint try_except {Σ A} (p : prog Σ A) (h : exn -> prog Σ A) : prog Σ A :=
  match p with
  | Ret a => Ret a
  | Throw e => h e
  | Call o k => Call o (fun r => try_except (k r) h)
  end.

(** Running a program against its collaborators: the calls made in order,
    the collaborators' final state and the outcome. *)
Section Run.
Context {Σ : signature} {S : Type}.
Variable H : forall o : op Σ, S -> reply (ans Σ o) * S.

Fixpoint run {A} (p : prog Σ A) (s : S) : list (op Σ) * S * reply A :=
  match p with
  | Ret a => ([], s, Ok a)
  | Throw e => ([], s, Raise e)
  | Call o k =>
      let '(r, s1) := H o s in
      let '(tr, s2, out) := run (k r) s1 in
      (o :: tr, s2, out)
  end.

Definition trace {A} (p : prog Σ A) (s : S) : list (op Σ) := (run p s).1.1.
Definition final {A} (p : prog Σ A) (s : S) : S := (run p s).1.2.
Definition outcome {A} (p : prog Σ A) (s : S) : reply A := (run p s).2.
End Run.

(** ** Tool arguments *)

(** [arguments.get(k, d)] *)
Definition get (arguments : gmap string pyval) (k : string) (d : pyval) : pyval :=
  default d (arguments !! k).

(** [arguments[k]]: a missing key raises [KeyError(k)]. *)
Definition subscript (arguments : gmap string pyval) (k : string) : reply pyval :=
  match arguments !! k with
  | Some v => Ok v
  | None => Raise (Exn KeyError (repr_str k))
  end.


(** Every value the program can return satisfies [P]. *)
Fixpoint all_rets {Σ A} (P : A -> Prop) (p : prog Σ A) : Prop :=
  match p with
  | Ret a => P a
  | Throw _ => True
  | Call _ k => forall r, all_rets P (k r)
  end.

(** The program never raises, and what it returns satisfies [P]. *)
Fixpoint returns {Σ A} (P : A -> Prop) (p : prog Σ A) : Prop :=
  match p with
  | Ret a => P a
  | Throw _ => False
  | Call _ k => forall r, returns P (k r)
  end.

(** The program makes no call for which [bad] holds. *)
Fixpoint never_calls {Σ A} (bad : op Σ -> bool) (p : prog Σ A) : Prop :=
  match p with
  | Ret _ | Throw _ => True
  | Call o k => bad o = false /\ forall r, never_calls bad (k r)
  end.

Definition is_text (v : pyval) : Prop := exists t, v = PStr t.
(** ** Crew orchestration tools (agents/crew/tools.py) *)

(** Modelled from the spec: the Task Record held by the worker pool
    (worker_pool.py is not part of the sources).  Only the fields the tools
    read are kept: [id], [task], and the optional [result] and [error]. *)
Record AgentWorker : Type := {
  w_id : string;
  w_task : string;
  w_result : option string;
  w_error : option string
}.

(** Modelled from the spec: the LLM collaborator's response, carrying
    [content] (text) and an optional [usage] mapping. *)
Record LLMResponse : Type := {
  content : string;
  usage : option (gmap string pyval)
}.

(** The calls the crew tools make on [pool] and [llm].  The assignment
    [pool.finish_tokens = v] is an operation on the pool as well. *)
Inductive crew_op : Type :=
| pool_spawn (task priority depends_on : pyval)
| pool_wait_for (agent_ids : pyval)
| pool_get_workers
| pool_set_finish_tokens (v : pyval)
| llm_generate (system_prompt : string) (messages tools : pyval).

Definition crew_ans (o : crew_op) : Type :=
  match o with
  | pool_spawn _ _ _ => pyval
  | pool_wait_for _ => pyval
  | pool_get_workers => list AgentWorker
  | pool_set_finish_tokens _ => unit
  | llm_generate _ _ _ => LLMResponse
  end.

Definition crewΣ : signature := Signature crew_op crew_ans.

Definition is_generate (o : crew_op) : bool :=
  match o with llm_generate _ _ _ => true | _ => false end.

(** Truth value of an optional text attribute: [None] and [""] are false. *)
Definition nonempty (o : option string) : bool :=
  match o with
  | Some s => negb (String.eqb s "")
  | None => false
  end.

Definition text (o : option string) : string := default "" o.

Definition spawn_agent_fn (arguments : gmap string pyval) : prog crewΣ pyval :=
  let task := get arguments "task" (PStr "") in
  let priority := get arguments "priority" (PInt 1) in
  let depends_on := get arguments "depends_on" (PList []) in
  if negb (truthy task) then Ret (PStr "Error: task is required")
  else
    agent_id ← call (Σ := crewΣ) (pool_spawn task priority depends_on);
    Ret (PStr ("Spawned " +:+ py_str agent_id +:+ ": " +:+ py_str task)).

(** The labeled block of one worker, or nothing when it has neither a result
    nor an error. *)
Definition worker_block (w : AgentWorker) : list string :=
  if nonempty (w_result w) then
    ["## " +:+ w_id w +:+ ": " +:+ w_task w +:+ nl +:+ text (w_result w)]
  else if nonempty (w_error w) then
    ["## " +:+ w_id w +:+ ": " +:+ w_task w +:+ nl +:+ "Error: " +:+ text (w_error w)]
  else [].

Definition results_text (workers : list AgentWorker) : list string :=
  flat_map worker_block workers.

Definition synthesis_system_prompt : string :=
  "You are synthesizing penetration test results. Be factual, clear, and concise.".

Definition synthesis_prompt (context : pyval) (blocks : list string) : string :=
  "Synthesize these agent findings into a clear, concise summary." +:+ nl +:+
  nl +:+
  "Context: " +:+ py_str (py_or context (PStr "Penetration test task completed.")) +:+ nl +:+
  nl +:+
  "Agent Results:" +:+ nl +:+
  join nl blocks +:+ nl +:+
  nl +:+
  "Provide a unified summary of what was accomplished and key findings.".

(** [if response.usage:] an absent or empty mapping is false. *)
Definition usage_truthy (u : option (gmap string pyval)) : bool :=
  match u with
  | Some m => negb (bool_decide (m = ∅))
  | None => false
  end.

Definition finish_fn (arguments : gmap string pyval) : prog crewΣ pyval :=
  let context := get arguments "context" (PStr "") in
  _ ← call (Σ := crewΣ) (pool_wait_for PNone);
  workers ← call (Σ := crewΣ) pool_get_workers;
  match workers with
  | [] => Ret (py_or context (PStr "Task completed. No agents were spawned."))
  | _ =>
    let blocks := results_text workers in
    match blocks with
    | [] => Ret (py_or context (PStr "Task completed. Agents ran but produced no results."))
    | _ =>
      let prompt := synthesis_prompt context blocks in
      response ← call (Σ := crewΣ)
        (llm_generate synthesis_system_prompt
           (PList [PDict [("role", PStr "user"); ("content", PStr prompt)]])
           (PList []));
      _ ← (if usage_truthy (usage response)
           then call (Σ := crewΣ)
                  (pool_set_finish_tokens
                     (get (default ∅ (usage response)) "total_tokens" (PInt 0)))
           else Ret tt);
      Ret (PStr (content response))
    end
  end.

(** [c.get(k, d)] where [c] may be any value: only a dict has [get]. *)
Definition dict_get (c : pyval) (k : string) (d : pyval) : reply pyval :=
  match c with
  | PDict kvs => Ok (default d (assoc k kvs))
  | _ => Raise (Exn AttributeError
                  ("'" +:+ type_name c +:+ "' object has no attribute 'get'"))
  end.

Fixpoint chars (s : string) : list pyval :=
  match s with
  | "" => []
  | String c s' => PStr (String c "") :: chars s'
  end.

(** The items [for c in v] visits. *)
Definition py_iter (v : pyval) : reply (list pyval) :=
  match v with
  | PList xs => Ok xs
  | PStr s => Ok (chars s)
  | PDict kvs => Ok (List.map (fun kv => PStr kv.1) kvs)
  | _ => Raise (Exn TypeError ("'" +:+ type_name v +:+ "' object is not iterable"))
  end.

(** [next((c for c in candidates if c.get("id") == selected_id), None)] *)
Fixpoint find_selected (selected_id : pyval) (candidates : list pyval) : reply pyval :=
  match candidates with
  | [] => Ok PNone
  | c :: rest =>
      match dict_get c "id" PNone with
      | Raise e => Raise e
      | Ok i => if py_eqb i selected_id then Ok c else find_selected selected_id rest
      end
  end.

(** The four lines the loop appends for one candidate. *)
Definition candidate_lines (selected_id c : pyval) : reply (list string) :=
  match dict_get c "id" PNone, dict_get c "name" PNone, dict_get c "pros" PNone,
        dict_get c "cons" PNone, dict_get c "risk" PNone with
  | Ok i, Ok c_name, Ok c_pros, Ok c_cons, Ok c_risk =>
      let mark := if py_eqb i selected_id then "(SELECTED)" else "" in
      Ok [ "- **" +:+ py_str c_name +:+ "** " +:+ mark;
           "  - Pros: " +:+ py_str c_pros;
           "  - Cons: " +:+ py_str c_cons;
           "  - Risk: " +:+ py_str c_risk ]
  | Raise e, _, _, _, _ => Raise e
  | _, Raise e, _, _, _ => Raise e
  | _, _, Raise e, _, _ => Raise e
  | _, _, _, Raise e, _ => Raise e
  | _, _, _, _, Raise e => Raise e
  end.

Fixpoint options_lines (selected_id : pyval) (candidates : list pyval) : reply (list string) :=
  match candidates with
  | [] => Ok []
  | c :: rest =>
      match candidate_lines selected_id c with
      | Raise e => Raise e
      | Ok ls =>
          match options_lines selected_id rest with
          | Raise e => Raise e
          | Ok more => Ok (ls ++ more)
          end
      end
  end.

Definition terminate_record (problem rationale : pyval) : string :=
  "## Strategic Decision: TERMINATE MISSION" +:+ nl +:+
  "**Problem:** " +:+ py_str problem +:+ nl +:+
  "**Rationale:** " +:+ py_str rationale +:+ nl +:+
  nl +:+
  "Mission marked as infeasible.".

Definition formulate_strategy_fn (arguments : gmap string pyval) : prog crewΣ pyval :=
  let problem := get arguments "problem" (PStr "") in
  let candidates := get arguments "candidates" (PList []) in
  let selected_id := get arguments "selected_id" (PStr "") in
  let rationale := get arguments "rationale" (PStr "") in
  let feasible := get arguments "feasible" (PBool true) in
  if negb (truthy problem) then Ret (PStr "Error: problem is required.")
  else if negb (truthy feasible) then Ret (PStr (terminate_record problem rationale))
  else if negb (truthy candidates) || negb (truthy selected_id) then
    Ret (PStr "Error: candidates and selected_id are required when feasible=True.")
  else
    items ← lift (py_iter candidates);
    selected ← lift (find_selected selected_id items);
    if negb (truthy selected) then
      Ret (PStr ("Error: Selected ID '" +:+ py_str selected_id +:+
                 "' not found in candidates."))
    else
      name ← lift (dict_get selected "name" (PStr "Unknown"));
      let output := [ "## Strategic Decision: " +:+ py_str name;
                      "**Problem:** " +:+ py_str problem;
                      "";
                      "**Considered Options:**" ] in
      options ← lift (options_lines selected_id items);
      Ret (PStr (join nl (output ++ options ++
                          [""; "**Rationale:** " +:+ py_str rationale]))).

(** *** The pool object and the collaborators' behaviour *)

(** Modelled from the spec: the pool as the tools see it, its attribute
    [finish_tokens] next to the state [P] its methods and the LLM work on
    (worker_pool.py and the LLM client are not part of the sources). *)
Record WorkerPool (P : Type) : Type := {
  finish_tokens : pyval;
  pool_state : P
}.
Arguments finish_tokens {P} _.
Arguments pool_state {P} _.

(** The behaviour of the pool's methods and of [llm.generate]; none of them
    touches [finish_tokens], which only the synthesis step writes. *)
Record collaborators (P : Type) : Type := {
  spawn : pyval -> pyval -> pyval -> P -> reply pyval * P;
  wait_for : pyval -> P -> reply pyval * P;
  get_workers : P -> reply (list AgentWorker) * P;
  generate : string -> pyval -> pyval -> P -> reply LLMResponse * P
}.
Arguments spawn {P} _.
Arguments wait_for {P} _.
Arguments get_workers {P} _.
Arguments generate {P} _.

Definition crew_handler {P} (C : collaborators P) (o : crew_op) (pool : WorkerPool P)
  : reply (crew_ans o) * WorkerPool P :=
  let ft := finish_tokens pool in
  let st := pool_state pool in
  let keep {A} (x : reply A * P) : reply A * WorkerPool P :=
    (x.1, {| finish_tokens := ft; pool_state := x.2 |}) in
  match o with
  | pool_spawn t p d => keep (spawn C t p d st)
  | pool_wait_for ids => keep (wait_for C ids st)
  | pool_get_workers => keep (get_workers C st)
  | pool_set_finish_tokens v => (Ok tt, {| finish_tokens := v; pool_state := st |})
  | llm_generate sp ms ts => keep (generate C sp ms ts st)
  end.

(** A worker contributes to the synthesis when its result or its error is
    non-empty. *)
Definition has_output (w : AgentWorker) : bool :=
  nonempty (w_result w) || nonempty (w_error w).

(** A pool for exercising the tools: its workers are fixed, [spawn] hands
    out [agent-<n>] for the next free [n], and the LLM answers every request
    with the same response. *)
Definition scripted (ws : list AgentWorker) (resp : LLMResponse) : collaborators nat := {|
  spawn := fun _ _ _ n => (Ok (PStr ("agent-" +:+ dec (Z.of_nat n))), Datatypes.S n);
  wait_for := fun _ n => (Ok (PDict []), n);
  get_workers := fun n => (Ok ws, n);
  generate := fun _ _ _ n => (Ok resp, n)
|}.

(** The labeled block as the specification words it: the worker's id, its
    original task text, then its result or, failing that, its error. *)
Definition render_block (w : AgentWorker) : string :=
  "## " +:+ w_id w +:+ ": " +:+ w_task w +:+ nl +:+
  (if nonempty (w_result w) then text (w_result w)
   else "Error: " +:+ text (w_error w)).

(** The one message of the synthesis request. *)
Definition synthesis_messages (prompt : string) : pyval :=
  PList [PDict [("role", PStr "user"); ("content", PStr prompt)]].

(** *** The decision record as the specification words it *)

Definition is_dict (v : pyval) : bool :=
  match v with PDict _ => true | _ => false end.

(** [c.get(k, d)] for a candidate that is a dict. *)
Definition field (c : pyval) (k : string) (d : pyval) : pyval :=
  match c with
  | PDict kvs => default d (assoc k kvs)
  | _ => d
  end.

(** The candidate's id equals the selected id. *)
Definition has_id (selected_id c : pyval) : bool :=
  py_eqb (field c "id" PNone) selected_id.

(** One enumerated candidate: its name, marked when selected, then its pros,
    cons and risk. *)
Definition option_entry (selected_id c : pyval) : list string :=
  [ "- **" +:+ py_str (field c "name" PNone) +:+ "** " +:+
      (if has_id selected_id c then "(SELECTED)" else "");
    "  - Pros: " +:+ py_str (field c "pros" PNone);
    "  - Cons: " +:+ py_str (field c "cons" PNone);
    "  - Risk: " +:+ py_str (field c "risk" PNone) ].

(** Problem statement, enumerated candidates, rationale; headed by the name
    of the selected candidate [sel]. *)
Definition decision_record (problem rationale selected_id : pyval)
    (candidates : list pyval) (sel : pyval) : string :=
  join nl
    ([ "## Strategic Decision: " +:+ py_str (field sel "name" (PStr "Unknown"));
       "**Problem:** " +:+ py_str problem;
       "";
       "**Considered Options:**" ]
     ++ List.concat (List.map (option_entry selected_id) candidates)
     ++ [ ""; "**Rationale:** " +:+ py_str rationale ]).

(** A returned text that reports an error. *)
Definition is_error (s : string) : bool := startswith s "Error: ".

(** ** The [json] module: [dumps] and [loads] with their default settings *)

(** Four lower-case hexadecimal digits, as in the format [%04x]. *)
Definition hex4 (n : Z) : string :=
  String (hexdig (n / 4096))
    (String (hexdig ((n / 256) mod 16))
       (String (hexdig ((n / 16) mod 16))
          (String (hexdig (n mod 16)) ""))).

(** [ensure_ascii] escaping of one character: the quote and the backslash
    are escaped, the usual controls have short forms, and everything else
    outside the printable ASCII range becomes [\uXXXX]. *)
Definition json_escape_char (c : ascii) : string :=
  let n := code c in
  if n =? 34 then String backslash (String dquote "")
  else if n =? 92 then String backslash (String backslash "")
  else if n =? 10 then String backslash "n"
  else if n =? 13 then String backslash "r"
  else if n =? 9 then String backslash "t"
  else if n =? 8 then String backslash "b"
  else if n =? 12 then String backslash "f"
  else if (32 <=? n) && (n <=? 126) then String c ""
  else String backslash (String "u" (hex4 n)).

Fixpoint json_escape (s : string) : string :=
  match s with
  | "" => ""
  | String c s' => json_escape_char c +:+ json_escape s'
  end.

Definition json_string (s : string) : string :=
  String dquote (json_escape s +:+ String dquote "").

(** [json.dumps(v)]: items are separated by [", "] and keys from values by
    [": "]. *)
Fixpoint json_dumps (v : pyval) : string :=
  match v with
  | PNone => "null"
  | PBool true => "true"
  | PBool false => "false"
  | PInt z => dec z
  | PStr s => json_string s
  | PList xs => "[" +:+ join ", " (List.map json_dumps xs) +:+ "]"
  | PDict kvs =>
      "{" +:+ join ", "
        (List.map (fun kv => match kv with
                             | (k, x) => json_string k +:+ ": " +:+ json_dumps x
                             end) kvs) +:+ "}"
  end.

(** The outcome of scanning a prefix of the input: a value and the input
    left, a syntax error, or input whose value this development has no
    representation for (a float, a character beyond the 8-bit alphabet). *)
Inductive parsed (A : Type) : Type :=
| Parsed (a : A) (rest : string)
| Malformed
| Unsupported.
Arguments Parsed {A} a rest.
Arguments Malformed {A}.
Arguments Unsupported {A}.

Definition parsed_map {A B} (f : A -> B) (p : parsed A) : parsed B :=
  match p with
  | Parsed a rest => Parsed (f a) rest
  | Malformed => Malformed
  | Unsupported => Unsupported
  end.

Definition is_ws (c : ascii) : bool :=
  let n := code c in (n =? 32) || (n =? 9) || (n =? 10) || (n =? 13).

Fixpoint skip_ws (s : string) : string :=
  match s with
  | "" => ""
  | String c s' => if is_ws c then skip_ws s' else s
  end.

Definition is_digit (c : ascii) : bool :=
  let n := code c in (48 <=? n) && (n <=? 57).

Definition hexval (c : ascii) : option Z :=
  let n := code c in
  if (48 <=? n) && (n <=? 57) then Some (n - 48)
  else if (97 <=? n) && (n <=? 102) then Some (n - 87)
  else if (65 <=? n) && (n <=? 70) then Some (n - 55)
  else None.

(** The character a one-letter escape stands for. *)
Definition unescape (e : ascii) : option ascii :=
  let n := code e in
  if n =? 34 then Some dquote
  else if n =? 92 then Some backslash
  else if n =? 47 then Some "/"%char
  else if n =? 98 then Some (chr 8)
  else if n =? 102 then Some (chr 12)
  else if n =? 110 then Some (chr 10)
  else if n =? 114 then Some (chr 13)
  else if n =? 116 then Some (chr 9)
  else None.

(** [scanstring], strict: the input starts after the opening quote; a raw
    control character is an error. *)
Fixpoint scanstring (s : string) : parsed string :=
  match s with
  | "" => Malformed
  | String c s1 =>
      if code c =? 34 then Parsed "" s1
      else if code c =? 92 then
        match s1 with
        | "" => Malformed
        | String e s2 =>
            if code e =? 117 then
              match s2 with
              | String h3 (String h2 (String h1 (String h0 s3))) =>
                  match hexval h3, hexval h2, hexval h1, hexval h0 with
                  | Some x3, Some x2, Some x1, Some x0 =>
                      let uni := ((x3 * 16 + x2) * 16 + x1) * 16 + x0 in
                      if uni <? 256
                      then parsed_map (String (chr uni)) (scanstring s3)
                      else Unsupported
                  | _, _, _, _ => Malformed
                  end
              | _ => Malformed
              end
            else
              match unescape e with
              | Some ch => parsed_map (String ch) (scanstring s2)
              | None => Malformed
              end
        end
      else if code c <? 32 then Malformed
      else parsed_map (String c) (scanstring s1)
  end.

(** The longest run of decimal digits at the start of the input. *)
Fixpoint span_digits (s : string) : string * string :=
  match s with
  | "" => ("", "")
  | String c s' =>
      if is_digit c
      then let '(ds, rest) := span_digits s' in (String c ds, rest)
      else ("", s)
  end.

(** A fraction (a dot and a digit) or an exponent ([e] or [E], an optional
    sign and a digit) follows. *)
Definition float_follows (rest : string) : bool :=
  match rest with
  | String c (String d more) =>
      ((code c =? 46) && is_digit d)
      || (((code c =? 101) || (code c =? 69))
          && (is_digit d
              || (((code d =? 43) || (code d =? 45))
                  && match more with String d' _ => is_digit d' | "" => false end)))
  | _ => false
  end.

(** [NUMBER_RE.match]: an optional minus sign, then either a single zero or
    a non-zero digit and the digits after it; a fraction or an exponent
    after that makes the number a float.  [None] when the input does not
    start with a number. *)
Definition match_number (s : string) : option (parsed pyval) :=
  let '(sign, s1) :=
    match s with
    | String c s' => if code c =? 45 then ("-", s') else ("", s)
    | "" => ("", s)
    end in
  match s1 with
  | String c s2 =>
      if is_digit c then
        let '(ds, rest) :=
          if code c =? 48 then ("0", s2) else span_digits s1 in
        Some (if float_follows rest then Unsupported
              else match NilZero.int_of_string (sign +:+ ds) with
                   | Some d => Parsed (PInt (Z.of_int d)) rest
                   | None => Malformed
                   end)
      else None
  | "" => None
  end.

(** [dict(pairs)]: a repeated key keeps its first position and takes the
    later value. *)
Fixpoint dict_set (kvs : list (string * pyval)) (k : string) (v : pyval)
  : list (string * pyval) :=
  match kvs with
  | [] => [(k, v)]
  | (k', v') :: rest =>
      if String.eqb k k' then (k, v) :: rest else (k', v') :: dict_set rest k v
  end.

(** The items of an array, from the start of an item on. *)
Fixpoint array_items (scan : string -> parsed pyval) (fuel : nat) (s : string)
    (acc : list pyval) : parsed pyval :=
  match fuel with
  | O => Unsupported
  | Datatypes.S f =>
      match scan s with
      | Parsed v s1 =>
          match skip_ws s1 with
          | String c s2 =>
              if code c =? 93 then Parsed (PList (acc ++ [v])) s2
              else if code c =? 44 then array_items scan f (skip_ws s2) (acc ++ [v])
              else Malformed
          | "" => Malformed
          end
      | Malformed => Malformed
      | Unsupported => Unsupported
      end
  end.

(** The pairs of an object, from just after the opening quote of a key on. *)
Fixpoint object_items (scan : string -> parsed pyval) (fuel : nat) (s : string)
    (acc : list (string * pyval)) : parsed pyval :=
  match fuel with
  | O => Unsupported
  | Datatypes.S f =>
      match scanstring s with
      | Parsed key s1 =>
          match skip_ws s1 with
          | String c s2 =>
              if code c =? 58 then
                match scan (skip_ws s2) with
                | Parsed v s3 =>
                    match skip_ws s3 with
                    | String d s4 =>
                        if code d =? 125 then Parsed (PDict (dict_set acc key v)) s4
                        else if code d =? 44 then
                          match skip_ws s4 with
                          | String q s5 =>
                              if code q =? 34
                              then object_items scan f s5 (dict_set acc key v)
                              else Malformed
                          | "" => Malformed
                          end
                        else Malformed
                    | "" => Malformed
                    end
                | Malformed => Malformed
                | Unsupported => Unsupported
                end
              else Malformed
          | "" => Malformed
          end
      | Malformed => Malformed
      | Unsupported => Unsupported
      end
  end.

(** [scan_once]: one JSON value at the start of the input.  [fuel] bounds
    the nesting depth and the number of items of each array and object;
    [json_loads] gives it more than the length of the input. *)
Fixpoint scan_once (fuel : nat) (s : string) : parsed pyval :=
  match fuel with
  | O => Unsupported
  | Datatypes.S f =>
      match s with
      | "" => Malformed
      | String c s1 =>
          if code c =? 34 then parsed_map PStr (scanstring s1)
          else if code c =? 123 then
            match skip_ws s1 with
            | String d s2 =>
                if code d =? 125 then Parsed (PDict []) s2
                else if code d =? 34 then object_items (scan_once f) f s2 []
                else Malformed
            | "" => Malformed
            end
          else if code c =? 91 then
            match skip_ws s1 with
            | String d s2 =>
                if code d =? 93 then Parsed (PList []) s2
                else array_items (scan_once f) f (skip_ws s1) []
            | "" => Malformed
            end
          else if startswith s "null" then Parsed PNone (string_drop 4 s)
          else if startswith s "true" then Parsed (PBool true) (string_drop 4 s)
          else if startswith s "false" then Parsed (PBool false) (string_drop 5 s)
          else
            match match_number s with
            | Some r => r
            | None =>
                if startswith s "NaN" || startswith s "Infinity"
                   || startswith s "-Infinity"
                then Unsupported
                else Malformed
            end
      end
  end.

(** What [json.loads] does with a text. *)
Inductive loaded : Type :=
| Loaded (v : pyval)
| DecodeError
| Unmodelled.

(** [json.loads(s)]: one value, white space allowed around it, nothing else. *)
Definition json_loads (s : string) : loaded :=
  match scan_once (Datatypes.S (String.length s)) (skip_ws s) with
  | Parsed v rest =>
      match skip_ws rest with
      | "" => Loaded v
      | _ => DecodeError
      end
  | Malformed => DecodeError
  | Unsupported => Unmodelled
  end.

(** *** Well-formed values and measures *)

Fixpoint distinct (ks : list string) : bool :=
  match ks with
  | [] => true
  | k :: ks' => negb (existsb (String.eqb k) ks') && distinct ks'
  end.

(** The keys of every dict in the value are pairwise distinct, as they are in
    any Python dict. *)
Fixpoint well_formed (v : pyval) : bool :=
  match v with
  | PList xs => forallb well_formed xs
  | PDict kvs =>
      distinct (List.map fst kvs)
      && forallb (fun kv => match kv with (_, x) => well_formed x end) kvs
  | _ => true
  end.

(** The number of nodes of a value. *)
Fixpoint size (v : pyval) : nat :=
  match v with
  | PList xs => Datatypes.S (list_sum (List.map size xs))
  | PDict kvs =>
      Datatypes.S (list_sum (List.map (fun kv => match kv with (_, x) => size x end) kvs))
  | _ => 1%nat
  end.

(** What [json_dumps] writes after the first item of an array... *)
Fixpoint array_tail (xs : list pyval) : string :=
  match xs with
  | [] => "]"
  | x :: xs' => ", " +:+ json_dumps x +:+ array_tail xs'
  end.

(** ...and after the first pair of an object. *)
Fixpoint object_tail (kvs : list (string * pyval)) : string :=
  match kvs with
  | [] => "}"
  | (k, x) :: kvs' => ", " +:+ json_string k +:+ ": " +:+ json_dumps x +:+ object_tail kvs'
  end.

(** The input after a value either ends or goes on with a comma or a
    closing bracket. *)
Definition ends_value (rest : string) : bool :=
  match rest with
  | "" => true
  | String c _ => (code c =? 44) || (code c =? 93) || (code c =? 125)
  end.

(** The characters a dumped value can start with. *)
Definition starts_value (c : ascii) : bool :=
  is_digit c || (code c =? 45) || (code c =? 34) || (code c =? 91)
  || (code c =? 123) || (code c =? 110) || (code c =? 116) || (code c =? 102).

(** The pair [json_dumps] writes for one entry of a dict. *)
Definition dump_pair (kv : string * pyval) : string :=
  match kv with (k, x) => json_string k +:+ ": " +:+ json_dumps x end.

Definition pair_size (kv : string * pyval) : nat :=
  match kv with (_, x) => size x end.

(** A decimal numeral that starts with a non-zero digit. *)
Definition head_nonzero (d : Decimal.uint) : Prop :=
  match d with
  | Decimal.Nil | Decimal.D0 _ => False
  | _ => True
  end.

(** ** Task completion tool (tools/completion/__init__.py) *)

Definition TASK_COMPLETE_SIGNAL : string := "__TASK_COMPLETE__".

(** A result of the model: a value, or [Beyond] when the input leads to a
    value this development has no representation for. *)
Inductive modelled (A : Type) : Type :=
| Within (a : A)
| Beyond.
Arguments Within {A} a.
Arguments Beyond {A}.

Record CompletionReport : Type := {
  status : pyval;
  summary : pyval;
  findings : pyval;
  artifacts : pyval;
  recommendations : pyval
}.

(** [CompletionReport.__init__]: a false [findings], [artifacts] or
    [recommendations] becomes the empty list. *)
Definition CompletionReport_init
    (status summary findings artifacts recommendations : pyval) : CompletionReport :=
  {| status := status;
     summary := summary;
     findings := py_or findings (PList []);
     artifacts := py_or artifacts (PList []);
     recommendations := py_or recommendations (PList []) |}.

Definition to_dict (self : CompletionReport) : pyval :=
  PDict [ ("status", status self);
          ("summary", summary self);
          ("findings", findings self);
          ("artifacts", artifacts self);
          ("recommendations", recommendations self) ].

Definition to_json (self : CompletionReport) : string :=
  json_dumps (to_dict self).

Definition init_parameters : list string :=
  ["status"; "summary"; "findings"; "artifacts"; "recommendations"].

Definition is_parameter (k : string) : bool :=
  existsb (String.eqb k) init_parameters.

(** The constructor called on the unpacked [data]: [data] must be a mapping
    whose keys are parameters of [__init__]; the parameters left out take
    their defaults. *)
Definition CompletionReport_from_kwargs (data : pyval) : reply CompletionReport :=
  match data with
  | PDict kvs =>
      match List.find (fun kv => negb (is_parameter kv.1)) kvs with
      | Some (k, _) =>
          Raise (Exn TypeError
                   ("CompletionReport.__init__() got an unexpected keyword argument '"
                    +:+ k +:+ "'"))
      | None =>
          Ok (CompletionReport_init
                (default (PStr "success") (assoc "status" kvs))
                (default (PStr "") (assoc "summary" kvs))
                (default PNone (assoc "findings" kvs))
                (default PNone (assoc "artifacts" kvs))
                (default PNone (assoc "recommendations" kvs)))
      end
  | _ =>
      Raise (Exn TypeError
               ("CompletionReport() argument after ** must be a mapping, not "
                +:+ type_name data))
  end.

Definition from_json (json_str : string) : modelled (reply CompletionReport) :=
  match json_loads json_str with
  | Loaded data => Within (CompletionReport_from_kwargs data)
  | DecodeError => Within (Raise (Exn JSONDecodeError "Expecting value"))
  | Unmodelled => Beyond
  end.

(** The control tool [finish]. *)
Definition finish (arguments : gmap string pyval) : string :=
  let report :=
    CompletionReport_init
      (get arguments "status" (PStr "success"))
      (get arguments "summary" (PStr "Task completed."))
      (get arguments "findings" (PList []))
      (get arguments "artifacts" (PList []))
      (get arguments "recommendations" (PList [])) in
  TASK_COMPLETE_SIGNAL +:+ ":" +:+ to_json report.

Definition is_task_complete (result : string) : bool :=
  startswith result TASK_COMPLETE_SIGNAL.

(** [result[len(TASK_COMPLETE_SIGNAL) + 1:]] *)
Definition completion_data (result : string) : string :=
  string_drop (String.length TASK_COMPLETE_SIGNAL + 1) result.

Definition extract_completion_summary (result : string) : modelled (reply pyval) :=
  if is_task_complete result then
    let data := completion_data result in
    match from_json data with
    | Within (Ok report) => Within (Ok (summary report))
    | Within (Raise e) =>
        if is_JSONDecodeError e || is_TypeError e then Within (Ok (PStr data))
        else Within (Raise e)
    | Beyond => Beyond
    end
  else Within (Ok (PStr result)).

Definition extract_completion_report (result : string)
  : modelled (reply (option CompletionReport)) :=
  if is_task_complete result then
    let data := completion_data result in
    match from_json data with
    | Within (Ok report) => Within (Ok (Some report))
    | Within (Raise e) =>
        if is_JSONDecodeError e || is_TypeError e then
          Within (Ok (Some (CompletionReport_init (PStr "success") (PStr data)
                              PNone PNone PNone)))
        else Within (Raise e)
    | Beyond => Beyond
    end
  else Within (Ok None).

(** ** Filesystem tools (tools/filesystem/__init__.py) *)

(** What the filesystem tools ask of [pathlib] and of the module's global
    [_WORKSPACE_ROOT].  A resolved path is kept as its text. *)
Inductive fs_op : Type :=
| path_resolve (filepath : pyval)
| workspace_root
| relative_to (path root : string)
| path_exists (path : string)
| path_is_file (path : string)
| read_text (path encoding : string)
| write_text (path data encoding : string).

Definition fs_ans (o : fs_op) : Type :=
  match o with
  | path_resolve _ => string
  | workspace_root => option string
  | relative_to _ _ => unit
  | path_exists _ => bool
  | path_is_file _ => bool
  | read_text _ _ => string
  | write_text _ _ _ => unit
  end.

Definition fsΣ : signature := Signature fs_op fs_ans.

Definition is_write (o : fs_op) : bool :=
  match o with write_text _ _ _ => true | _ => false end.

(** [a - b] on integers (booleans count as integers). *)
Definition py_sub (a b : pyval) : reply pyval :=
  match as_int a, as_int b with
  | Some x, Some y => Ok (PInt (x - y))
  | _, _ => Raise (Exn TypeError
                     ("unsupported operand type(s) for -: '" +:+ type_name a +:+
                      "' and '" +:+ type_name b +:+ "'"))
  end.

(** [a < b] where one side is known to be an integer. *)
Definition py_lt (a b : pyval) : reply bool :=
  match as_int a, as_int b with
  | Some x, Some y => Ok (x <? y)
  | _, _ => Raise (Exn TypeError
                     ("'<' not supported between instances of '" +:+ type_name a +:+
                      "' and '" +:+ type_name b +:+ "'"))
  end.

(** [a > b] where one side is known to be an integer. *)
Definition py_gt (a b : pyval) : reply bool :=
  match as_int a, as_int b with
  | Some x, Some y => Ok (y <? x)
  | _, _ => Raise (Exn TypeError
                     ("'>' not supported between instances of '" +:+ type_name a +:+
                      "' and '" +:+ type_name b +:+ "'"))
  end.

(** [min(a, b)]: [b] when [b < a], else [a]. *)
Definition py_min (a b : pyval) : reply pyval :=
  match py_lt b a with
  | Ok lt => Ok (if lt then b else a)
  | Raise e => Raise e
  end.

(** [max(a, b)]: [b] when [b > a], else [a]. *)
Definition py_max (a b : pyval) : reply pyval :=
  match py_gt b a with
  | Ok gt => Ok (if gt then b else a)
  | Raise e => Raise e
  end.

(** The integer an index stands for. *)
Definition index (v : pyval) : Z := default 0 (as_int v).

(** [str.splitlines]: the line boundaries of the 8-bit alphabet are
    LF, VT, FF, CR (CR LF counting once), FS, GS, RS and NEL. *)
Definition is_linebreak (c : ascii) : bool :=
  let n := code c in
  ((10 <=? n) && (n <=? 13)) || ((28 <=? n) && (n <=? 30)) || (n =? 133).

Fixpoint splitlines_from (line : string) (s : string) : list string :=
  match s with
  | "" => if String.eqb line "" then [] else [line]
  | String c s' =>
      if code c =? 13 then
        match s' with
        | String d s'' =>
            if code d =? 10 then line :: splitlines_from "" s''
            else line :: splitlines_from "" s'
        | "" => [line]
        end
      else if is_linebreak c then line :: splitlines_from "" s'
      else splitlines_from (line +:+ String c "") s'
  end.

Definition splitlines (s : string) : list string := splitlines_from "" s.

Fixpoint string_repeat (s : string) (n : nat) : string :=
  match n with
  | O => ""
  | Datatypes.S n' => s +:+ string_repeat s n'
  end.

(** The format [{i:4d}]: decimal, right-aligned in four columns. *)
Definition format_4d (i : Z) : string :=
  let s := dec i in
  string_repeat " " (4 - String.length s) +:+ s.

(** [f"{i:4d} | {line}"] for the lines numbered from [first]. *)
Fixpoint numbered (first : Z) (lines : list string) : list string :=
  match lines with
  | [] => []
  | line :: rest => (format_4d first +:+ " | " +:+ line) :: numbered (first + 1) rest
  end.

(** [lines[start:stop]] for [0 <= start] and [0 <= stop]. *)
Definition slice (lines : list string) (start stop : Z) : list string :=
  firstn (Z.to_nat (stop - start)) (skipn (Z.to_nat start) lines).

(** The box-drawing rule character of the listings, as its UTF-8 bytes. *)
Definition rule_char : string := "─".

Definition _validate_path (filepath : pyval) : prog fsΣ string :=
  path ← call (Σ := fsΣ) (path_resolve filepath);
  root ← call (Σ := fsΣ) workspace_root;
  match root with
  | Some r =>
      try_except
        (_ ← call (Σ := fsΣ) (relative_to path r); Ret path)
        (fun e => if is_ValueError e
                  then Throw (Exn ValueError
                                ("Path '" +:+ py_str filepath +:+
                                 "' is outside workspace root"))
                  else Throw e)
  | None => Ret path
  end.

(** [read_text] as UTF-8, and as Latin-1 when that does not decode. *)
Definition read_content (path : string) : prog fsΣ string :=
  try_except (call (Σ := fsΣ) (read_text path "utf-8"))
    (fun e => if is_UnicodeDecodeError e
              then call (Σ := fsΣ) (read_text path "latin-1")
              else Throw e).

Definition read_file_body (filepath start_line end_line : pyval) : prog fsΣ pyval :=
  path ← _validate_path filepath;
  found ← call (Σ := fsΣ) (path_exists path);
  if negb found then Ret (PStr ("Error: File not found: " +:+ py_str filepath))
  else
    is_file ← call (Σ := fsΣ) (path_is_file path);
    if negb is_file then Ret (PStr ("Error: Not a file: " +:+ py_str filepath))
    else
      content ← read_content path;
      let lines := splitlines content in
      let total_lines := PInt (Z.of_nat (length lines)) in
      start_idx ← (if truthy start_line then lift (py_sub start_line (PInt 1))
                   else Ret (PInt 0));
      let end_idx := if truthy end_line then end_line else total_lines in
      start_idx ← lift (m ← py_min start_idx total_lines; py_max (PInt 0) m);
      end_idx ← lift (m ← py_min end_idx total_lines; py_max (PInt 0) m);
      if index end_idx <=? index start_idx then
        Ret (PStr ("Error: Invalid line range " +:+ py_str start_line +:+ "-" +:+
                   py_str end_line +:+ " (file has " +:+ py_str total_lines +:+
                   " lines)"))
      else
        let selected_lines := slice lines (index start_idx) (index end_idx) in
        let output_lines := numbered (index start_idx + 1) selected_lines in
        let header :=
          "File: " +:+ py_str filepath +:+ " (lines " +:+ dec (index start_idx + 1) +:+
          "-" +:+ py_str end_idx +:+ " of " +:+ py_str total_lines +:+ ")" in
        Ret (PStr (header +:+ nl +:+ string_repeat rule_char 60 +:+ nl +:+
                   join nl output_lines)).

Definition read_file (arguments : gmap string pyval) : prog fsΣ pyval :=
  filepath ← lift (subscript arguments "path");
  let start_line := get arguments "start_line" PNone in
  let end_line := get arguments "end_line" PNone in
  try_except (read_file_body filepath start_line end_line)
    (fun e => if is_ValueError e then Ret (PStr ("Error: " +:+ exn_msg e))
              else Ret (PStr ("Error reading file: " +:+ exn_msg e))).

(** [s.count(sub)]: occurrences found from left to right without overlap;
    the empty text occurs at every position, the end included. *)
Fixpoint count_from (skip : nat) (s sub : string) : nat :=
  match s with
  | "" => 0
  | String _ s' =>
      match skip with
      | Datatypes.S k => count_from k s' sub
      | O =>
          if startswith s sub
          then Datatypes.S (count_from (String.length sub - 1) s' sub)
          else count_from 0 s' sub
      end
  end.

Definition str_count (s sub : string) : nat :=
  if String.eqb sub "" then Datatypes.S (String.length s) else count_from 0 s sub.

(** [s.replace(old, new, 1)]: the first occurrence only. *)
Fixpoint replace_first (s old new : string) : string :=
  if startswith s old then new +:+ string_drop (String.length old) s
  else
    match s with
    | "" => ""
    | String c s' => String c (replace_first s' old new)
    end.

(** [s[:n]] *)
Fixpoint string_take (n : nat) (s : string) : string :=
  match n, s with
  | Datatypes.S n', String c s' => String c (string_take n' s')
  | _, _ => ""
  end.

(** [content.count(old_string)]: the argument must be text. *)
Definition py_count (content : string) (sub : pyval) : reply nat :=
  match sub with
  | PStr t => Ok (str_count content t)
  | _ => Raise (Exn TypeError ("must be str, not " +:+ type_name sub))
  end.

(** [content.replace(old_string, new_string, 1)] *)
Definition py_replace_first (content : string) (old new : pyval) : reply string :=
  match old, new with
  | PStr o, PStr n => Ok (replace_first content o n)
  | PStr _, _ =>
      Raise (Exn TypeError
               ("replace() argument 2 must be str, not " +:+ type_name new))
  | _, _ =>
      Raise (Exn TypeError
               ("replace() argument 1 must be str, not " +:+ type_name old))
  end.

(** [s[:100] + "..." if len(s) > 100 else s], then [repr]. *)
Definition preview (v : pyval) : string :=
  match v with
  | PStr s =>
      repr_str (if (100 <? String.length s)%nat then string_take 100 s +:+ "..." else s)
  | _ => py_repr v
  end.

Definition replace_in_file_body (filepath old_string new_string : pyval)
  : prog fsΣ pyval :=
  path ← _validate_path filepath;
  found ← call (Σ := fsΣ) (path_exists path);
  if negb found then Ret (PStr ("Error: File not found: " +:+ py_str filepath))
  else
    content ← read_content path;
    count ← lift (py_count content old_string);
    if (count =? 0)%nat then
      Ret (PStr ("Error: String not found in " +:+ py_str filepath +:+
                 ". Make sure old_string matches exactly (including whitespace)."))
    else if (1 <? count)%nat then
      Ret (PStr ("Error: Found " +:+ dec (Z.of_nat count) +:+ " matches in " +:+
                 py_str filepath +:+
                 ". Include more context in old_string to make it unique."))
    else
      new_content ← lift (py_replace_first content old_string new_string);
      _ ← call (Σ := fsΣ) (write_text path new_content "utf-8");
      Ret (PStr ("Replaced in " +:+ py_str filepath +:+ ":" +:+ nl +:+
                 "- " +:+ preview old_string +:+ nl +:+
                 "+ " +:+ preview new_string)).

Definition replace_in_file (arguments : gmap string pyval) : prog fsΣ pyval :=
  filepath ← lift (subscript arguments "path");
  old_string ← lift (subscript arguments "old_string");
  new_string ← lift (subscript arguments "new_string");
  try_except (replace_in_file_body filepath old_string new_string)
    (fun e => if is_ValueError e then Ret (PStr ("Error: " +:+ exn_msg e))
              else Ret (PStr ("Error replacing in file: " +:+ exn_msg e))).

(** ** Code search tool (tools/codesearch/__init__.py) *)

Definition MAX_CONTEXT_LINES : Z := 3.

(** [search_code]: how it takes its arguments and what it does with an
    exception.  The statements of its [try] block, which drive the
    regular-expression engine and walk the directory tree, are the parameter
    [search_body]. *)
Definition search_code
    (search_body : pyval -> pyval -> pyval -> pyval -> pyval -> pyval -> prog fsΣ pyval)
    (arguments : gmap string pyval) : prog fsΣ pyval :=
  query ← lift (subscript arguments "query");
  let search_path := get arguments "path" (PStr ".") in
  let file_pattern := get arguments "pattern" PNone in
  let use_regex := get arguments "regex" (PBool false) in
  let case_sensitive := get arguments "case_sensitive" (PBool false) in
  context_lines ←
    lift (py_min (get arguments "context_lines" (PInt MAX_CONTEXT_LINES)) (PInt 10));
  try_except
    (search_body query search_path file_pattern use_regex case_sensitive context_lines)
    (fun e => Ret (PStr ("Error searching code: " +:+ exn_msg e))).

(** *** An in-memory file system for exercising the tools *)

(** Paths are taken as already resolved, every entry is a text file whose
    content decodes as UTF-8, and the workspace root, when set, is a prefix
    of the paths inside it. *)
Record memfs : Type := {
  root : option string;
  files : gmap string string
}.

Definition memfs_handler (o : fs_op) (fs : memfs) : reply (fs_ans o) * memfs :=
  match o with
  | path_resolve filepath =>
      (match filepath with
       | PStr p => Ok p
       | _ => Raise (Exn TypeError
                       ("expected str, bytes or os.PathLike object, not " +:+
                        type_name filepath))
       end, fs)
  | workspace_root => (Ok (root fs), fs)
  | relative_to path r =>
      (if startswith path r then Ok tt
       else Raise (Exn ValueError ("'" +:+ path +:+ "' is not in the subpath of '"
                                   +:+ r +:+ "'")), fs)
  | path_exists path => (Ok (bool_decide (is_Some (files fs !! path))), fs)
  | path_is_file path => (Ok (bool_decide (is_Some (files fs !! path))), fs)
  | read_text path _ =>
      (match files fs !! path with
       | Some content => Ok content
       | None => Raise (Exn OSError ("[Errno 2] No such file or directory: '"
                                     +:+ path +:+ "'"))
       end, fs)
  | write_text path data _ =>
      (Ok tt, {| root := root fs; files := <[path := data]> (files fs) |})
  end.

(** ** Sample data for exercising the crew tools *)

Definition worker_done : AgentWorker :=
  {| w_id := "agent-0"; w_task := "scan ports";
     w_result := Some "22/tcp open"; w_error := None |}.

Definition worker_failed : AgentWorker :=
  {| w_id := "agent-1"; w_task := "enumerate services";
     w_result := None; w_error := Some "timeout" |}.

Definition worker_silent : AgentWorker :=
  {| w_id := "agent-2"; w_task := "idle"; w_result := None; w_error := Some "" |}.

Definition response_summary : LLMResponse :=
  {| content := "SSH is exposed."; usage := Some {[ "total_tokens" := PInt 7 ]} |}.

Definition response_blank : LLMResponse :=
  {| content := ""; usage := Some {[ "total_tokens" := PInt 7 ]} |}.

Definition pool_with (tokens : Z) : WorkerPool nat :=
  {| finish_tokens := PInt tokens; pool_state := 0%nat |}.

Definition ssh_context : gmap string pyval := {[ "context" := PStr "Tested SSH" ]}.

Definition coa (i name pros cons risk : string) : pyval :=
  PDict [("id", PStr i); ("name", PStr name); ("pros", PStr pros);
         ("cons", PStr cons); ("risk", PStr risk)].

Definition strategy_args : gmap string pyval :=
  {[ "problem" := PStr "login blocked";
     "candidates" := PList [coa "a" "Brute force" "simple" "noisy" "High";
                            coa "b" "Phishing" "quiet" "slow" "Low"];
     "selected_id" := PStr "b";
     "rationale" := PStr "stealth matters" ]}.

(** ** Sample data for the completion tool *)

(** The report of the specification's round-trip example. *)
Definition partial_report : CompletionReport :=
  CompletionReport_init (PStr "partial") (PStr "x") (PList [PStr "f1"])
    (PList []) (PList []).

Definition partial_args : gmap string pyval :=
  {[ "status" := PStr "partial"; "summary" := PStr "x";
     "findings" := PList [PStr "f1"] ]}.

(** ** Sample data for the filesystem tools *)

Definition notes_fs : memfs :=
  {| root := Some "/work";
     files := {[ "/work/notes.txt" := "alpha beta" +:+ nl +:+ "gamma" ]} |}.

Definition replace_args (old new : string) : gmap string pyval :=
  {[ "path" := PStr "/work/notes.txt";
     "old_string" := PStr old;
     "new_string" := PStr new ]}.

(** A stand-in for the [try] block of [search_code]: nothing is searched. *)
Definition no_matches_body (query _ _ _ _ _ : pyval) : prog fsΣ pyval :=
  Ret (PStr ("No matches found for '" +:+ py_str query +:+ "' in 0 files")).

(** * The rest of the tools *)

(** ** Crew orchestration tools: waiting, status and cancellation *)

(** [results.items()]: only a dict has [items]. *)
Definition py_items (v : pyval) : reply (list (string * pyval)) :=
  match v with
  | PDict kvs => Ok kvs
  | _ => Raise (Exn AttributeError
                  ("'" +:+ type_name v +:+ "' object has no attribute 'items'"))
  end.

(** The items of a list handed to [str.join]: each must be text. *)
Fixpoint str_items (i : Z) (xs : list pyval) : reply (list string) :=
  match xs with
  | [] => Ok []
  | PStr s :: rest =>
      match str_items (i + 1) rest with
      | Ok l => Ok (s :: l)
      | Raise e => Raise e
      end
  | x :: _ =>
      Raise (Exn TypeError
               ("sequence item " +:+ dec i +:+ ": expected str instance, " +:+
                type_name x +:+ " found"))
  end.

Fixpoint char_strings (s : string) : list string :=
  match s with
  | "" => []
  | String c s' => String c "" :: char_strings s'
  end.

(** [sep.join(v)]: a list of texts, the characters of a text, or the keys
    of a dict. *)
Definition py_join (sep : string) (v : pyval) : reply string :=
  match v with
  | PList xs =>
      match str_items 0 xs with
      | Ok l => Ok (join sep l)
      | Raise e => Raise e
      end
  | PStr s => Ok (join sep (char_strings s))
  | PDict kvs => Ok (join sep (List.map fst kvs))
  | _ => Raise (Exn TypeError "can only join an iterable")
  end.

(** The lines one pass of the loop of [wait_for_agents_fn] appends. *)
Definition agent_section (agent_id : string) (data : pyval) : reply (list string) :=
  status ← dict_get data "status" (PStr "unknown");
  task ← dict_get data "task" (PStr "");
  result ← dict_get data "result" (PStr "");
  error ← dict_get data "error" (PStr "");
  tools ← dict_get data "tools_used" (PList []);
  tools_line ← (if truthy tools
                then joined ← py_join ", " tools; Ok ["Tools used: " +:+ joined]
                else Ok []);
  Ok ([ "## " +:+ agent_id +:+ ": " +:+ py_str task;
        "Status: " +:+ py_str status ]
      ++ tools_line
      ++ (if truthy result then ["Result:" +:+ nl +:+ py_str result] else [])
      ++ (if truthy error then ["Error: " +:+ py_str error] else [])
      ++ [""]).

Fixpoint agent_sections (items : list (string * pyval)) : reply (list string) :=
  match items with
  | [] => Ok []
  | (agent_id, data) :: rest =>
      match agent_section agent_id data with
      | Raise e => Raise e
      | Ok ls =>
          match agent_sections rest with
          | Raise e => Raise e
          | Ok more => Ok (ls ++ more)
          end
      end
  end.

Definition wait_for_agents_fn (arguments : gmap string pyval) : prog crewΣ pyval :=
  let agent_ids := get arguments "agent_ids" PNone in
  results ← call (Σ := crewΣ) (pool_wait_for agent_ids);
  if negb (truthy results) then Ret (PStr "No agents to wait for.")
  else
    items ← lift (py_items results);
    output ← lift (agent_sections items);
    Ret (PStr (join nl output)).

(** The two calls on the pool that the status and cancellation tools make. *)
Inductive agent_op : Type :=
| pool_get_status (agent_id : pyval)
| pool_cancel (agent_id : pyval).

Definition agentΣ : signature := Signature agent_op (fun _ => pyval).

(** [json.dumps(v, indent=n)]: every item on a line of its own, indented by
    [n] spaces per level; items are separated by a comma alone. *)
Definition newline_indent (indent level : nat) : string :=
  nl +:+ string_repeat " " (indent * level).

Fixpoint json_dumps_indent (indent level : nat) (v : pyval) : string :=
  match v with
  | PList xs =>
      match xs with
      | [] => "[]"
      | _ =>
          "[" +:+ newline_indent indent (Datatypes.S level) +:+
          join ("," +:+ newline_indent indent (Datatypes.S level))
            (List.map (json_dumps_indent indent (Datatypes.S level)) xs) +:+
          newline_indent indent level +:+ "]"
      end
  | PDict kvs =>
      match kvs with
      | [] => "{}"
      | _ =>
          "{" +:+ newline_indent indent (Datatypes.S level) +:+
          join ("," +:+ newline_indent indent (Datatypes.S level))
            (List.map (fun kv => match kv with
                                 | (k, x) =>
                                     json_string k +:+ ": " +:+
                                     json_dumps_indent indent (Datatypes.S level) x
                                 end) kvs) +:+
          newline_indent indent level +:+ "}"
      end
  | _ => json_dumps v
  end.

Definition get_agent_status_fn (arguments : gmap string pyval) : prog agentΣ pyval :=
  let agent_id := get arguments "agent_id" (PStr "") in
  if negb (truthy agent_id) then Ret (PStr "Error: agent_id is required")
  else
    status ← call (Σ := agentΣ) (pool_get_status agent_id);
    if negb (truthy status) then
      Ret (PStr ("Agent " +:+ py_str agent_id +:+ " not found."))
    else Ret (PStr (json_dumps_indent 2 0 status)).

Definition cancel_agent_fn (arguments : gmap string pyval) : prog agentΣ pyval :=
  let agent_id := get arguments "agent_id" (PStr "") in
  if negb (truthy agent_id) then Ret (PStr "Error: agent_id is required")
  else
    success ← call (Σ := agentΣ) (pool_cancel agent_id);
    if truthy success then Ret (PStr ("Cancelled " +:+ py_str agent_id))
    else Ret (PStr ("Could not cancel " +:+ py_str agent_id +:+
                    " (not running or not found)")).

Definition is_str (v : pyval) : bool :=
  match v with PStr _ => true | _ => false end.

(** A record of the mapping [pool.wait_for] returns, as the pool makes it: a
    dict whose [tools_used], when present, is a list of names. *)
Definition agent_record (data : pyval) : bool :=
  is_dict data &&
  match field data "tools_used" (PList []) with
  | PList names => forallb is_str names
  | _ => false
  end.

(** The section of one agent as a reader of the report sees it: header and
    status, then the tools, the result and the error when there are any,
    then an empty line. *)
Definition report_section (entry : string * pyval) : list string :=
  let '(agent_id, data) := entry in
  let tools := field data "tools_used" (PList []) in
  let result := field data "result" (PStr "") in
  let error := field data "error" (PStr "") in
  [ "## " +:+ agent_id +:+ ": " +:+ py_str (field data "task" (PStr ""));
    "Status: " +:+ py_str (field data "status" (PStr "unknown")) ]
  ++ (match tools with
      | PList ((_ :: _) as names) =>
          ["Tools used: " +:+ join ", " (List.map py_str names)]
      | _ => []
      end)
  ++ (if truthy result then ["Result:" +:+ nl +:+ py_str result] else [])
  ++ (if truthy error then ["Error: " +:+ py_str error] else [])
  ++ [""].

Definition sample_results : pyval :=
  PDict [ ("agent-0", PDict [ ("status", PStr "completed"); ("task", PStr "scan ports");
                              ("result", PStr "22/tcp open");
                              ("tools_used", PList [PStr "nmap"; PStr "curl"]) ]);
          ("agent-1", PDict [ ("status", PStr "failed"); ("task", PStr "enumerate");
                              ("error", PStr "timeout") ]) ].

(** A pool whose [wait_for] reports [sample_results]. *)
Definition reporting_pool : collaborators nat := {|
  spawn := fun _ _ _ n => (Ok (PStr ("agent-" +:+ dec (Z.of_nat n))), Datatypes.S n);
  wait_for := fun _ n => (Ok sample_results, n);
  get_workers := fun n => (Ok [], n);
  generate := fun _ _ _ n => (Raise (Exn RuntimeError "no LLM"), n)
|}.

(** A pool that knows one running agent, [agent-0]. *)
Definition agent0_status : pyval :=
  PDict [ ("id", PStr "agent-0"); ("status", PStr "running");
          ("tools_used", PList [PStr "nmap"]); ("result", PNone) ].

Definition one_agent_pool (o : agent_op) (cancelled : bool)
  : reply pyval * bool :=
  match o with
  | pool_get_status i =>
      (Ok (if py_eqb i (PStr "agent-0") then agent0_status else PNone), cancelled)
  | pool_cancel i =>
      if py_eqb i (PStr "agent-0") && negb cancelled
      then (Ok (PBool true), true)
      else (Ok (PBool false), cancelled)
  end.

(** What [json_dumps_indent] writes after the first item of an array and
    after the first pair of an object. *)
Fixpoint array_tail_indent (indent level : nat) (xs : list pyval) : string :=
  match xs with
  | [] => newline_indent indent level +:+ "]"
  | x :: xs' =>
      "," +:+ newline_indent indent (Datatypes.S level) +:+
      json_dumps_indent indent (Datatypes.S level) x +:+
      array_tail_indent indent level xs'
  end.

Definition dump_pair_indent (indent level : nat) (kv : string * pyval) : string :=
  match kv with
  | (k, x) => json_string k +:+ ": " +:+ json_dumps_indent indent level x
  end.

Fixpoint object_tail_indent (indent level : nat) (kvs : list (string * pyval))
  : string :=
  match kvs with
  | [] => newline_indent indent level +:+ "}"
  | kv :: kvs' =>
      "," +:+ newline_indent indent (Datatypes.S level) +:+
      dump_pair_indent indent (Datatypes.S level) kv +:+
      object_tail_indent indent level kvs'
  end.

(** The input after an indented value either ends or goes on with a comma
    or a line break. *)
Definition stops (rest : string) : bool :=
  match rest with
  | "" => true
  | String c _ => (code c =? 44) || (code c =? 10)
  end.

(** ** Task completion tool: texts and samples *)

Definition printable_ascii (c : ascii) : bool :=
  (32 <=? code c) && (code c <=? 126).

Fixpoint all_chars (p : ascii -> bool) (s : string) : bool :=
  match s with
  | "" => true
  | String c s' => p c && all_chars p s'
  end.

(** A payload that starts no JSON value other than a literal: it is blank,
    or its first character after the white space is no quote, bracket,
    brace, digit or minus sign, and it does not begin with [NaN] or
    [Infinity].  On such a text [json.loads] reads at most one of [null],
    [true] and [false]; it meets no number and no nesting. *)
Definition plain_text (data : string) : bool :=
  match skip_ws data with
  | "" => true
  | String c _ as t =>
      negb ((code c =? 34) || (code c =? 123) || (code c =? 91) || is_digit c
            || (code c =? 45))
      && negb (startswith t "NaN") && negb (startswith t "Infinity")
  end.

(** A completion result of the old format: the sentinel, a colon and a
    plain summary. *)
Definition legacy_result : string := "__TASK_COMPLETE__:all done".

(** ** Filesystem tools: samples *)

(** The longest integer, in decimal digits, that the interpreter turns into
    text: beyond it [str] and the formatting of an f-string raise
    [ValueError] (the default of [sys.set_int_max_str_digits]). *)
Definition int_max_str_digits : Z := 4300.

(** The integers that [str] writes: those of at most [int_max_str_digits]
    digits. *)
Definition writable_int (a : Z) : Prop := Z.abs a < 10 ^ int_max_str_digits.

(** A workspace with an empty file beside the notes. *)
Definition empty_file_fs : memfs :=
  {| root := Some "/work";
     files := {[ "/work/notes.txt" := "alpha beta" +:+ nl +:+ "gamma";
                 "/work/empty.txt" := "" ]} |}.

Definition read_args (path : string) (start_line end_line : pyval)
  : gmap string pyval :=
  {[ "path" := PStr path; "start_line" := start_line; "end_line" := end_line ]}.

(** * The write and search tools *)

(** ** What these tools ask of the system *)

(** A directory as [os.walk] lists it: its subdirectories and its files, in
    the order of the listing. *)
Unset Elimination Schemes.
Inductive dir_tree : Type :=
| Dir (subdirs : list (string * dir_tree)) (filenames : list string).
Set Elimination Schemes.

(** The calls of [_validate_path] and of [pathlib]; those of [write_file],
    where [mkdir_parents path] stands for
    [path.parent.mkdir(parents=True, exist_ok=True)], [open_file] for
    [open(path, mode, encoding="utf-8")], [file_write] for [f.write] and
    [file_close] for leaving the [with] block; and those of the search
    tools: [os_walk], the walk of a directory taken as one listing made
    before its files are read, and [read_text_ignore], the reading of a
    file with the undecodable bytes dropped. *)
Inductive tool_op : Type :=
| fs_call (o : fs_op)
| mkdir_parents (path : string)
| open_file (path mode : string)
| file_write (path : string) (content : pyval)
| file_close (path : string)
| os_walk (path : string)
| read_text_ignore (path : string).

Definition tool_ans (o : tool_op) : Type :=
  match o with
  | fs_call o' => fs_ans o'
  | mkdir_parents _ => unit
  | open_file _ _ => unit
  | file_write _ _ => Z
  | file_close _ => unit
  | os_walk _ => dir_tree
  | read_text_ignore _ => string
  end.

Definition toolΣ : signature := Signature tool_op tool_ans.

(** A program of the filesystem tools run among the calls of this
    signature. *)
Fixpoint embed {A} (p : prog fsΣ A) : prog toolΣ A :=
  match p with
  | Ret a => Ret a
  | Throw e => Throw e
  | Call o k => Call (Σ := toolΣ) (fs_call o) (fun r => embed (k r))
  end.

(** Running a program to its end, its exception caught and handed back. *)
Definition attempt {Σ A} (p : prog Σ A) : prog Σ (reply A) :=
  try_except (bind p (fun a => Ret (Ok a))) (fun e => Ret (Raise e)).

(** ** [write_file] (tools/filesystem/__init__.py) *)

(** [len(v)] *)
Definition py_len (v : pyval) : reply Z :=
  match v with
  | PStr s => Ok (Z.of_nat (String.length s))
  | PList xs => Ok (Z.of_nat (length xs))
  | PDict kvs => Ok (Z.of_nat (length kvs))
  | _ => Raise (Exn TypeError
                  ("object of type '" +:+ type_name v +:+ "' has no len()"))
  end.

(** The [with] block on the opened file: the file is closed on the way out,
    also when the body raised, and then the body's exception goes on. *)
Definition with_file {A} (path : string) (body : prog toolΣ A) : prog toolΣ A :=
  r ← attempt body;
  _ ← call (Σ := toolΣ) (file_close path);
  lift r.

Definition write_file_body (filepath content append : pyval) : prog toolΣ pyval :=
  path ← embed (_validate_path filepath);
  _ ← call (Σ := toolΣ) (mkdir_parents path);
  let mode := if truthy append then "a" else "w" in
  _ ← call (Σ := toolΣ) (open_file path mode);
  _ ← with_file path (call (Σ := toolΣ) (file_write path content));
  let action := if truthy append then "Appended to" else "Wrote" in
  n ← lift (py_len content);
  Ret (PStr (action +:+ " " +:+ dec n +:+ " bytes to " +:+ py_str filepath)).

Definition write_file (arguments : gmap string pyval) : prog toolΣ pyval :=
  filepath ← lift (subscript arguments "path");
  content ← lift (subscript arguments "content");
  let append := get arguments "append" (PBool false) in
  try_except (write_file_body filepath content append)
    (fun e => if is_ValueError e then Ret (PStr ("Error: " +:+ exn_msg e))
              else Ret (PStr ("Error writing file: " +:+ exn_msg e))).

(** ** Code search (tools/codesearch/__init__.py) *)

Definition MAX_RESULTS : Z := 20.

(** The flags the tools compile their patterns with. *)
Inductive re_flags : Type := NoFlags | IGNORECASE | MULTILINE.

(** What [re.compile] gives: a pattern, known here by what its [search]
    finds in a line, or [re.error] with its message. *)
Inductive compiled : Type :=
| Pattern (search : string -> bool)
| ReError (msg : string).

(** The library functions the search tools rely on and whose matching this
    development leaves open: [re.escape], [re.compile] and
    [PurePath.match].  The last is handed the pattern as the caller gave
    it and answers whether the path matches, or raises: [TypeError] for a
    pattern that is no text, [ValueError] for one without parts (such as
    [.]). *)
Record library : Type := {
  re_escape : string -> string;
  re_compile : string -> re_flags -> compiled;
  path_match : string -> pyval -> reply bool
}.

(** [re.escape(v)] and [re.compile(v, flags)]: the argument must be text. *)
Definition py_escape (lib : library) (v : pyval) : reply string :=
  match v with
  | PStr s => Ok (re_escape lib s)
  | _ => Raise (Exn TypeError
                  ("decoding to str: need a bytes-like object, " +:+ type_name v +:+
                   " found"))
  end.

Definition py_compile (lib : library) (v : pyval) (flags : re_flags)
  : reply compiled :=
  match v with
  | PStr s => Ok (re_compile lib s flags)
  | _ => Raise (Exn TypeError "first argument must be string or compiled pattern")
  end.

(** [a + b] on integers (booleans count as integers). *)
Definition py_add (a b : pyval) : reply pyval :=
  match as_int a, as_int b with
  | Some x, Some y => Ok (PInt (x + y))
  | _, _ => Raise (Exn TypeError
                     ("unsupported operand type(s) for +: '" +:+ type_name a +:+
                      "' and '" +:+ type_name b +:+ "'"))
  end.

(** [range(start, stop)] *)
Definition py_range (start stop : Z) : list Z :=
  List.map (fun k => start + Z.of_nat k) (seq 0 (Z.to_nat (stop - start))).

(** [str.isspace] on one character of the 8-bit alphabet. *)
Definition isspace (c : ascii) : bool :=
  let n := code c in
  ((9 <=? n) && (n <=? 13)) || ((28 <=? n) && (n <=? 32)) || (n =? 133)
  || (n =? 160).

Fixpoint lstrip (s : string) : string :=
  match s with
  | "" => ""
  | String c s' => if isspace c then lstrip s' else s
  end.

Fixpoint rstrip (s : string) : string :=
  match s with
  | "" => ""
  | String c s' =>
      match rstrip s' with
      | "" => if isspace c then "" else String c ""
      | r => String c r
      end
  end.

(** [s.strip()] *)
Definition py_strip (s : string) : string := rstrip (lstrip s).

(** A match as [_search_file] records it: the dict with the keys [file],
    [line], [match] and [context]; a context entry holds the 1-based line
    number, the marker and the line. *)
Record search_match : Type := {
  m_file : string;
  m_line : Z;
  m_match : string;
  m_context : list (Z * string * string)
}.

(** The marker of the matching line, an arrow and a space (the arrow as its
    UTF-8 bytes), and that of the other lines. *)
Definition arrow_prefix : string := "→ ".
Definition plain_prefix : string := "  ".

(** The context of the match at index [i]: the lines from
    [max(0, i - context_lines)] up to, not including,
    [min(len(lines), i + context_lines + 1)]. *)
Definition context_of (lines : list string) (i : Z) (context_lines : pyval)
  : reply (list (Z * string * string)) :=
  d ← py_sub (PInt i) context_lines;
  start ← py_max (PInt 0) d;
  u ← py_add (PInt i) context_lines;
  u1 ← py_add u (PInt 1);
  stop ← py_min (PInt (Z.of_nat (length lines))) u1;
  Ok (List.map (fun j => (j + 1,
                          (if j =? i then arrow_prefix else plain_prefix),
                          nth (Z.to_nat j) lines ""))
        (py_range (index start) (index stop))).

(** The loop of [_search_file] over the lines from index [i] on; an
    exception ends it with the matches found so far. *)
Fixpoint search_lines (search : string -> bool) (filepath : string)
    (context_lines : pyval) (lines : list string) (i : Z) (todo : list string)
    (matches : list search_match) : list search_match :=
  match todo with
  | [] => matches
  | line :: rest =>
      if search line then
        match context_of lines i context_lines with
        | Ok context =>
            search_lines search filepath context_lines lines (i + 1) rest
              (matches ++ [{| m_file := filepath; m_line := i + 1;
                              m_match := py_strip line; m_context := context |}])
        | Raise _ => matches
        end
      else search_lines search filepath context_lines lines (i + 1) rest matches
  end.

Definition _search_file (filepath : string) (search : string -> bool)
    (context_lines : pyval) : prog toolΣ (list search_match) :=
  try_except
    (content ← call (Σ := toolΣ) (read_text_ignore filepath);
     let lines := splitlines content in
     Ret (search_lines search filepath context_lines lines 0 lines []))
    (fun _ => Ret []).

(** The page mark of a match header, as its UTF-8 bytes. *)
Definition page_mark : string := "📄".

Definition _format_match (m : search_match) : string :=
  join nl ([ nl +:+ string_repeat rule_char 50;
             page_mark +:+ " " +:+ m_file m +:+ ":" +:+ dec (m_line m);
             "" ]
           ++ List.map (fun entry => match entry with
                                     | (line_num, prefix, text) =>
                                         format_4d line_num +:+ " " +:+ prefix +:+ text
                                     end) (m_context m)).

Definition code_extensions : list string :=
  [ ".py"; ".js"; ".ts"; ".jsx"; ".tsx"; ".java"; ".go"; ".rb"; ".php";
    ".c"; ".cpp"; ".h"; ".hpp"; ".cs"; ".rs"; ".swift"; ".kt"; ".scala";
    ".sh"; ".bash"; ".zsh"; ".ps1"; ".bat"; ".cmd";
    ".json"; ".yaml"; ".yml"; ".toml"; ".ini"; ".cfg"; ".conf";
    ".xml"; ".html"; ".htm"; ".css"; ".scss"; ".sass";
    ".sql"; ".graphql"; ".md"; ".txt"; ".env"; ".gitignore" ].

Definition skip_dirs : list string :=
  [ ".git"; ".svn"; ".hg"; "node_modules"; "__pycache__"; ".pytest_cache";
    "venv"; ".venv"; "env"; ".env"; "dist"; "build"; "target"; ".idea";
    ".vscode"; "coverage"; ".tox"; "eggs"; "*.egg-info" ].

Definition member (x : string) (l : list string) : bool :=
  existsb (String.eqb x) l.

(** [str.lower] on one character of the 8-bit alphabet: the ASCII capitals
    and the Latin-1 capitals, the multiplication sign apart. *)
Definition lower_char (c : ascii) : ascii :=
  let n := code c in
  if ((65 <=? n) && (n <=? 90))
     || ((192 <=? n) && (n <=? 222) && negb (n =? 215))
  then chr (n + 32) else c.

Fixpoint lower (s : string) : string :=
  match s with
  | "" => ""
  | String c s' => String (lower_char c) (lower s')
  end.

(** The part of [s] from its last dot on, when it has a dot. *)
Fixpoint from_last_dot (s : string) : option string :=
  match s with
  | "" => None
  | String c s' =>
      match from_last_dot s' with
      | Some t => Some t
      | None => if code c =? 46 then Some s else None
      end
  end.

(** [PurePath.suffix] of a file name: the part from the last dot on, unless
    that dot is the first or the last character of the name. *)
Definition suffix (name : string) : string :=
  match name with
  | "" => ""
  | String _ rest =>
      match from_last_dot rest with
      | Some t => if (1 <? String.length t)%nat then t else ""
      | None => ""
      end
  end.

(** [Path(root) / name], for a resolved [root]. *)
Definition path_join (root name : string) : string :=
  if String.eqb root "/" then root +:+ name else root +:+ "/" +:+ name.

(** The directories [os.walk] goes down into after the pruning of
    [_get_searchable_files]. *)
Definition keep_dir (d : string) : bool :=
  negb (member d skip_dirs) && negb (startswith d ".").

(** The body of the loop over the file names of one directory. *)
Fixpoint files_here (lib : library) (root : string) (pattern : pyval)
    (filenames : list string) : reply (list string) :=
  match filenames with
  | [] => Ok []
  | filename :: rest =>
      let filepath := path_join root filename in
      if startswith filename "." then files_here lib root pattern rest
      else
        match (if truthy pattern then path_match lib filepath pattern
               else Ok true) with
        | Raise e => Raise e
        | Ok false => files_here lib root pattern rest
        | Ok true =>
            if member (lower (suffix filename)) code_extensions
               || String.eqb (suffix filename) ""
            then match files_here lib root pattern rest with
                 | Ok more => Ok (filepath :: more)
                 | Raise e => Raise e
                 end
            else files_here lib root pattern rest
        end
  end.

(** The kept subdirectories of a directory, one after the other, each
    walked by [walk]. *)
Definition walk_below (walk : string -> dir_tree -> reply (list string))
    (root : string) : list (string * dir_tree) -> reply (list string) :=
  fix below (ds : list (string * dir_tree)) : reply (list string) :=
    match ds with
    | [] => Ok []
    | (d, sub) :: rest =>
        if keep_dir d then
          match walk (path_join root d) sub with
          | Raise e => Raise e
          | Ok inside =>
              match below rest with
              | Ok more => Ok (inside ++ more)
              | Raise e => Raise e
              end
          end
        else below rest
    end.

(** The walk, top down: the files of a directory, then its kept
    subdirectories. *)
Fixpoint walk_files (lib : library) (pattern : pyval) (root : string)
    (t : dir_tree) {struct t} : reply (list string) :=
  match t with
  | Dir subdirs filenames =>
      match files_here lib root pattern filenames with
      | Raise e => Raise e
      | Ok here =>
          match walk_below (walk_files lib pattern) root subdirs with
          | Ok more => Ok (here ++ more)
          | Raise e => Raise e
          end
      end
  end.

Definition _get_searchable_files (lib : library) (path : string) (tree : dir_tree)
    (pattern : pyval) : reply (list string) :=
  walk_files lib pattern path tree.

(** The loop over the files to search: it stops after the file with which
    the matches reach [limit]. *)
Fixpoint search_files (search : string -> bool) (context_lines : pyval) (limit : Z)
    (files : list string) (matches : list search_match) (files_searched : Z)
  : prog toolΣ (list search_match * Z) :=
  match files with
  | [] => Ret (matches, files_searched)
  | filepath :: rest =>
      file_matches ← _search_file filepath search context_lines;
      let matches := match file_matches with
                     | [] => matches
                     | _ => matches ++ file_matches
                     end in
      if limit <=? Z.of_nat (length matches)
      then Ret (matches, files_searched + 1)
      else search_files search context_lines limit rest matches (files_searched + 1)
  end.

Definition search_code_body (lib : library)
    (query search_path file_pattern use_regex case_sensitive context_lines : pyval)
  : prog toolΣ pyval :=
  path ← call (Σ := toolΣ) (fs_call (path_resolve search_path));
  found ← call (Σ := toolΣ) (fs_call (path_exists path));
  if negb found then Ret (PStr ("Error: Path not found: " +:+ py_str search_path))
  else
    let flags := if truthy case_sensitive then NoFlags else IGNORECASE in
    pattern ← (if truthy use_regex then
                 c ← lift (py_compile lib query flags);
                 match c with
                 | Pattern search => Ret (inl search)
                 | ReError msg =>
                     Ret (inr (PStr ("Error: Invalid regex pattern: " +:+ msg)))
                 end
               else
                 escaped ← lift (py_escape lib query);
                 match re_compile lib escaped flags with
                 | Pattern search => Ret (inl search)
                 | ReError msg => Ret (inr (PStr ("Error searching code: " +:+ msg)))
                 end);
    match pattern with
    | inr answer => Ret answer
    | inl search =>
        is_file ← call (Σ := toolΣ) (fs_call (path_is_file path));
        files_to_search ←
          (if (is_file : bool) then Ret (Σ := toolΣ) [path]
           else tree ← call (Σ := toolΣ) (os_walk path);
                lift (_get_searchable_files lib path tree file_pattern));
        result ← search_files search context_lines MAX_RESULTS files_to_search [] 0;
        let '(matches, files_searched) := result in
        match matches with
        | [] => Ret (PStr ("No matches found for '" +:+ py_str query +:+ "' in " +:+
                           dec files_searched +:+ " files"))
        | _ =>
            let shown := Z.of_nat (length matches) in
            Ret (PStr (join nl
                         ([ "Found " +:+ dec shown +:+ " matches in " +:+
                            dec files_searched +:+ " files:" +:+ nl ]
                          ++ List.map _format_match
                               (firstn (Z.to_nat MAX_RESULTS) matches)
                          ++ (if MAX_RESULTS <? shown
                              then [ nl +:+ "... and " +:+ dec (shown - MAX_RESULTS) +:+
                                     " more matches (showing first " +:+
                                     dec MAX_RESULTS +:+ ")" ]
                              else []))))
        end
    end.

(** The tool [search_code] with the statements of its [try] block. *)
Definition search_code_tool (lib : library) (arguments : gmap string pyval)
  : prog toolΣ pyval :=
  query ← lift (subscript arguments "query");
  let search_path := get arguments "path" (PStr ".") in
  let file_pattern := get arguments "pattern" PNone in
  let use_regex := get arguments "regex" (PBool false) in
  let case_sensitive := get arguments "case_sensitive" (PBool false) in
  context_lines ←
    lift (py_min (get arguments "context_lines" (PInt MAX_CONTEXT_LINES)) (PInt 10));
  try_except
    (search_code_body lib query search_path file_pattern use_regex case_sensitive
       context_lines)
    (fun e => Ret (PStr ("Error searching code: " +:+ exn_msg e))).

(** *** [find_definition] *)

(** The patterns of each kind of definition for the escaped name [n], in
    the order of the dict. *)
Definition definition_patterns (n : string) : list (string * list string) :=
  [ ("function",
     [ "^\s*def\s+" +:+ n +:+ "\s*\(";
       "^\s*async\s+def\s+" +:+ n +:+ "\s*\(";
       "^\s*function\s+" +:+ n +:+ "\s*\(";
       "^\s*async\s+function\s+" +:+ n +:+ "\s*\(";
       "^\s*" +:+ n +:+ "\s*[:=]\s*(?:async\s+)?function";
       "^\s*" +:+ n +:+ "\s*[:=]\s*\([^)]*\)\s*=>";
       "^\s*(?:public|private|protected)?\s*(?:static\s+)?(?:async\s+)?" +:+ n +:+
       "\s*\(";
       "^\s*func\s+" +:+ n +:+ "\s*\(";
       "^\s*(?:public|private|protected)\s+.*\s+" +:+ n +:+ "\s*\(" ]);
    ("class",
     [ "^\s*class\s+" +:+ n +:+ "\b";
       "^\s*(?:abstract\s+)?class\s+" +:+ n +:+ "\b";
       "^\s*interface\s+" +:+ n +:+ "\b";
       "^\s*type\s+" +:+ n +:+ "\s*=";
       "^\s*struct\s+" +:+ n +:+ "\b" ]);
    ("variable",
     [ "^\s*" +:+ n +:+ "\s*=";
       "^\s*(?:const|let|var)\s+" +:+ n +:+ "\b";
       "^\s*(?:const|let|var)\s+" +:+ n +:+ "\s*:";
       "^\s*(?:var|val)\s+" +:+ n +:+ "\b";
       "^\s*" +:+ n +:+ "\s*:=" ]) ].

Fixpoint assoc_list {A} (k : string) (kvs : list (string * A)) : option A :=
  match kvs with
  | [] => None
  | (k', v) :: rest => if String.eqb k k' then Some v else assoc_list k rest
  end.

(** [patterns.get(def_type, [])]: the key must be hashable. *)
Definition patterns_get (patterns : list (string * list string)) (def_type : pyval)
  : reply (list string) :=
  match def_type with
  | PStr k => Ok (default [] (assoc_list k patterns))
  | PList _ | PDict _ =>
      Raise (Exn TypeError ("unhashable type: '" +:+ type_name def_type +:+ "'"))
  | _ => Ok []
  end.

Definition find_definition_body (lib : library) (name search_path def_type : pyval)
    (selected_patterns : list string) : prog toolΣ pyval :=
  let combined_pattern :=
    join "|" (List.map (fun p => "(" +:+ p +:+ ")") selected_patterns) in
  match re_compile lib combined_pattern MULTILINE with
  | ReError msg => Ret (PStr ("Error finding definition: " +:+ msg))
  | Pattern search =>
      path ← call (Σ := toolΣ) (fs_call (path_resolve search_path));
      found ← call (Σ := toolΣ) (fs_call (path_exists path));
      if negb found then Ret (PStr ("Error: Path not found: " +:+ py_str search_path))
      else
        tree ← call (Σ := toolΣ) (os_walk path);
        files_to_search ← lift (_get_searchable_files lib path tree PNone);
        result ← search_files search (PInt 5) 10 files_to_search [] 0;
        let '(matches, files_searched) := result in
        match matches with
        | [] => Ret (PStr ("No definition found for '" +:+ py_str name +:+ "' (" +:+
                           py_str def_type +:+ ") in " +:+ dec files_searched +:+
                           " files"))
        | _ =>
            Ret (PStr (join nl
                         ([ "Found " +:+ dec (Z.of_nat (length matches)) +:+
                            " definition(s) for '" +:+ py_str name +:+ "':" +:+ nl ]
                          ++ List.map _format_match (firstn 10 matches))))
        end
  end.

Definition find_definition (lib : library) (arguments : gmap string pyval)
  : prog toolΣ pyval :=
  name ← lift (subscript arguments "name");
  let search_path := get arguments "path" (PStr ".") in
  let def_type := get arguments "type" (PStr "any") in
  escaped ← lift (py_escape lib name);
  let patterns := definition_patterns escaped in
  selected_patterns ←
    lift (if py_eqb def_type (PStr "any")
          then Ok (List.concat (List.map snd patterns))
          else patterns_get patterns def_type);
  match selected_patterns with
  | [] => Ret (PStr ("Error: Unknown definition type '" +:+ py_str def_type +:+ "'"))
  | _ =>
      try_except (find_definition_body lib name search_path def_type selected_patterns)
        (fun e => Ret (PStr ("Error finding definition: " +:+ exn_msg e)))
  end.

(** *** The files of a tree *)







(** The texts the system gives when [files] are read one after the other,
    as [_search_file] reads them, from the state [s] on, and the state it is
    left in. *)
Fixpoint texts_read {S : Type} (H : forall o : op toolΣ, S -> reply (ans toolΣ o) * S)
    (files : list string) (s : S) : list (reply string) * S :=
  match files with
  | [] => ([], s)
  | filepath :: rest =>
      let (text, s1) := H (read_text_ignore filepath) s in
      let (texts, s2) := texts_read H rest s1 in
      (text :: texts, s2)
  end.


(** *** Samples for the write and search tools *)

(** A system in which every path is inside the workspace, directories can
    be made and files opened, and a write succeeds for a text only. *)
Definition open_system (o : tool_op) (s : list string) : reply (tool_ans o) * list string :=
  match o with
  | fs_call (path_resolve (PStr p)) => (Ok p, s)
  | fs_call (path_resolve v) =>
      (Raise (Exn TypeError ("expected str, bytes or os.PathLike object, not " +:+
                             type_name v)), s)
  | fs_call workspace_root => (Ok (Some "/work"), s)
  | fs_call (relative_to p r) =>
      (if startswith p r then Ok tt
       else Raise (Exn ValueError ("'" +:+ p +:+ "' is not in the subpath of '" +:+
                                   r +:+ "'")), s)
  | fs_call (path_exists _) => (Ok true, s)
  | fs_call (path_is_file _) => (Ok false, s)
  | fs_call (read_text _ _) => (Ok "", s)
  | fs_call (write_text _ _ _) => (Ok tt, s)
  | mkdir_parents _ => (Ok tt, s)
  | open_file p _ => (Ok tt, s)
  | file_write p (PStr t) => (Ok (Z.of_nat (String.length t)), s ++ [t])
  | file_write p v =>
      (Raise (Exn TypeError ("write() argument must be str, not " +:+ type_name v)), s)
  | file_close _ => (Ok tt, s)
  | os_walk _ => (Ok (Dir [] ["a.py"; "b.py"]), s)
  | read_text_ignore p => (Ok ("import os" +:+ nl +:+ "x = 1"), s)
  end.


(** A library whose patterns find their text as it stands in a line, for
    which the text of an opening parenthesis alone does not compile, and
    whose glob patterns are a star and an extension, matched against the
    suffix of the path; the pattern [.] has no parts and is refused. *)
Definition literal_library : library :=
  {| re_escape := fun s => s;
     re_compile := fun s _ =>
       if String.eqb s "(" then ReError "missing ), unterminated subpattern at position 0"
       else Pattern (fun line => (0 <? str_count line s)%nat);
     path_match := fun p pattern =>
       match pattern with
       | PStr pat =>
           if String.eqb pat "." then Raise (Exn ValueError "empty pattern")
           else Ok (String.eqb (suffix p) (string_drop 1 pat))
       | _ => Raise (Exn TypeError
                       ("argument should be a str or an os.PathLike object where " +:+
                        "__fspath__ returns a str, not '" +:+ type_name pattern +:+ "'"))
       end |}.

Definition write_args (path : string) (content : pyval) : gmap string pyval :=
  {[ "path" := PStr path; "content" := content ]}.

(** * Properties *)

Ltac prog_simpl :=
  cbn [mbind prog_bind mret prog_ret bind lift default id negb orb andb].

(** ** Crew orchestration tools *)

(** ** Programs: what they return and what they call *)

Section ProgFacts.
Context {Σ : signature}.

Lemma all_rets_bind {A B} (P : B -> Prop) (p : prog Σ A) (f : A -> prog Σ B) :
  (forall a, all_rets P (f a)) -> all_rets P (bind p f).
Proof.
  intros Hf. induction p as [a|e|o k IH]; cbn; [apply Hf|exact I|].
  intros r. apply IH.
Qed.

Lemma all_rets_try {A} (P : A -> Prop) (p : prog Σ A) (h : exn -> prog Σ A) :
  all_rets P p -> (forall e, all_rets P (h e)) -> all_rets P (try_except p h).
Proof.
  intros Hp Hh. induction p as [a|e|o k IH]; cbn in *; [exact Hp|apply Hh|].
  intros r. apply IH, Hp.
Qed.

Lemma all_rets_lift {A} (P : A -> Prop) (r : reply A) :
  (forall a, r = Ok a -> P a) -> all_rets P (lift (Σ := Σ) r).
Proof. destruct r; cbn; auto. Qed.

Lemma all_rets_trivial {A} (p : prog Σ A) : all_rets (fun _ => True) p.
Proof. induction p; cbn; auto. Qed.

Lemma returns_try {A} (P : A -> Prop) (p : prog Σ A) (h : exn -> prog Σ A) :
  all_rets P p -> (forall e, returns P (h e)) -> returns P (try_except p h).
Proof.
  intros Hp Hh. induction p as [a|e|o k IH]; cbn in *; [exact Hp|apply Hh|].
  intros r. apply IH, Hp.
Qed.

Lemma returns_outcome {A S} (P : A -> Prop) (p : prog Σ A)
    (H : forall o : op Σ, S -> reply (ans Σ o) * S) (s : S) :
  returns P p -> exists a, outcome H p s = Ok a /\ P a.
Proof.
  revert s. induction p as [a|e|o k IH]; cbn; intros s Hp.
  - exists a. split; [reflexivity|exact Hp].
  - contradiction.
  - unfold outcome in *. cbn. destruct (H o s) as [r s1].
    specialize (IH r s1 (Hp r)). destruct IH as [a [E Ha]].
    destruct (run H (k r) s1) as [[tr s2] out]. cbn in *.
    exists a. split; assumption.
Qed.

Lemma never_calls_bind {A B} (bad : op Σ -> bool) (p : prog Σ A)
    (f : A -> prog Σ B) :
  never_calls bad p -> (forall a, never_calls bad (f a)) ->
  never_calls bad (bind p f).
Proof.
  intros Hp Hf. induction p as [a|e|o k IH]; cbn in *; [apply Hf|exact I|].
  destruct Hp as [Ho Hk]. split; [exact Ho|]. intros r. apply IH, Hk.
Qed.

Lemma never_calls_try {A} (bad : op Σ -> bool) (p : prog Σ A)
    (h : exn -> prog Σ A) :
  never_calls bad p -> (forall e, never_calls bad (h e)) ->
  never_calls bad (try_except p h).
Proof.
  intros Hp Hh. induction p as [a|e|o k IH]; cbn in *; [exact I|apply Hh|].
  destruct Hp as [Ho Hk]. split; [exact Ho|]. intros r. apply IH, Hk.
Qed.

Lemma never_calls_trace {A S} (bad : op Σ -> bool) (p : prog Σ A)
    (H : forall o : op Σ, S -> reply (ans Σ o) * S) (s : S) :
  never_calls bad p -> existsb bad (trace H p s) = false.
Proof.
  revert s. induction p as [a|e|o k IH]; cbn; intros s Hp; try reflexivity.
  destruct Hp as [Ho Hk]. unfold trace in *. cbn.
  destruct (H o s) as [r s1]. specialize (IH r s1 (Hk r)).
  destruct (run H (k r) s1) as [[tr s2] out]. cbn in *.
  rewrite Ho, IH. reflexivity.
Qed.

Lemma run_bind {A B S} (H : forall o : op Σ, S -> reply (ans Σ o) * S)
    (p : prog Σ A) (f : A -> prog Σ B) (s s1 : S) (tr : list (op Σ)) (a : A) :
  run H p s = (tr, s1, Ok a) ->
  run H (bind p f) s
  = let '(tr2, s2, out) := run H (f a) s1 in (tr ++ tr2, s2, out).
Proof.
  revert s tr. induction p as [a'|e|o k IH]; cbn; intros s tr Hr.
  - inversion Hr; subst. destruct (run H (f a) s1) as [[tr2 s2] out]. reflexivity.
  - discriminate Hr.
  - destruct (H o s) as [r s']. 
    destruct (run H (k r) s') as [[tr' s''] out'] eqn:E.
    inversion Hr; subst. rewrite (IH r s' tr' E).
    destruct (run H (f a) s1) as [[tr2 s2] out]. reflexivity.
Qed.

Lemma run_try_ok {A S} (H : forall o : op Σ, S -> reply (ans Σ o) * S)
    (p : prog Σ A) (h : exn -> prog Σ A) (s s1 : S) (tr : list (op Σ)) (a : A) :
  run H p s = (tr, s1, Ok a) -> run H (try_except p h) s = (tr, s1, Ok a).
Proof.
  revert s tr. induction p as [a'|e|o k IH]; cbn; intros s tr Hr.
  - exact Hr.
  - discriminate Hr.
  - destruct (H o s) as [r s'].
    destruct (run H (k r) s') as [[tr' s''] out'] eqn:E.
    inversion Hr; subst. rewrite (IH r s' tr' E). reflexivity.
Qed.
End ProgFacts.

Lemma results_text_blocks (ws : list AgentWorker) :
  results_text ws = List.map render_block (List.filter has_output ws).
Proof.
  unfold results_text. induction ws as [|w ws IH]; [reflexivity|].
  cbn [flat_map List.filter]. rewrite IH.
  unfold worker_block, has_output.
  destruct (nonempty (w_result w)) eqn:Er; cbn [orb].
  - cbn [List.map app]. unfold render_block at 2. rewrite Er. reflexivity.
  - destruct (nonempty (w_error w)) eqn:Ee; [|reflexivity].
    cbn [List.map app]. unfold render_block at 2. rewrite Er. reflexivity.
Qed.

Lemma results_text_nil (ws : list AgentWorker) :
  results_text ws = [] <-> Forall (fun w => has_output w = false) ws.
Proof.
  rewrite results_text_blocks. split.
  - induction ws as [|w ws IH]; [constructor|].
    cbn [List.filter]. destruct (has_output w) eqn:E; [discriminate|].
    intros Hn. constructor; auto.
  - induction 1 as [|w ws Hw _ IH]; [reflexivity|].
    cbn [List.filter]. rewrite Hw. exact IH.
Qed.

Section SpawnFacts.
  Context {S : Type}.
  Variable H : forall o : crew_op, S -> reply (crew_ans o) * S.

Lemma run_call_ok {A} (o : crew_op) (k : crew_ans o -> prog crewΣ A) s a s1 :
  H o s = (Ok a, s1) ->
  run (Σ := crewΣ) H (x ← call (Σ := crewΣ) o; k x) s =
  let '(tr, s2, out) := run (Σ := crewΣ) H (k a) s1 in (o :: tr, s2, out).
Proof.
  intros Ho. cbn. rewrite Ho. cbn. reflexivity.
Qed.

(** C5: a spawn request whose task is empty gets the validation error at
    once, with no call on the pool (so the pool is as it was); a request
    with a non-empty task makes exactly one [pool.spawn] call and, the pool
    having handed out [agent_id], returns the confirmation text that echoes
    this id and the task. *)
Theorem spawn_agent_validates (arguments : gmap string pyval) (s s1 : S)
    (agent_id : pyval) :
  let task := get arguments "task" (PStr "") in
  let priority := get arguments "priority" (PInt 1) in
  let depends_on := get arguments "depends_on" (PList []) in
  (truthy task = false ->
     run (Σ := crewΣ) H (spawn_agent_fn arguments) s
     = ([], s, Ok (PStr "Error: task is required"))) /\
  (truthy task = true ->
   H (pool_spawn task priority depends_on) s = (Ok agent_id, s1) ->
     run (Σ := crewΣ) H (spawn_agent_fn arguments) s
     = ([pool_spawn task priority depends_on], s1,
        Ok (PStr ("Spawned " +:+ py_str agent_id +:+ ": " +:+ py_str task)))).
Proof.
  intros task priority depends_on. unfold spawn_agent_fn.
  fold task priority depends_on. split.
  - intros ->. reflexivity.
  - intros -> Hs. cbn [negb]. rewrite (run_call_ok _ _ _ _ _ Hs). reflexivity.
Qed.
End SpawnFacts.

Lemma spawn_agent_validates_witness :
  run (Σ := crewΣ) (crew_handler (scripted [] response_summary))
    (spawn_agent_fn {[ "task" := PStr "scan ports" ]}) (pool_with 0)
  = ([pool_spawn (PStr "scan ports") (PInt 1) (PList [])],
     {| finish_tokens := PInt 0; pool_state := 1%nat |},
     Ok (PStr "Spawned agent-0: scan ports")).
Proof.
  exact (proj2 (spawn_agent_validates (crew_handler (scripted [] response_summary))
                  {[ "task" := PStr "scan ports" ]} (pool_with 0)
                  {| finish_tokens := PInt 0; pool_state := 1%nat |}
                  (PStr "agent-0"))
           eq_refl eq_refl).
Defined.

Section FinishFacts.
  Context {P : Type}.
  Variable C : collaborators P.

(** C2: when no worker record has a non-empty result or error (no worker at
    all included), [finish] calls [wait_for(None)] and [get_workers] and
    nothing else, so never the LLM, and returns the caller's context as it
    is when that is non-empty, otherwise the fixed fallback sentence of the
    case at hand. *)
Theorem finish_without_output (arguments : gmap string pyval)
    (pool : WorkerPool P) (r : pyval) (p1 p2 : P) (ws : list AgentWorker) :
  wait_for C PNone (pool_state pool) = (Ok r, p1) ->
  get_workers C p1 = (Ok ws, p2) ->
  Forall (fun w => nonempty (w_result w) = false /\ nonempty (w_error w) = false) ws ->
  let context := get arguments "context" (PStr "") in
  let fallback :=
    match ws with
    | [] => "Task completed. No agents were spawned."
    | _ => "Task completed. Agents ran but produced no results."
    end in
  run (Σ := crewΣ) (crew_handler C) (finish_fn arguments) pool
  = ([pool_wait_for PNone; pool_get_workers],
     {| finish_tokens := finish_tokens pool; pool_state := p2 |},
     Ok (if truthy context then context else PStr fallback))
  /\ existsb is_generate
       (trace (Σ := crewΣ) (crew_handler C) (finish_fn arguments) pool) = false.
Proof.
  intros Hw Hg Hall context fallback.
  assert (Hnil : results_text ws = []).
  { apply results_text_nil. eapply Forall_impl; [exact Hall|].
    intros w [Hr He]. unfold has_output. rewrite Hr, He. reflexivity. }
  assert (Hrun : run (Σ := crewΣ) (crew_handler C) (finish_fn arguments) pool
    = ([pool_wait_for PNone; pool_get_workers],
       {| finish_tokens := finish_tokens pool; pool_state := p2 |},
       Ok (if truthy context then context else PStr fallback))).
  { unfold finish_fn. fold context. cbn. rewrite Hw. cbn. rewrite Hg. cbn.
    destruct ws as [|w ws']; [reflexivity|].
    rewrite Hnil. reflexivity. }
  split; [exact Hrun|]. unfold trace. rewrite Hrun. reflexivity.
Qed.

(** What [finish] does once the LLM has answered. *)
Lemma finish_synthesis_run (arguments : gmap string pyval)
    (pool : WorkerPool P) (r : pyval) (p1 p2 p3 : P) (ws : list AgentWorker)
    (resp : LLMResponse) :
  wait_for C PNone (pool_state pool) = (Ok r, p1) ->
  get_workers C p1 = (Ok ws, p2) ->
  results_text ws <> [] ->
  let context := get arguments "context" (PStr "") in
  let request :=
    llm_generate synthesis_system_prompt
      (synthesis_messages (synthesis_prompt context (results_text ws)))
      (PList []) in
  generate C synthesis_system_prompt
    (synthesis_messages (synthesis_prompt context (results_text ws)))
    (PList []) p2 = (Ok resp, p3) ->
  run (Σ := crewΣ) (crew_handler C) (finish_fn arguments) pool
  = if usage_truthy (usage resp) then
      let total := get (default ∅ (usage resp)) "total_tokens" (PInt 0) in
      ([pool_wait_for PNone; pool_get_workers; request;
        pool_set_finish_tokens total],
       {| finish_tokens := total; pool_state := p3 |},
       Ok (PStr (content resp)))
    else
      ([pool_wait_for PNone; pool_get_workers; request],
       {| finish_tokens := finish_tokens pool; pool_state := p3 |},
       Ok (PStr (content resp))).
Proof.
  intros Hw Hg Hne context request Hgen.
  unfold finish_fn. fold context. cbn. rewrite Hw. cbn. rewrite Hg. cbn.
  destruct ws as [|w ws']; [contradiction Hne; reflexivity|].
  destruct (results_text (w :: ws')) as [|b bs] eqn:Hb;
    [contradiction Hne; reflexivity|].
  cbn. unfold synthesis_messages in Hgen. rewrite Hgen. cbn.
  destruct (usage_truthy (usage resp)); reflexivity.
Qed.


(** C1 (amended): when some worker has a non-empty result or error and the
    LLM's response carries a non-empty usage mapping, [finish] sets the
    pool's [finish_tokens] to the [total_tokens] entry of that mapping (0
    when it has none), whatever [finish_tokens] held before, and returns the
    response's content. *)
Theorem finish_stores_token_usage (arguments : gmap string pyval)
    (pool : WorkerPool P) (r : pyval) (p1 p2 p3 : P) (ws : list AgentWorker)
    (resp : LLMResponse) (u : gmap string pyval) :
  wait_for C PNone (pool_state pool) = (Ok r, p1) ->
  get_workers C p1 = (Ok ws, p2) ->
  Exists (fun w => has_output w = true) ws ->
  generate C synthesis_system_prompt
    (synthesis_messages
       (synthesis_prompt (get arguments "context" (PStr "")) (results_text ws)))
    (PList []) p2 = (Ok resp, p3) ->
  usage resp = Some u ->
  u <> ∅ ->
  final (Σ := crewΣ) (crew_handler C) (finish_fn arguments) pool
  = {| finish_tokens := get u "total_tokens" (PInt 0); pool_state := p3 |}
  /\ outcome (Σ := crewΣ) (crew_handler C) (finish_fn arguments) pool
     = Ok (PStr (content resp)).
Proof.
  intros Hw Hg Hex Hgen Hu Hne.
  assert (Hb : results_text ws <> []).
  { intros Hnil. apply results_text_nil in Hnil.
    apply Exists_exists in Hex as [w [Hin Hout]].
    rewrite Forall_forall in Hnil. specialize (Hnil w Hin). congruence. }
  pose proof (finish_synthesis_run arguments pool r p1 p2 p3 ws resp
                Hw Hg Hb Hgen) as Hrun.
  cbv zeta in Hrun. unfold final, outcome. rewrite Hrun.
  assert (Ht : usage_truthy (usage resp) = true).
  { rewrite Hu. cbn. rewrite bool_decide_eq_false_2 by exact Hne. reflexivity. }
  rewrite Ht, Hu. split; reflexivity.
Qed.
End FinishFacts.

Section StrategyFacts.

Lemma py_eqb_None_l (v : pyval) : py_eqb PNone v = true -> v = PNone.
Proof. destruct v; cbn; congruence. Qed.

Lemma find_selected_dicts (selected_id : pyval) (cs : list pyval) :
  Forall (fun c => is_dict c = true) cs ->
  find_selected selected_id cs
  = Ok (default PNone (List.find (has_id selected_id) cs)).
Proof.
  induction 1 as [|c cs Hc _ IH]; [reflexivity|].
  destruct c; try discriminate Hc.
  cbn [find_selected dict_get List.find]. unfold has_id at 1. cbn [field].
  destruct (py_eqb _ selected_id); [reflexivity|exact IH].
Qed.

Lemma options_lines_dicts (selected_id : pyval) (cs : list pyval) :
  Forall (fun c => is_dict c = true) cs ->
  options_lines selected_id cs
  = Ok (List.concat (List.map (option_entry selected_id) cs)).
Proof.
  induction 1 as [|c cs Hc _ IH]; [reflexivity|].
  destruct c; try discriminate Hc.
  cbn [options_lines List.map List.concat]. rewrite IH. reflexivity.
Qed.

Lemma found_is_truthy (selected_id : pyval) (cs : list pyval) (c : pyval) :
  truthy selected_id = true ->
  Forall (fun c => is_dict c = true) cs ->
  List.find (has_id selected_id) cs = Some c ->
  truthy c = true /\ is_dict c = true.
Proof.
  intros Hs Hall Hf. apply find_some in Hf as [Hin Hid].
  pose proof (proj1 (List.Forall_forall _ _) Hall c Hin) as Hdc. clear Hall.
  rename Hdc into Hall.
  destruct c; try discriminate Hall. split; [|reflexivity].
  destruct kvs; [|reflexivity].
  unfold has_id in Hid. cbn in Hid. apply py_eqb_None_l in Hid.
  subst selected_id. discriminate Hs.
Qed.

Lemma find_none_iff {A} (f : A -> bool) (l : list A) :
  List.find f l = None <-> Forall (fun x => f x = false) l.
Proof.
  induction l as [|x l IH]; cbn.
  - split; [constructor|reflexivity].
  - destruct (f x) eqn:E.
    + split; [discriminate|]. intros Hall. inversion Hall; congruence.
    + rewrite IH. split; [intros; constructor; assumption|].
      intros Hall. inversion Hall; assumption.
Qed.

(** C6: with a non-empty problem and [feasible] false, the tool returns the
    mission-termination record: the heading "Strategic Decision: TERMINATE
    MISSION", the problem line, the rationale line, an empty line and the
    closing sentence, with nothing in it but the problem and the rationale.
    It makes no call on the pool or the LLM, leaves every state as it was,
    and gives the same answer whatever candidates and selected id are
    supplied. *)
Theorem formulate_strategy_infeasible (arguments : gmap string pyval) :
  let problem := get arguments "problem" (PStr "") in
  let rationale := get arguments "rationale" (PStr "") in
  let feasible := get arguments "feasible" (PBool true) in
  truthy problem = true ->
  truthy feasible = false ->
  let record :=
    "## Strategic Decision: TERMINATE MISSION" +:+ nl +:+
    "**Problem:** " +:+ py_str problem +:+ nl +:+
    "**Rationale:** " +:+ py_str rationale +:+ nl +:+
    nl +:+
    "Mission marked as infeasible." in
  formulate_strategy_fn arguments = Ret (PStr record)
  /\ (forall (S : Type) (H : forall o : crew_op, S -> reply (crew_ans o) * S) (s : S),
        run (Σ := crewΣ) H (formulate_strategy_fn arguments) s
        = ([], s, Ok (PStr record)))
  /\ (forall candidates selected_id : pyval,
        formulate_strategy_fn
          (<["candidates" := candidates]> (<["selected_id" := selected_id]> arguments))
        = formulate_strategy_fn arguments).
Proof.
  intros problem rationale feasible Hp Hf record.
  assert (E : forall a : gmap string pyval,
             get a "problem" (PStr "") = problem ->
             get a "rationale" (PStr "") = rationale ->
             get a "feasible" (PBool true) = feasible ->
             formulate_strategy_fn a = Ret (PStr record)).
  { intros a E1 E2 E3. unfold formulate_strategy_fn.
    rewrite E1, E2, E3, Hp, Hf. reflexivity. }
  split; [apply E; reflexivity|]. split.
  - intros S H s. rewrite E by reflexivity. reflexivity.
  - intros c sid. rewrite (E arguments) by reflexivity. apply E.
    all: unfold get; rewrite !lookup_insert_ne by discriminate; reflexivity.
Qed.

(** C7: with [feasible] true and candidates that are a list of objects, the
    tool returns a text, and that text is a validation error exactly when the
    problem is empty, the candidates are empty or missing, the selected id is
    empty or missing, or no candidate has the selected id; otherwise it is
    the decision record: the problem, every candidate with its pros, cons and
    risk, the selected ones marked, and the rationale. *)
Theorem formulate_strategy_feasible (arguments : gmap string pyval) (cs : list pyval) :
  let problem := get arguments "problem" (PStr "") in
  let selected_id := get arguments "selected_id" (PStr "") in
  let rationale := get arguments "rationale" (PStr "") in
  let feasible := get arguments "feasible" (PBool true) in
  truthy feasible = true ->
  get arguments "candidates" (PList []) = PList cs ->
  Forall (fun c => is_dict c = true) cs ->
  exists out : string,
    formulate_strategy_fn arguments = Ret (PStr out)
    /\ (is_error out = true <->
        truthy problem = false \/ cs = [] \/ truthy selected_id = false
        \/ Forall (fun c => has_id selected_id c = false) cs)
    /\ (is_error out = false ->
        exists sel, List.find (has_id selected_id) cs = Some sel
          /\ out = decision_record problem rationale selected_id cs sel).
Proof.
  intros problem selected_id rationale feasible Hf Hc Hd.
  unfold formulate_strategy_fn.
  fold problem selected_id rationale feasible. rewrite Hc, Hf.
  destruct (truthy problem) eqn:Hp; cbn [negb].
  2:{ eexists; split; [reflexivity|]. split; [|discriminate].
      split; [auto|reflexivity]. }
  destruct cs as [|c0 cs'] eqn:Ecs.
  { eexists; split; [reflexivity|]. split; [|discriminate].
    split; [auto|reflexivity]. }
  rewrite <- Ecs in *.
  assert (Htc : truthy (PList cs) = true) by (rewrite Ecs; reflexivity).
  rewrite Htc. cbn [negb orb].
  destruct (truthy selected_id) eqn:Hs; cbn [negb].
  2:{ eexists; split; [reflexivity|]. split; [|discriminate].
      split; [auto|reflexivity]. }
  cbn [py_iter]. prog_simpl.
  rewrite (find_selected_dicts _ _ Hd). prog_simpl.
  destruct (List.find (has_id selected_id) cs) as [sel|] eqn:Hfind; prog_simpl.
  - destruct (found_is_truthy _ _ _ Hs Hd Hfind) as [Hts Hds].
    rewrite Hts. prog_simpl.
    destruct sel as [| | | | |kvs]; try discriminate Hds.
    cbn [dict_get]. prog_simpl. rewrite (options_lines_dicts _ _ Hd). prog_simpl.
    eexists; split; [reflexivity|]. split.
    + split; [discriminate|].
      intros [H|[H|[H|H]]]; try discriminate H.
      * rewrite Ecs in H. discriminate H.
      * apply find_none_iff in H. congruence.
    + intros _. eexists; split; reflexivity.
  - cbn [truthy]. prog_simpl.
    eexists; split; [reflexivity|]. split; [|discriminate].
    split; [|reflexivity]. intros _. right; right; right.
    apply find_none_iff. exact Hfind.
Qed.
End StrategyFacts.

Lemma finish_without_output_witness :
  run (Σ := crewΣ) (crew_handler (scripted [worker_silent] response_summary))
    (finish_fn ssh_context) (pool_with 0)
  = ([pool_wait_for PNone; pool_get_workers], pool_with 0, Ok (PStr "Tested SSH"))
  /\ existsb is_generate
       (trace (Σ := crewΣ) (crew_handler (scripted [worker_silent] response_summary))
          (finish_fn ssh_context) (pool_with 0)) = false.
Proof.
  refine (finish_without_output (scripted [worker_silent] response_summary)
            ssh_context (pool_with 0) (PDict []) 0%nat 0%nat [worker_silent]
            eq_refl eq_refl _).
  repeat constructor.
Defined.


Lemma finish_stores_token_usage_witness :
  final (Σ := crewΣ) (crew_handler (scripted [worker_done; worker_failed] response_summary))
    (finish_fn ssh_context) (pool_with 0)
  = pool_with 7
  /\ outcome (Σ := crewΣ)
       (crew_handler (scripted [worker_done; worker_failed] response_summary))
       (finish_fn ssh_context) (pool_with 0)
     = Ok (PStr "SSH is exposed.").
Proof.
  refine (finish_stores_token_usage (scripted [worker_done; worker_failed] response_summary)
            ssh_context (pool_with 0) (PDict []) 0%nat 0%nat 0%nat
            [worker_done; worker_failed] response_summary
            {[ "total_tokens" := PInt 7 ]}
            eq_refl eq_refl _ eq_refl eq_refl _).
  { constructor. reflexivity. }
  intros E. apply (f_equal (fun m : gmap string pyval => m !! "total_tokens")) in E.
  vm_compute in E. discriminate E.
Defined.

(** C1, as stated, fails: two workers have output, the pool's
    [finish_tokens] is 5 and the LLM reports 7 tokens and an empty content;
    [finish] leaves 7 in [finish_tokens], not 5 + 7, and returns the empty
    text. *)
Lemma finish_overwrites_finish_tokens :
  let C := scripted [worker_done; worker_failed] response_blank in
  has_output worker_done = true
  /\ usage response_blank = Some {[ "total_tokens" := PInt 7 ]}
  /\ finish_tokens (pool_with 5) = PInt 5
  /\ finish_tokens
       (final (Σ := crewΣ) (crew_handler C) (finish_fn ssh_context) (pool_with 5))
     = PInt 7
  /\ finish_tokens
       (final (Σ := crewΣ) (crew_handler C) (finish_fn ssh_context) (pool_with 5))
     <> PInt (5 + 7)
  /\ outcome (Σ := crewΣ) (crew_handler C) (finish_fn ssh_context) (pool_with 5)
     = Ok (PStr "").
Proof.
  cbv zeta. repeat split; try reflexivity.
  vm_compute. discriminate.
Qed.

Lemma formulate_strategy_infeasible_witness :
  formulate_strategy_fn (<["feasible" := PBool false]> strategy_args)
  = Ret (PStr ("## Strategic Decision: TERMINATE MISSION" +:+ nl +:+
               "**Problem:** login blocked" +:+ nl +:+
               "**Rationale:** stealth matters" +:+ nl +:+
               nl +:+
               "Mission marked as infeasible.")).
Proof.
  exact (proj1 (formulate_strategy_infeasible
                  (<["feasible" := PBool false]> strategy_args) eq_refl eq_refl)).
Defined.

Lemma formulate_strategy_feasible_witness :
  exists out : string,
    formulate_strategy_fn strategy_args = Ret (PStr out)
    /\ (is_error out = true <->
        truthy (PStr "login blocked") = false
        \/ [coa "a" "Brute force" "simple" "noisy" "High";
            coa "b" "Phishing" "quiet" "slow" "Low"] = []
        \/ truthy (PStr "b") = false
        \/ Forall (fun c => has_id (PStr "b") c = false)
             [coa "a" "Brute force" "simple" "noisy" "High";
              coa "b" "Phishing" "quiet" "slow" "Low"])
    /\ (is_error out = false ->
        exists sel,
          List.find (has_id (PStr "b"))
            [coa "a" "Brute force" "simple" "noisy" "High";
             coa "b" "Phishing" "quiet" "slow" "Low"] = Some sel
          /\ out = decision_record (PStr "login blocked") (PStr "stealth matters")
                     (PStr "b")
                     [coa "a" "Brute force" "simple" "noisy" "High";
                      coa "b" "Phishing" "quiet" "slow" "Low"] sel).
Proof.
  refine (formulate_strategy_feasible strategy_args
            [coa "a" "Brute force" "simple" "noisy" "High";
             coa "b" "Phishing" "quiet" "slow" "Low"]
            eq_refl eq_refl _).
  repeat constructor.
Defined.

(** ** json: loading what was dumped *)

#[local] Arguments String.append !s1 s2 : simpl nomatch.

Lemma append_assoc (a b c : string) : (a +:+ b) +:+ c = a +:+ (b +:+ c).
Proof. induction a as [|x a IH]; simpl; [reflexivity|]. f_equal. exact IH. Qed.

Lemma append_nil_r (a : string) : a +:+ "" = a.
Proof. induction a as [|x a IH]; simpl; [reflexivity|]. f_equal. exact IH. Qed.

Lemma length_append (a b : string) :
  String.length (a +:+ b) = (String.length a + String.length b)%nat.
Proof. induction a as [|x a IH]; simpl; [reflexivity|]. f_equal. exact IH. Qed.

Lemma scanstring_escape_char (c : ascii) (t : string) :
  scanstring (json_escape_char c +:+ t) = parsed_map (String c) (scanstring t).
Proof.
  destruct c as [[] [] [] [] [] [] [] []]; reflexivity.
Qed.

Lemma scanstring_escape (s rest : string) :
  scanstring (json_escape s +:+ String dquote rest) = Parsed s rest.
Proof.
  induction s as [|c s IH]; [reflexivity|].
  cbn [json_escape]. rewrite append_assoc, scanstring_escape_char, IH.
  reflexivity.
Qed.


Lemma nzhead_head (d : Decimal.uint) :
  Decimal.nzhead d = Decimal.Nil \/ head_nonzero (Decimal.nzhead d).
Proof. induction d; simpl; auto. Qed.

Lemma to_uint_head (p : positive) : head_nonzero (Pos.to_uint p).
Proof.
  pose proof (DecimalPos.Unsigned.to_of (Pos.to_uint p)) as E.
  rewrite DecimalPos.Unsigned.of_to in E. simpl in E.
  pose proof (Unsigned.to_uint_nonzero p) as Hnz.
  rewrite E in *. unfold Decimal.unorm in *.
  destruct (nzhead_head (Pos.to_uint p)) as [Hn|Hh].
  - rewrite Hn in Hnz. contradiction Hnz. reflexivity.
  - destruct (Decimal.nzhead (Pos.to_uint p)); try contradiction; exact I.
Qed.

Lemma ends_value_stops (rest : string) :
  ends_value rest = true ->
  float_follows rest = false /\ span_digits rest = ("", rest).
Proof.
  destruct rest as [|c rest]; [intros _; split; reflexivity|].
  unfold ends_value, float_follows, span_digits, is_digit.
  intros Hc. fold span_digits.
  assert (E : code c = 44 \/ code c = 93 \/ code c = 125) by lia.
  destruct E as [E|[E|E]]; rewrite E; simpl; split; try reflexivity;
    destruct rest; reflexivity.
Qed.

Lemma span_digits_uint (d : Decimal.uint) (rest : string) :
  span_digits rest = ("", rest) ->
  span_digits (NilEmpty.string_of_uint d +:+ rest)
  = (NilEmpty.string_of_uint d, rest).
Proof.
  intros Hr. induction d; simpl; [exact Hr|..]; rewrite IHd; reflexivity.
Qed.

Lemma match_number_dec (z : Z) (rest : string) :
  ends_value rest = true ->
  match_number (dec z +:+ rest) = Some (Parsed (PInt z) rest).
Proof.
  intros He. destruct (ends_value_stops rest He) as [Hf Hs].
  unfold dec. destruct z as [|p|p].
  - simpl. unfold match_number. simpl. rewrite Hf. reflexivity.
  - pose proof (to_uint_head p) as Hh. pose proof (DecimalZ.of_to (Z.pos p)) as Hz.
    simpl Z.to_int in *.
    assert (Hi : NilZero.int_of_string (NilZero.string_of_int (Decimal.Pos (Pos.to_uint p)))
                 = Some (Decimal.Pos (Pos.to_uint p))).
    { apply NilZero.isi; intros E; inversion E as [E'];
        exact (Unsigned.to_uint_nonnil p E'). }
    destruct (Pos.to_uint p) as [|d|d|d|d|d|d|d|d|d|d]; try contradiction;
      simpl NilZero.string_of_int in *;
      unfold match_number;
      simpl in Hi;
      simpl; rewrite (span_digits_uint d rest Hs), Hf; simpl;
      rewrite Hi, Hz; reflexivity.
  - pose proof (to_uint_head p) as Hh. pose proof (DecimalZ.of_to (Z.neg p)) as Hz.
    simpl Z.to_int in *.
    assert (Hi : NilZero.int_of_string (NilZero.string_of_int (Decimal.Neg (Pos.to_uint p)))
                 = Some (Decimal.Neg (Pos.to_uint p))).
    { apply NilZero.isi; intros E; inversion E as [E'];
        exact (Unsigned.to_uint_nonnil p E'). }
    destruct (Pos.to_uint p) as [|d|d|d|d|d|d|d|d|d|d]; try contradiction;
      simpl NilZero.string_of_int in *;
      unfold match_number;
      simpl in Hi;
      simpl; rewrite (span_digits_uint d rest Hs), Hf; simpl;
      rewrite Hi, Hz; reflexivity.
Qed.

Lemma starts_value_facts (c : ascii) :
  starts_value c = true ->
  is_ws c = false /\ (code c =? 93) = false /\ (code c =? 125) = false.
Proof.
  destruct c as [[] [] [] [] [] [] [] []]; try discriminate; intros _; repeat split.
Qed.

Lemma dec_head (z : Z) :
  exists c t, dec z = String c t /\ is_digit c || (code c =? 45) = true.
Proof.
  unfold dec. destruct z as [|p|p]; simpl.
  - eexists _, _; split; reflexivity.
  - pose proof (to_uint_head p) as Hh.
    destruct (Pos.to_uint p); try contradiction; simpl;
      eexists _, _; split; reflexivity.
  - eexists _, _; split; reflexivity.
Qed.

Lemma dumps_head (v : pyval) :
  exists c t, json_dumps v = String c t /\ starts_value c = true.
Proof.
  destruct v as [|[]|z|s|xs|kvs]; simpl;
    try (eexists _, _; split; reflexivity).
  destruct (dec_head z) as (c & t & E & Hc). exists c, t. split; [exact E|].
  unfold starts_value. rewrite Hc. reflexivity.
Qed.

Lemma skip_ws_dumps (v : pyval) (rest : string) :
  skip_ws (json_dumps v +:+ rest) = json_dumps v +:+ rest.
Proof.
  destruct (dumps_head v) as (c & t & E & Hc). rewrite E. simpl.
  destruct (starts_value_facts c Hc) as [Hw _]. rewrite Hw. reflexivity.
Qed.

Lemma join_cons2 (sep a b : string) (l : list string) :
  join sep (a :: b :: l) = a +:+ sep +:+ join sep (b :: l).
Proof. reflexivity. Qed.

Lemma join_array_tail (x : pyval) (xs : list pyval) :
  join ", " (List.map json_dumps (x :: xs)) +:+ "]" = json_dumps x +:+ array_tail xs.
Proof.
  revert x. induction xs as [|y ys IH]; intros x; [reflexivity|].
  change (List.map json_dumps (x :: y :: ys))
    with (json_dumps x :: List.map json_dumps (y :: ys)).
  change (List.map json_dumps (y :: ys))
    with (json_dumps y :: List.map json_dumps ys) at 1.
  rewrite join_cons2.
  change (json_dumps y :: List.map json_dumps ys)
    with (List.map json_dumps (y :: ys)).
  rewrite !append_assoc, IH. reflexivity.
Qed.

Lemma dumps_list_cons (x : pyval) (xs : list pyval) :
  json_dumps (PList (x :: xs)) = "[" +:+ json_dumps x +:+ array_tail xs.
Proof.
  change (json_dumps (PList (x :: xs)))
    with ("[" +:+ join ", " (List.map json_dumps (x :: xs)) +:+ "]").
  rewrite join_array_tail. reflexivity.
Qed.

Lemma json_string_append (k t : string) :
  json_string k +:+ t = String dquote (json_escape k +:+ String dquote t).
Proof. unfold json_string. simpl. rewrite append_assoc. reflexivity. Qed.


Lemma join_object_tail (kv : string * pyval) (kvs : list (string * pyval)) :
  join ", " (List.map dump_pair (kv :: kvs)) +:+ "}"
  = dump_pair kv +:+ object_tail kvs.
Proof.
  revert kv. induction kvs as [|kv' kvs IH]; intros kv; [reflexivity|].
  change (List.map dump_pair (kv :: kv' :: kvs))
    with (dump_pair kv :: List.map dump_pair (kv' :: kvs)).
  change (List.map dump_pair (kv' :: kvs))
    with (dump_pair kv' :: List.map dump_pair kvs) at 1.
  rewrite join_cons2.
  change (dump_pair kv' :: List.map dump_pair kvs)
    with (List.map dump_pair (kv' :: kvs)).
  rewrite !append_assoc, IH. destruct kv' as [k' x'].
  unfold dump_pair at 2. cbn [object_tail]. rewrite !append_assoc. reflexivity.
Qed.

Lemma dumps_dict_cons (k : string) (x : pyval) (kvs : list (string * pyval)) :
  json_dumps (PDict ((k, x) :: kvs))
  = "{" +:+ json_string k +:+ ": " +:+ json_dumps x +:+ object_tail kvs.
Proof.
  change (json_dumps (PDict ((k, x) :: kvs)))
    with ("{" +:+ join ", " (List.map dump_pair ((k, x) :: kvs)) +:+ "}").
  rewrite join_object_tail. unfold dump_pair. rewrite !append_assoc. reflexivity.
Qed.

Lemma array_tail_head (xs : list pyval) (rest : string) :
  ends_value (array_tail xs +:+ rest) = true
  /\ skip_ws (array_tail xs +:+ rest) = array_tail xs +:+ rest.
Proof. destruct xs; split; reflexivity. Qed.

Lemma object_tail_head (kvs : list (string * pyval)) (rest : string) :
  ends_value (object_tail kvs +:+ rest) = true
  /\ skip_ws (object_tail kvs +:+ rest) = object_tail kvs +:+ rest.
Proof. destruct kvs as [|[k x] kvs]; split; reflexivity. Qed.

Lemma array_items_dumps (scan : string -> parsed pyval) (xs : list pyval) :
  forall (x : pyval) (acc : list pyval) (fuel : nat) (rest : string),
    (length xs < fuel)%nat ->
    (forall y r, In y (x :: xs) -> ends_value r = true ->
                 scan (json_dumps y +:+ r) = Parsed y r) ->
    array_items scan fuel (json_dumps x +:+ array_tail xs +:+ rest) acc
    = Parsed (PList (acc ++ x :: xs)) rest.
Proof.
  induction xs as [|y ys IH]; intros x acc fuel rest Hfuel Hscan;
    (destruct fuel as [|f]; [simpl in Hfuel; lia|]).
  - cbn [array_items].
    destruct (array_tail_head [] rest) as [He Hs].
    rewrite (Hscan x _ (or_introl eq_refl) He), Hs. reflexivity.
  - cbn [array_items].
    destruct (array_tail_head (y :: ys) rest) as [He Hs].
    rewrite (Hscan x _ (or_introl eq_refl) He), Hs.
    cbn [array_tail]. rewrite !append_assoc.
    change (", " +:+ json_dumps y +:+ array_tail ys +:+ rest)
      with (String "," (String " " (json_dumps y +:+ array_tail ys +:+ rest))).
    cbv beta iota.
    change (code "," =? 93) with false. change (code "," =? 44) with true.
    cbv beta iota.
    change (skip_ws (String " " (json_dumps y +:+ array_tail ys +:+ rest)))
      with (skip_ws (json_dumps y +:+ array_tail ys +:+ rest)).
    rewrite skip_ws_dumps.
    rewrite IH.
    + rewrite <- app_assoc. reflexivity.
    + simpl in Hfuel. lia.
    + intros z r Hin. apply Hscan. right. exact Hin.
Qed.

Lemma existsb_eqb_app (k : string) (l1 l2 : list string) :
  existsb (String.eqb k) (l1 ++ l2)
  = existsb (String.eqb k) l1 || existsb (String.eqb k) l2.
Proof. apply existsb_app. Qed.

Lemma distinct_middle (l1 l2 : list string) (k : string) :
  distinct (l1 ++ k :: l2) = true -> existsb (String.eqb k) l1 = false.
Proof.
  induction l1 as [|a l1 IH]; [reflexivity|].
  cbn [app distinct existsb]. intros H.
  apply andb_true_iff in H as [Ha Hd].
  rewrite (IH Hd), orb_false_r.
  apply negb_true_iff in Ha. rewrite existsb_app in Ha.
  apply orb_false_iff in Ha as [_ Ha]. cbn [existsb] in Ha.
  apply orb_false_iff in Ha as [Ha _].
  rewrite String.eqb_sym. exact Ha.
Qed.

Lemma dict_set_fresh (acc : list (string * pyval)) (k : string) (v : pyval) :
  existsb (String.eqb k) (List.map fst acc) = false ->
  dict_set acc k v = acc ++ [(k, v)].
Proof.
  induction acc as [|[k' v'] acc IH]; [reflexivity|].
  cbn [List.map fst existsb dict_set app]. intros H.
  apply orb_false_iff in H as [Hk Hrest]. rewrite Hk, (IH Hrest). reflexivity.
Qed.

Lemma object_items_dumps (scan : string -> parsed pyval)
    (kvs : list (string * pyval)) :
  forall (k : string) (x : pyval) (acc : list (string * pyval)) (fuel : nat)
         (rest : string),
    (length kvs < fuel)%nat ->
    (forall y r, In y (List.map snd ((k, x) :: kvs)) -> ends_value r = true ->
                 scan (json_dumps y +:+ r) = Parsed y r) ->
    distinct (List.map fst (acc ++ (k, x) :: kvs)) = true ->
    object_items scan fuel
      (json_escape k +:+
       String dquote (": " +:+ json_dumps x +:+ object_tail kvs +:+ rest)) acc
    = Parsed (PDict (acc ++ (k, x) :: kvs)) rest.
Proof.
  induction kvs as [|[k' x'] kvs IH]; intros k x acc fuel rest Hfuel Hscan Hd;
    (destruct fuel as [|f]; [simpl in Hfuel; lia|]);
    cbn [object_items]; rewrite scanstring_escape;
    change (skip_ws (": " +:+ ?t)) with (": " +:+ t);
    assert (Hfresh : dict_set acc k x = acc ++ [(k, x)])
      by (apply dict_set_fresh; rewrite map_app in Hd;
          exact (distinct_middle _ _ _ Hd)).
  - destruct (object_tail_head [] rest) as [He Hs].
    match goal with
    | |- context [": " +:+ ?t] =>
        change (": " +:+ t) with (String ":" (String " " t))
    end.
    cbv beta iota. change (code ":" =? 58) with true. cbv beta iota.
    match goal with
    | |- context [skip_ws (String " " ?t)] =>
        change (skip_ws (String " " t)) with (skip_ws t)
    end.
    rewrite skip_ws_dumps.
    rewrite (Hscan x _ (or_introl eq_refl) He), Hs, Hfresh. reflexivity.
  - destruct (object_tail_head ((k', x') :: kvs) rest) as [He Hs].
    match goal with
    | |- context [": " +:+ ?t] =>
        change (": " +:+ t) with (String ":" (String " " t))
    end.
    cbv beta iota. change (code ":" =? 58) with true. cbv beta iota.
    match goal with
    | |- context [skip_ws (String " " ?t)] =>
        change (skip_ws (String " " t)) with (skip_ws t)
    end.
    rewrite skip_ws_dumps.
    rewrite (Hscan x _ (or_introl eq_refl) He), Hs, Hfresh.
    cbn [object_tail]. rewrite !append_assoc, json_string_append.
    match goal with
    | |- context [", " +:+ ?t] =>
        change (", " +:+ t) with (String "," (String " " t))
    end.
    cbv beta iota.
    change (code "," =? 125) with false. change (code "," =? 44) with true.
    cbv beta iota.
    match goal with
    | |- context [skip_ws (String " " (String dquote ?t))] =>
        change (skip_ws (String " " (String dquote t))) with (String dquote t)
    end.
    cbv beta iota. change (code dquote =? 34) with true. cbv beta iota.

    rewrite IH.
    + rewrite <- app_assoc. reflexivity.
    + simpl in Hfuel. lia.
    + intros z r Hin. apply Hscan. right. exact Hin.
    + rewrite <- app_assoc. exact Hd.
Qed.

Lemma size_pos (v : pyval) : (1 <= size v)%nat.
Proof. destruct v; simpl; lia. Qed.

Lemma size_in_sum (x : pyval) (xs : list pyval) :
  In x xs -> (size x <= list_sum (List.map size xs))%nat.
Proof.
  induction xs as [|y ys IH]; [contradiction|].
  intros [->|Hin]; simpl; [lia|]. specialize (IH Hin). lia.
Qed.

Lemma length_le_sum (xs : list pyval) :
  (length xs <= list_sum (List.map size xs))%nat.
Proof.
  induction xs as [|y ys IH]; simpl; [lia|]. pose proof (size_pos y). lia.
Qed.


Lemma size_in_pairs (x : pyval) (kvs : list (string * pyval)) :
  In x (List.map snd kvs) -> (size x <= list_sum (List.map pair_size kvs))%nat.
Proof.
  induction kvs as [|[k y] kvs IH]; [contradiction|].
  intros [<-|Hin]; simpl; [lia|]. specialize (IH Hin). lia.
Qed.

Lemma length_le_pairs (kvs : list (string * pyval)) :
  (length kvs <= list_sum (List.map pair_size kvs))%nat.
Proof.
  induction kvs as [|[k y] kvs IH]; simpl; [lia|]. pose proof (size_pos y). lia.
Qed.

Lemma well_formed_in (x : pyval) (xs : list pyval) :
  forallb well_formed xs = true -> In x xs -> well_formed x = true.
Proof. intros H Hin. rewrite forallb_forall in H. exact (H x Hin). Qed.

Lemma well_formed_in_pairs (x : pyval) (kvs : list (string * pyval)) :
  forallb (fun kv => match kv with (_, y) => well_formed y end) kvs = true ->
  In x (List.map snd kvs) -> well_formed x = true.
Proof.
  intros H Hin. rewrite forallb_forall in H.
  apply in_map_iff in Hin as [[k y] [<- Hin]]. exact (H _ Hin).
Qed.

Lemma scan_once_numeric (f : nat) (c : ascii) (t : string) (r : parsed pyval) :
  is_digit c || (code c =? 45) = true ->
  match_number (String c t) = Some r ->
  scan_once (Datatypes.S f) (String c t) = r.
Proof.
  destruct c as [[] [] [] [] [] [] [] []]; try discriminate; intros _ Hm.
  all: cbn -[match_number object_items array_items skip_ws].
  all: rewrite Hm; reflexivity.
Qed.

Lemma scan_once_dumps (fuel : nat) :
  forall (v : pyval) (rest : string),
    (size v <= fuel)%nat ->
    well_formed v = true ->
    ends_value rest = true ->
    scan_once fuel (json_dumps v +:+ rest) = Parsed v rest.
Proof.
  induction fuel as [|f IH]; intros v rest Hsize Hwf He.
  { pose proof (size_pos v). lia. }
  destruct v as [|[]|z|s|xs|kvs].
  - simpl. reflexivity.
  - simpl. reflexivity.
  - simpl. reflexivity.
  - destruct (dec_head z) as (c & t & E & Hc).
    cbn [json_dumps]. pose proof (match_number_dec z rest He) as Hm.
    rewrite E in *. apply scan_once_numeric; [exact Hc|exact Hm].
  - cbn [json_dumps]. rewrite json_string_append.
    cbn [scan_once]. change (code dquote =? 34) with true. cbv beta iota.
    rewrite scanstring_escape. reflexivity.
  - destruct xs as [|x xs]; [reflexivity|].
    rewrite dumps_list_cons, !append_assoc.
    change ("[" +:+ ?t) with (String "[" t).
    cbn [scan_once].
    change (code "[" =? 34) with false. change (code "[" =? 123) with false.
    change (code "[" =? 91) with true. cbv beta iota.
    rewrite skip_ws_dumps.
    destruct (dumps_head x) as (c & t & E & Hc).
    destruct (starts_value_facts c Hc) as (_ & H93 & _).
    rewrite E at 1. cbn [String.append]. rewrite H93.
    cbn [size] in Hsize. cbn [well_formed] in Hwf.
    apply (array_items_dumps (scan_once f) xs x [] f rest).
    + pose proof (length_le_sum (x :: xs)). simpl in *. lia.
    + intros y r Hin Hr. apply IH; [|exact (well_formed_in _ _ Hwf Hin)|exact Hr].
      pose proof (size_in_sum y (x :: xs) Hin). lia.
  - destruct kvs as [|[k x] kvs]; [reflexivity|].
    rewrite dumps_dict_cons, !append_assoc, json_string_append.
    change ("{" +:+ ?t) with (String "{" t).
    cbn [scan_once].
    change (code "{" =? 34) with false. change (code "{" =? 123) with true.
    cbv beta iota.
    match goal with
    | |- context [skip_ws (String dquote ?t)] =>
        change (skip_ws (String dquote t)) with (String dquote t)
    end.
    cbv beta iota. change (code dquote =? 125) with false.
    change (code dquote =? 34) with true. cbv beta iota.
    cbn [size] in Hsize. cbn [well_formed] in Hwf.
    apply andb_true_iff in Hwf as [Hd Hall].
    apply (object_items_dumps (scan_once f) kvs k x [] f rest).
    + pose proof (length_le_pairs ((k, x) :: kvs)). unfold pair_size in *.
      simpl in *. lia.
    + intros y r Hin Hr.
      apply IH; [|exact (well_formed_in_pairs _ _ Hall Hin)|exact Hr].
      pose proof (size_in_pairs y ((k, x) :: kvs) Hin) as Hy.
      unfold pair_size in Hy. lia.
    + exact Hd.
Qed.

Ltac sum_lia :=
  unfold list_sum, pair_size in *; cbn [fold_right List.map] in *; lia.

Lemma array_tail_length (xs : list pyval) :
  (forall y, In y xs -> (size y <= String.length (json_dumps y))%nat) ->
  (list_sum (List.map size xs) < String.length (array_tail xs))%nat.
Proof.
  induction xs as [|y ys IH]; intros Hall; [simpl; lia|].
  cbn [array_tail List.map]. rewrite !length_append.
  unfold list_sum in *. cbn [fold_right].
  specialize (IH (fun z Hz => Hall z (or_intror Hz))).
  pose proof (Hall y (or_introl eq_refl)).
  change (String.length ", ") with 2%nat. lia.
Qed.

Lemma object_tail_length (kvs : list (string * pyval)) :
  (forall y, In y (List.map snd kvs) -> (size y <= String.length (json_dumps y))%nat) ->
  (list_sum (List.map pair_size kvs) < String.length (object_tail kvs))%nat.
Proof.
  induction kvs as [|[k y] kvs IH]; intros Hall; [simpl; lia|].
  cbn [object_tail List.map pair_size]. rewrite !length_append.
  unfold list_sum in *. cbn [fold_right].
  specialize (IH (fun z Hz => Hall z (or_intror Hz))).
  pose proof (Hall y (or_introl eq_refl)).
  change (String.length ", ") with 2%nat. lia.
Qed.

Lemma size_le_length (n : nat) :
  forall v : pyval, (size v <= n)%nat -> (size v <= String.length (json_dumps v))%nat.
Proof.
  induction n as [|n IH]; intros v Hn.
  { pose proof (size_pos v). lia. }
  destruct v as [|[]|z|s|xs|kvs]; try (simpl; lia).
  - destruct (dec_head z) as (c & t & E & _). simpl. rewrite E. simpl. lia.
  - destruct xs as [|x xs]; [simpl; lia|].
    rewrite dumps_list_cons, !length_append.
    cbn [size List.map] in *. unfold list_sum in *. cbn [fold_right] in *.
    assert (Hin : forall y, In y (x :: xs) ->
                            (size y <= String.length (json_dumps y))%nat).
    { intros y Hy. apply IH. pose proof (size_in_sum y (x :: xs) Hy).
      sum_lia. }
    pose proof (array_tail_length xs (fun y Hy => Hin y (or_intror Hy))).
    pose proof (Hin x (or_introl eq_refl)).
    change (String.length "[") with 1%nat. sum_lia.
  - destruct kvs as [|[k x] kvs]; [simpl; lia|].
    rewrite dumps_dict_cons, !length_append.
    cbn [size List.map] in *. unfold list_sum in *. cbn [fold_right] in *.
    assert (Hin : forall y, In y (List.map snd ((k, x) :: kvs)) ->
                            (size y <= String.length (json_dumps y))%nat).
    { intros y Hy. apply IH. pose proof (size_in_pairs y ((k, x) :: kvs) Hy) as Hs.
      sum_lia. }
    pose proof (object_tail_length kvs (fun y Hy => Hin y (or_intror Hy))) as Ht.
    pose proof (Hin x (or_introl eq_refl)).
    change (String.length "{") with 1%nat. change (String.length ": ") with 2%nat.
    sum_lia.
Qed.

(** Loading what was dumped gives the value back. *)
Lemma json_loads_dumps (v : pyval) :
  well_formed v = true -> json_loads (json_dumps v) = Loaded v.
Proof.
  intros Hwf. unfold json_loads.
  rewrite <- (append_nil_r (json_dumps v)) at 2.
  rewrite skip_ws_dumps, scan_once_dumps; [reflexivity| |exact Hwf|reflexivity].
  pose proof (size_le_length (size v) v (le_n _)). lia.
Qed.

(** ** Task completion tool *)

Lemma py_or_idem (v d : pyval) :
  truthy d = false -> py_or (py_or v d) d = py_or v d.
Proof.
  intros Hd. unfold py_or. destruct (truthy v) eqn:E; [rewrite E|rewrite Hd];
    reflexivity.
Qed.

Lemma well_formed_py_or (v d : pyval) :
  well_formed v = true -> well_formed d = true -> well_formed (py_or v d) = true.
Proof. intros Hv Hd. unfold py_or. destruct (truthy v); assumption. Qed.

Lemma well_formed_get (arguments : gmap string pyval) (k : string) (d : pyval) :
  map_Forall (fun _ v => well_formed v = true) arguments ->
  well_formed d = true ->
  well_formed (get arguments k d) = true.
Proof.
  intros Hall Hd. unfold get. destruct (arguments !! k) as [v|] eqn:E; [|exact Hd].
  exact (Hall k v E).
Qed.

(** Parsing the serialization of a report built by the constructor gives
    the report back. *)
Lemma from_json_to_json
    (status summary findings artifacts recommendations : pyval) :
  well_formed status = true ->
  well_formed summary = true ->
  well_formed findings = true ->
  well_formed artifacts = true ->
  well_formed recommendations = true ->
  from_json (to_json (CompletionReport_init status summary findings artifacts
                        recommendations))
  = Within (Ok (CompletionReport_init status summary findings artifacts
                  recommendations)).
Proof.
  intros H1 H2 H3 H4 H5.
  unfold from_json, to_json. rewrite json_loads_dumps.
  - unfold to_dict, CompletionReport_from_kwargs. simpl.
    unfold CompletionReport_init. rewrite !py_or_idem by reflexivity. reflexivity.
  - unfold to_dict. cbn [well_formed forallb List.map fst]. simpl.
    rewrite H1, H2, !well_formed_py_or by (assumption || reflexivity).
    reflexivity.
Qed.

(** C8: a completion report built by the constructor, serialized with
    [to_json] and parsed back with [from_json], is the same report: its
    status, summary, findings, artifacts and recommendations are those of
    the original. *)
Theorem report_json_roundtrip
    (status0 summary0 findings0 artifacts0 recommendations0 : pyval) :
  well_formed status0 = true ->
  well_formed summary0 = true ->
  well_formed findings0 = true ->
  well_formed artifacts0 = true ->
  well_formed recommendations0 = true ->
  let report :=
    CompletionReport_init status0 summary0 findings0 artifacts0 recommendations0 in
  from_json (to_json report) = Within (Ok report)
  /\ forall parsed,
       from_json (to_json report) = Within (Ok parsed) ->
       status parsed = status report
       /\ summary parsed = summary report
       /\ findings parsed = findings report
       /\ artifacts parsed = artifacts report
       /\ recommendations parsed = recommendations report.
Proof.
  intros H1 H2 H3 H4 H5 report.
  pose proof (from_json_to_json _ _ _ _ _ H1 H2 H3 H4 H5) as E. fold report in E.
  split; [exact E|]. intros parsed Hp. rewrite E in Hp.
  injection Hp as <-. repeat split.
Qed.

Lemma report_json_roundtrip_witness :
  from_json (to_json partial_report) = Within (Ok partial_report)
  /\ partial_report
     = {| status := PStr "partial"; summary := PStr "x";
          findings := PList [PStr "f1"]; artifacts := PList [];
          recommendations := PList [] |}.
Proof.
  split; [|reflexivity].
  exact (proj1 (report_json_roundtrip (PStr "partial") (PStr "x")
                  (PList [PStr "f1"]) (PList []) (PList [])
                  eq_refl eq_refl eq_refl eq_refl eq_refl)).
Defined.

(** C9: the output of the control tool [finish] starts with the sentinel,
    [is_task_complete] holds on it and [extract_completion_report] gives
    back the report built from the arguments with their defaults; and on a
    text that does not start with the sentinel [is_task_complete] is false,
    [extract_completion_report] returns nothing and
    [extract_completion_summary] returns the text as it is. *)
Theorem finish_signal_roundtrip (arguments : gmap string pyval) :
  map_Forall (fun _ v => well_formed v = true) arguments ->
  let report :=
    CompletionReport_init
      (get arguments "status" (PStr "success"))
      (get arguments "summary" (PStr "Task completed."))
      (get arguments "findings" (PList []))
      (get arguments "artifacts" (PList []))
      (get arguments "recommendations" (PList [])) in
  (startswith (finish arguments) "__TASK_COMPLETE__" = true
   /\ is_task_complete (finish arguments) = true
   /\ extract_completion_report (finish arguments) = Within (Ok (Some report)))
  /\ forall result : string,
       startswith result "__TASK_COMPLETE__" = false ->
       is_task_complete result = false
       /\ extract_completion_report result = Within (Ok None)
       /\ extract_completion_summary result = Within (Ok (PStr result)).
Proof.
  intros Hwf report. split.
  - split; [reflexivity|]. split; [reflexivity|].
    unfold extract_completion_report.
    change (is_task_complete (finish arguments)) with true. cbv iota.
    change (completion_data (finish arguments)) with (to_json report).
    cbv zeta. unfold report.
    rewrite from_json_to_json; [reflexivity|..];
      apply well_formed_get; (exact Hwf || reflexivity).
  - intros result Hs. unfold extract_completion_report,
      extract_completion_summary, is_task_complete, TASK_COMPLETE_SIGNAL.
    rewrite Hs. repeat split.
Qed.

Lemma finish_signal_roundtrip_witness :
  extract_completion_report (finish partial_args) = Within (Ok (Some partial_report)).
Proof.
  refine (proj2 (proj2 (proj1 (finish_signal_roundtrip partial_args _)))).
  apply map_Forall_insert_2; [reflexivity|].
  apply map_Forall_insert_2; [reflexivity|].
  apply map_Forall_insert_2; [reflexivity|].
  apply map_Forall_empty.
Defined.

(** ** Filesystem and code search tools *)

Ltac rets_step :=
  match goal with
  | |- all_rets _ (bind _ _) => apply all_rets_bind; intros
  | |- all_rets _ (mbind _ _) => apply all_rets_bind; intros
  | |- all_rets _ (try_except _ _) => apply all_rets_try; [|intros]
  | |- all_rets _ (if ?b then _ else _) => destruct b
  | |- all_rets _ (Ret _) => cbn [all_rets]; eexists; reflexivity
  | |- all_rets _ (Throw _) => exact I
  end.

Lemma read_file_body_text (filepath start_line end_line : pyval) :
  all_rets is_text (read_file_body filepath start_line end_line).
Proof. unfold read_file_body. repeat rets_step. Qed.

Lemma replace_in_file_body_text (filepath old_string new_string : pyval) :
  all_rets is_text (replace_in_file_body filepath old_string new_string).
Proof. unfold replace_in_file_body. repeat rets_step. Qed.

Lemma py_min_int (a b : pyval) :
  is_Some (as_int a) -> is_Some (as_int b) -> exists m, py_min a b = Ok m.
Proof.
  intros [x Hx] [y Hy]. unfold py_min, py_lt. rewrite Hx, Hy. eexists. reflexivity.
Qed.

Lemma run_try_raise {Σ A S} (H : forall o : op Σ, S -> reply (ans Σ o) * S)
    (p : prog Σ A) (h : exn -> prog Σ A) (s s1 : S) (tr : list (op Σ)) (e : exn) :
  run H p s = (tr, s1, Raise e) ->
  run H (try_except p h) s
  = let '(tr2, s2, out) := run H (h e) s1 in (tr ++ tr2, s2, out).
Proof.
  revert s tr. induction p as [a'|e'|o k IH]; cbn; intros s tr Hr.
  - discriminate Hr.
  - inversion Hr; subst. destruct (run H (h e) s1) as [[tr2 s2] out]. reflexivity.
  - destruct (H o s) as [r s'].
    destruct (run H (k r) s') as [[tr' s''] out'] eqn:E.
    inversion Hr; subst. rewrite (IH r s' tr' E).
    destruct (run H (h e) s1) as [[tr2 s2] out]. reflexivity.
Qed.

Section ToolFacts.
  Context {S : Type}.
  Variable H : forall o : op fsΣ, S -> reply (ans fsΣ o) * S.
  Variable search_body :
    pyval -> pyval -> pyval -> pyval -> pyval -> pyval -> prog fsΣ pyval.

(** C4 (amended): given an arguments dictionary that has the keys its schema
    marks as required, a tool returns a text and never raises, whatever the
    file system answers: [read_file] with [path]; [replace_in_file] with
    [path], [old_string] and [new_string]; and [search_code] with [query]
    and, for [context_lines], an integer or nothing, as far as the body of
    its [try] block returns texts.  A failure inside [read_file] comes back
    as the error description made from the exception's message. *)
Theorem execute_returns_text (arguments : gmap string pyval) (s : S) :
  (forall q p f r c n, all_rets is_text (search_body q p f r c n)) ->
  (is_Some (arguments !! "path") ->
     exists t, outcome (Σ := fsΣ) H (read_file arguments) s = Ok (PStr t))
  /\ (is_Some (arguments !! "path") ->
      is_Some (arguments !! "old_string") ->
      is_Some (arguments !! "new_string") ->
        exists t, outcome (Σ := fsΣ) H (replace_in_file arguments) s = Ok (PStr t))
  /\ (is_Some (arguments !! "query") ->
      is_Some (as_int (get arguments "context_lines" (PInt MAX_CONTEXT_LINES))) ->
        exists t,
          outcome (Σ := fsΣ) H (search_code search_body arguments) s = Ok (PStr t))
  /\ (forall filepath tr s1 e,
        arguments !! "path" = Some filepath ->
        run H (read_file_body filepath (get arguments "start_line" PNone)
                 (get arguments "end_line" PNone)) s = (tr, s1, Raise e) ->
        run H (read_file arguments) s
        = (tr, s1,
           Ok (PStr ((if is_ValueError e then "Error: " else "Error reading file: ")
                     +:+ exn_msg e)))).
Proof.
  intros Hbody.
  assert (Hout : forall p : prog fsΣ pyval, returns is_text p ->
                   exists t, outcome (Σ := fsΣ) H p s = Ok (PStr t)).
  { intros p Hp. destruct (returns_outcome is_text p H s Hp) as [a [E [t ->]]].
    exists t. exact E. }
  split; [|split; [|split]].
  - intros [fp Hfp]. apply Hout. unfold read_file, subscript. rewrite Hfp.
    prog_simpl. apply returns_try; [apply read_file_body_text|].
    intros e. destruct (is_ValueError e); cbn; eexists; reflexivity.
  - intros [fp Hfp] [o Ho] [n Hn]. apply Hout.
    unfold replace_in_file, subscript. rewrite Hfp, Ho, Hn.
    prog_simpl. apply returns_try; [apply replace_in_file_body_text|].
    intros e. destruct (is_ValueError e); cbn; eexists; reflexivity.
  - intros [q Hq] Hc. apply Hout. unfold search_code, subscript. rewrite Hq.
    destruct (py_min_int _ (PInt 10) Hc (ex_intro _ 10 eq_refl)) as [m Hm].
    prog_simpl. rewrite Hm. prog_simpl.
    apply returns_try; [apply Hbody|]. intros e. cbn. eexists; reflexivity.
  - intros fp tr s1 e Hfp Hr. unfold read_file, subscript. rewrite Hfp.
    prog_simpl. rewrite (run_try_raise H _ _ _ _ _ _ Hr).
    destruct (is_ValueError e); cbn; rewrite List.app_nil_r; reflexivity.
Qed.
End ToolFacts.

Lemma append_cons (c : ascii) (a b : string) :
  String c a +:+ b = String c (a +:+ b).
Proof. reflexivity. Qed.

Lemma startswith_split (s old : string) :
  startswith s old = true -> s = old +:+ string_drop (String.length old) s.
Proof.
  revert s. induction old as [|a old IH]; intros s Hs; [reflexivity|].
  destruct s as [|b s]; [discriminate Hs|]. cbn in Hs.
  apply andb_true_iff in Hs as [Hab Hs]. apply Ascii.eqb_eq in Hab. subst b.
  cbn [String.length string_drop]. rewrite append_cons. f_equal. apply IH, Hs.
Qed.

Lemma startswith_append (old rest : string) : startswith (old +:+ rest) old = true.
Proof.
  induction old as [|a old IH]; [reflexivity|].
  rewrite append_cons. cbn. rewrite Ascii.eqb_refl. exact IH.
Qed.

Lemma string_drop_append (a b : string) :
  string_drop (String.length a) (a +:+ b) = b.
Proof. induction a as [|c a IH]; [reflexivity|exact IH]. Qed.

Lemma count_from_skip (t u sub : string) :
  count_from (String.length t) (t +:+ u) sub = count_from 0 u sub.
Proof.
  induction t as [|c t IH]; [reflexivity|].
  rewrite append_cons. cbn [String.length count_from]. exact IH.
Qed.

(** The first occurrence of [old] in [s], when there is one: what comes
    before it holds no start of an occurrence, and [replace_first] puts
    [new] in its place. *)
Lemma replace_first_split (s old new : string) :
  (0 < str_count s old)%nat ->
  exists before after,
    s = before +:+ old +:+ after
    /\ replace_first s old new = before +:+ new +:+ after
    /\ (forall i, (i < String.length before)%nat ->
                  startswith (string_drop i s) old = false)
    /\ (old <> "" -> str_count s old = Datatypes.S (str_count after old)).
Proof.
  unfold str_count. destruct (String.eqb_spec old "") as [->|Hne].
  { intros _. exists "", s. repeat split.
    - destruct s; reflexivity.
    - intros i Hi. cbn in Hi. lia.
    - intros Hc. contradiction Hc. reflexivity. }
  induction s as [|c s IH]; intros Hpos; [cbn in Hpos; lia|].
  destruct (startswith (String c s) old) eqn:Hs.
  - exists "", (string_drop (String.length old) (String c s)).
    split; [exact (startswith_split _ _ Hs)|]. split.
    + destruct old; [contradiction Hne; reflexivity|]. cbn [replace_first].
      rewrite Hs. reflexivity.
    + split; [intros i Hi; cbn in Hi; lia|]. intros _.
      cbn [count_from]. rewrite Hs. f_equal.
      destruct old as [|a old]; [contradiction Hne; reflexivity|].
      pose proof (startswith_split _ _ Hs) as E. rewrite append_cons in E.
      inversion E as [[Ea Es]]. cbn [String.length string_drop].
      replace (Datatypes.S (String.length old) - 1)%nat with (String.length old)
        by lia.
      rewrite count_from_skip, string_drop_append. reflexivity.
  - cbn [count_from] in Hpos. rewrite Hs in Hpos.
    destruct (IH Hpos) as (before & after & E & Hr & Hfirst & Hcount).
    exists (String c before), after. split; [rewrite append_cons, <- E; reflexivity|].
    split.
    + destruct old; [contradiction Hne; reflexivity|]. cbn [replace_first].
      rewrite Hs. rewrite append_cons. f_equal. 
      destruct s; exact Hr.
    + split.
      * intros [|i] Hi; [exact Hs|]. cbn [string_drop]. apply Hfirst.
        cbn in Hi. lia.
      * intros _. cbn [count_from]. rewrite Hs. apply Hcount, Hne.
Qed.

Lemma validate_path_no_write (filepath : pyval) :
  never_calls (Σ := fsΣ) is_write (_validate_path filepath).
Proof.
  unfold _validate_path. cbn. split; [reflexivity|]. intros [p|e]; cbn; [|exact I].
  split; [reflexivity|]. intros [[r|]|e]; cbn; try exact I.
  split; [reflexivity|]. intros [[]|e]; cbn; [exact I|].
  destruct (is_ValueError e); exact I.
Qed.

Lemma read_content_no_write (path : string) :
  never_calls (Σ := fsΣ) is_write (read_content path).
Proof.
  unfold read_content. cbn. split; [reflexivity|]. intros [c|e]; cbn; [exact I|].
  destruct (is_UnicodeDecodeError e); cbn; [|exact I].
  split; [reflexivity|]. intros [c|e']; exact I.
Qed.

Section ReplaceFacts.
  Context {S : Type}.
  Variable H : forall o : op fsΣ, S -> reply (ans fsΣ o) * S.

Lemma replace_body_run (filepath : pyval) (old new : string)
    (s s1 s2 s3 : S) (tr1 tr3 : list fs_op) (path content : string) :
  run (Σ := fsΣ) H (_validate_path filepath) s = (tr1, s1, Ok path) ->
  H (path_exists path) s1 = (Ok true, s2) ->
  run (Σ := fsΣ) H (read_content path) s2 = (tr3, s3, Ok content) ->
  let reads := tr1 ++ [path_exists path] ++ tr3 in
  let write := write_text path (replace_first content old new) "utf-8" in
  run (Σ := fsΣ) H (replace_in_file_body filepath (PStr old) (PStr new)) s
  = if (str_count content old =? 0)%nat then
      (reads, s3,
       Ok (PStr ("Error: String not found in " +:+ py_str filepath +:+
                 ". Make sure old_string matches exactly (including whitespace).")))
    else if (1 <? str_count content old)%nat then
      (reads, s3,
       Ok (PStr ("Error: Found " +:+ dec (Z.of_nat (str_count content old)) +:+
                 " matches in " +:+ py_str filepath +:+
                 ". Include more context in old_string to make it unique.")))
    else
      (reads ++ [write], (H write s3).2,
       match (H write s3).1 with
       | Ok _ => Ok (PStr ("Replaced in " +:+ py_str filepath +:+ ":" +:+ nl +:+
                           "- " +:+ preview (PStr old) +:+ nl +:+
                           "+ " +:+ preview (PStr new)))
       | Raise e => Raise e
       end).
Proof.
  intros Hv He Hr reads write. unfold replace_in_file_body.
  unfold mbind, prog_bind.
  rewrite (run_bind H _ _ s s1 tr1 path Hv).
  cbn [bind call run]. rewrite He. cbn [bind negb].
  rewrite (run_bind H _ _ s2 s3 tr3 content Hr).
  cbn [py_count lift bind].
  destruct (str_count content old =? 0)%nat.
  { cbn [run]. unfold reads. rewrite ?List.app_nil_r. reflexivity. }
  destruct (1 <? str_count content old)%nat.
  { cbn [run]. unfold reads. rewrite ?List.app_nil_r. reflexivity. }
  cbn [py_replace_first lift bind call run]. fold write.
  destruct (H write s3) as [[[]|e] s4]; cbn [run fst snd bind];
    unfold reads; rewrite <- ?List.app_assoc; reflexivity.
Qed.

(** C10: for an existing file whose content has been read, [replace_in_file]
    issues a write only when [count] finds [old_string] exactly once in the
    content, and what it writes is the content with that occurrence, the
    first and only one counted, replaced by [new_string]; when the count is
    zero or more than one it returns an error message, having made no write,
    so the file is left as it was. *)
Theorem replace_in_file_unique_match (arguments : gmap string pyval)
    (filepath : pyval) (old new : string) (s s1 s2 s3 : S)
    (tr1 tr3 : list (op fsΣ)) (path content : string) :
  arguments !! "path" = Some filepath ->
  arguments !! "old_string" = Some (PStr old) ->
  arguments !! "new_string" = Some (PStr new) ->
  run H (_validate_path filepath) s = (tr1, s1, Ok path) ->
  H (path_exists path) s1 = (Ok true, s2) ->
  run H (read_content path) s2 = (tr3, s3, Ok content) ->
  let reads := tr1 ++ [path_exists path] ++ tr3 in
  existsb is_write reads = false
  /\ (str_count content old = 1%nat ->
      trace H (replace_in_file arguments) s
      = reads ++ [write_text path (replace_first content old new) "utf-8"]
      /\ exists before after,
           content = before +:+ old +:+ after
           /\ replace_first content old new = before +:+ new +:+ after
           /\ (forall i, (i < String.length before)%nat ->
                         startswith (string_drop i content) old = false)
           /\ (old <> "" -> str_count after old = 0%nat))
  /\ (str_count content old <> 1%nat ->
      exists msg,
        run H (replace_in_file arguments) s = (reads, s3, Ok (PStr msg))
        /\ is_error msg = true).
Proof.
  intros Hp Ho Hn Hv He Hr reads.
  pose proof (replace_body_run filepath old new s s1 s2 s3 tr1 tr3 path content
                Hv He Hr) as Hbody. cbv zeta in Hbody. fold reads in Hbody.
  assert (Hfn : replace_in_file arguments
                = try_except (replace_in_file_body filepath (PStr old) (PStr new))
                    (fun e => if is_ValueError e
                              then Ret (PStr ("Error: " +:+ exn_msg e))
                              else Ret (PStr ("Error replacing in file: " +:+ exn_msg e)))).
  { unfold replace_in_file, subscript. rewrite Hp, Ho, Hn. reflexivity. }
  split; [|split].
  - unfold reads. rewrite !existsb_app.
    pose proof (never_calls_trace (Σ := fsΣ) is_write _ H s
                  (validate_path_no_write filepath)) as E1.
    pose proof (never_calls_trace (Σ := fsΣ) is_write _ H s2
                  (read_content_no_write path)) as E3.
    unfold trace in E1, E3. rewrite Hv in E1. rewrite Hr in E3.
    cbn [fst snd] in E1, E3.
    rewrite E1. cbn. exact E3.
  - intros Hc. split.
    + rewrite Hc in Hbody. cbn [Nat.eqb Nat.ltb Nat.leb] in Hbody.
      unfold trace. rewrite Hfn.
      destruct (H (write_text path (replace_first content old new) "utf-8") s3)
        as [[[]|e] s4] eqn:Ew; cbn [fst snd] in Hbody.
      * rewrite (run_try_ok H _ _ _ _ _ _ Hbody). reflexivity.
      * rewrite (run_try_raise H _ _ _ _ _ _ Hbody).
        destruct (is_ValueError e); cbn; rewrite List.app_nil_r; reflexivity.
    + assert (Hpos : (0 < str_count content old)%nat) by lia.
      destruct (replace_first_split content old new Hpos)
        as (before & after & E & Er & Hfirst & Hcount).
      exists before, after. repeat split; try assumption.
      intros Hne. specialize (Hcount Hne). lia.
  - intros Hc. rewrite Hfn.
    destruct (str_count content old =? 0)%nat eqn:E0.
    { eexists. split; [exact (run_try_ok H _ _ _ _ _ _ Hbody)|reflexivity]. }
    destruct (1 <? str_count content old)%nat eqn:E1.
    { eexists. split; [exact (run_try_ok H _ _ _ _ _ _ Hbody)|reflexivity]. }
    apply Nat.eqb_neq in E0. apply Nat.ltb_ge in E1. lia.
Qed.
End ReplaceFacts.

Lemma replace_in_file_unique_match_witness :
  trace (Σ := fsΣ) memfs_handler (replace_in_file (replace_args "beta" "delta")) notes_fs
  = [path_resolve (PStr "/work/notes.txt"); workspace_root;
     relative_to "/work/notes.txt" "/work"; path_exists "/work/notes.txt";
     read_text "/work/notes.txt" "utf-8";
     write_text "/work/notes.txt" ("alpha delta" +:+ nl +:+ "gamma") "utf-8"].
Proof.
  refine (proj1 (proj1 (proj2
            (replace_in_file_unique_match memfs_handler (replace_args "beta" "delta")
               (PStr "/work/notes.txt") "beta" "delta" notes_fs notes_fs notes_fs notes_fs
               [path_resolve (PStr "/work/notes.txt"); workspace_root;
                relative_to "/work/notes.txt" "/work"]
               [read_text "/work/notes.txt" "utf-8"]
               "/work/notes.txt" ("alpha beta" +:+ nl +:+ "gamma")
               eq_refl eq_refl eq_refl eq_refl eq_refl eq_refl)) eq_refl)).
Defined.


(** C4, as stated, fails: called with the empty dictionary, [read_file]
    raises [KeyError('path')] and [search_code] raises [KeyError('query')];
    neither returns a text. *)
Lemma missing_required_key_raises :
  outcome (Σ := fsΣ) memfs_handler (read_file ∅) notes_fs
  = Raise (Exn KeyError "'path'")
  /\ outcome (Σ := fsΣ) memfs_handler (search_code no_matches_body ∅) notes_fs
     = Raise (Exn KeyError "'query'").
Proof. split; reflexivity. Qed.

Lemma execute_returns_text_witness :
  exists t,
    outcome (Σ := fsΣ) memfs_handler
      (read_file {[ "path" := PStr "/work/notes.txt" ]}) notes_fs
    = Ok (PStr t).
Proof.
  refine (proj1 (execute_returns_text memfs_handler no_matches_body
                   {[ "path" := PStr "/work/notes.txt" ]} notes_fs _) _).
  - intros q p f r c n. eexists. reflexivity.
  - eexists. reflexivity.
Defined.

(** * Properties of the rest of the tools *)

(** ** Crew orchestration tools: waiting, status and cancellation *)

Section WaitFacts.
Context {S : Type}.
Variable H : forall o : op crewΣ, S -> reply (ans crewΣ o) * S.

(** X1: [wait_for_agents_fn] makes exactly one call, [pool.wait_for] with
    the [agent_ids] argument ([None] when it is left out), whatever the pool
    answers; an exception of the pool propagates, and an empty answer gives
    the text "No agents to wait for.". *)
Theorem wait_for_agents_single_call (arguments : gmap string pyval) (s : S) :
  let request := pool_wait_for (get arguments "agent_ids" PNone) in
  trace H (wait_for_agents_fn arguments) s = [request]
  /\ final H (wait_for_agents_fn arguments) s = (H request s).2
  /\ (forall results, (H request s).1 = Ok results -> truthy results = false ->
        outcome H (wait_for_agents_fn arguments) s
        = Ok (PStr "No agents to wait for."))
  /\ (forall e, (H request s).1 = Raise e ->
        outcome H (wait_for_agents_fn arguments) s = Raise e).
Proof.
  intros request. unfold trace, final, outcome, wait_for_agents_fn.
  fold request. cbn.
  destruct (H request s) as [[results|e] s1]; cbn.
  - destruct (truthy results) eqn:Ht; cbn.
    + destruct (py_items results) as [items|e]; cbn;
        [destruct (agent_sections items) as [out|e]; cbn|];
        (split; [reflexivity|split; [reflexivity|split]];
         [intros r [= <-] Hf; congruence | intros e' E; discriminate E]).
    + split; [reflexivity|split; [reflexivity|split]];
        [reflexivity | intros e' E; discriminate E].
  - split; [reflexivity|split; [reflexivity|split]];
      [intros r E; discriminate E | intros e' [= <-]; reflexivity].
Qed.

Lemma str_items_names (i : Z) (names : list pyval) :
  forallb is_str names = true ->
  str_items i names = Ok (List.map py_str names).
Proof.
  revert i. induction names as [|x names IH]; intros i Hn; [reflexivity|].
  cbn in Hn. apply andb_true_iff in Hn as [Hx Hn].
  destruct x; try discriminate Hx. cbn [str_items]. rewrite (IH _ Hn). reflexivity.
Qed.

Lemma agent_section_record (agent_id : string) (data : pyval) :
  agent_record data = true ->
  agent_section agent_id data = Ok (report_section (agent_id, data)).
Proof.
  unfold agent_record. intros Hr. apply andb_true_iff in Hr as [Hd Ht].
  destruct data as [| | | | |kvs]; try discriminate Hd.
  unfold agent_section, report_section. cbn [dict_get field mbind reply_bind] in *.
  destruct (default (PList []) (assoc "tools_used" kvs)) as [| | | |names|];
    try discriminate Ht.
  destruct names as [|n names]; [reflexivity|].
  cbn [truthy py_join]. rewrite (str_items_names 0 _ Ht). cbn [mbind reply_bind]. reflexivity.
Qed.

Lemma agent_sections_records (items : list (string * pyval)) :
  forallb (fun kv => agent_record kv.2) items = true ->
  agent_sections items = Ok (List.concat (List.map report_section items)).
Proof.
  induction items as [|[i d] items IH]; intros Ha; [reflexivity|].
  cbn in Ha. apply andb_true_iff in Ha as [Hd Ha].
  cbn [agent_sections List.map List.concat].
  rewrite (agent_section_record i d Hd), (IH Ha). reflexivity.
Qed.

(** X2: when the pool answers with a non-empty mapping of agent ids to
    records (dicts whose [tools_used] is a list of names),
    [wait_for_agents_fn] does not raise and returns the agents' sections in
    the pool's order, joined by newlines; each section has the header and
    the status, the tools, result and error lines for the fields that are
    non-empty, and a closing empty line. *)
Theorem wait_for_agents_report (arguments : gmap string pyval) (s s1 : S)
    (records : list (string * pyval)) :
  H (pool_wait_for (get arguments "agent_ids" PNone)) s = (Ok (PDict records), s1) ->
  records <> [] ->
  forallb (fun kv => agent_record kv.2) records = true ->
  run H (wait_for_agents_fn arguments) s
  = ([pool_wait_for (get arguments "agent_ids" PNone)], s1,
     Ok (PStr (join nl (List.concat (List.map report_section records))))).
Proof.
  intros Hw Hne Hr. unfold wait_for_agents_fn. cbn. rewrite Hw. cbn.
  destruct records as [|r rs]; [contradiction Hne; reflexivity|].
  cbn [negb]. rewrite (agent_sections_records _ Hr). reflexivity.
Qed.
End WaitFacts.

Lemma wait_for_agents_single_call_witness :
  outcome (Σ := crewΣ) (crew_handler (scripted [] response_summary))
    (wait_for_agents_fn ∅) (pool_with 0)
  = Ok (PStr "No agents to wait for.").
Proof.
  exact (proj1 (proj2 (proj2
           (wait_for_agents_single_call (crew_handler (scripted [] response_summary))
              ∅ (pool_with 0))))
           (PDict []) eq_refl eq_refl).
Defined.

Lemma wait_for_agents_report_witness :
  outcome (Σ := crewΣ) (crew_handler reporting_pool) (wait_for_agents_fn ∅) (pool_with 0)
  = Ok (PStr (join nl
          [ "## agent-0: scan ports"; "Status: completed"; "Tools used: nmap, curl";
            "Result:" +:+ nl +:+ "22/tcp open"; "";
            "## agent-1: enumerate"; "Status: failed"; "Error: timeout"; "" ])).
Proof.
  unfold outcome.
  rewrite (wait_for_agents_report (crew_handler reporting_pool) ∅ (pool_with 0)
             (pool_with 0) _ eq_refl ltac:(discriminate) eq_refl).
  reflexivity.
Defined.

Section AgentFacts.
Context {S : Type}.
Variable H : forall o : op agentΣ, S -> reply (ans agentΣ o) * S.

(** X4: [cancel_agent_fn] without an agent id returns the validation error
    and does not call the pool; with one it calls [pool.cancel] once and
    reports "Cancelled" exactly when the pool's answer is true, otherwise
    that the agent could not be cancelled. *)
Theorem cancel_agent_outcomes (arguments : gmap string pyval) (s s1 : S)
    (success : pyval) :
  let agent_id := get arguments "agent_id" (PStr "") in
  (truthy agent_id = false ->
     run H (cancel_agent_fn arguments) s
     = ([], s, Ok (PStr "Error: agent_id is required")))
  /\ (truthy agent_id = true ->
      H (pool_cancel agent_id) s = (Ok success, s1) ->
      run H (cancel_agent_fn arguments) s
      = ([pool_cancel agent_id], s1,
         Ok (PStr (if truthy success
                   then "Cancelled " +:+ py_str agent_id
                   else "Could not cancel " +:+ py_str agent_id +:+
                        " (not running or not found)")))).
Proof.
  intros agent_id. unfold cancel_agent_fn. fold agent_id. split.
  - intros ->. reflexivity.
  - intros -> Hc. cbn. rewrite Hc. cbn. destruct (truthy success); reflexivity.
Qed.
End AgentFacts.

Lemma cancel_agent_outcomes_witness :
  run (Σ := agentΣ) one_agent_pool
    (cancel_agent_fn {[ "agent_id" := PStr "agent-0" ]}) false
  = ([pool_cancel (PStr "agent-0")], true, Ok (PStr "Cancelled agent-0")).
Proof.
  exact (proj2 (cancel_agent_outcomes one_agent_pool
                  {[ "agent_id" := PStr "agent-0" ]} false true (PBool true))
           eq_refl eq_refl).
Defined.

(** ** json: loading what was dumped with an indent *)

Lemma stops_facts (rest : string) :
  stops rest = true ->
  float_follows rest = false /\ span_digits rest = ("", rest).
Proof.
  destruct rest as [|c rest]; [intros _; split; reflexivity|].
  unfold stops, float_follows, span_digits, is_digit.
  intros Hc. fold span_digits.
  assert (E : code c = 44 \/ code c = 10) by lia.
  destruct E as [E|E]; rewrite E; simpl; split; try reflexivity;
    destruct rest; reflexivity.
Qed.

Lemma match_number_dec_stops (z : Z) (rest : string) :
  stops rest = true ->
  match_number (dec z +:+ rest) = Some (Parsed (PInt z) rest).
Proof.
  intros He. destruct (stops_facts rest He) as [Hf Hs].
  unfold dec. destruct z as [|p|p].
  - simpl. unfold match_number. simpl. rewrite Hf. reflexivity.
  - pose proof (to_uint_head p) as Hh. pose proof (DecimalZ.of_to (Z.pos p)) as Hz.
    simpl Z.to_int in *.
    assert (Hi : NilZero.int_of_string (NilZero.string_of_int (Decimal.Pos (Pos.to_uint p)))
                 = Some (Decimal.Pos (Pos.to_uint p))).
    { apply NilZero.isi; intros E; inversion E as [E'];
        exact (Unsigned.to_uint_nonnil p E'). }
    destruct (Pos.to_uint p) as [|d|d|d|d|d|d|d|d|d|d]; try contradiction;
      simpl NilZero.string_of_int in *;
      unfold match_number;
      simpl in Hi;
      simpl; rewrite (span_digits_uint d rest Hs), Hf; simpl;
      rewrite Hi, Hz; reflexivity.
  - pose proof (to_uint_head p) as Hh. pose proof (DecimalZ.of_to (Z.neg p)) as Hz.
    simpl Z.to_int in *.
    assert (Hi : NilZero.int_of_string (NilZero.string_of_int (Decimal.Neg (Pos.to_uint p)))
                 = Some (Decimal.Neg (Pos.to_uint p))).
    { apply NilZero.isi; intros E; inversion E as [E'];
        exact (Unsigned.to_uint_nonnil p E'). }
    destruct (Pos.to_uint p) as [|d|d|d|d|d|d|d|d|d|d]; try contradiction;
      simpl NilZero.string_of_int in *;
      unfold match_number;
      simpl in Hi;
      simpl; rewrite (span_digits_uint d rest Hs), Hf; simpl;
      rewrite Hi, Hz; reflexivity.
Qed.

Lemma skip_ws_spaces (n : nat) (t : string) :
  skip_ws (string_repeat " " n +:+ t) = skip_ws t.
Proof. induction n as [|n IH]; [reflexivity|]. simpl. exact IH. Qed.

Lemma skip_ws_newline_indent (indent level : nat) (t : string) :
  skip_ws (newline_indent indent level +:+ t) = skip_ws t.
Proof.
  unfold newline_indent. rewrite append_assoc. simpl. apply skip_ws_spaces.
Qed.

Lemma dumps_indent_head (indent level : nat) (v : pyval) :
  exists c t, json_dumps_indent indent level v = String c t /\ starts_value c = true.
Proof.
  destruct v as [|[]|z|s|xs|kvs];
    try (simpl; eexists _, _; split; reflexivity).
  - destruct (dumps_head (PInt z)) as (c & t & E & Hc). exists c, t. split; assumption.
  - destruct xs; simpl; eexists _, _; split; reflexivity.
  - destruct kvs; simpl; eexists _, _; split; reflexivity.
Qed.

Lemma skip_ws_dumps_indent (indent level : nat) (v : pyval) (rest : string) :
  skip_ws (json_dumps_indent indent level v +:+ rest)
  = json_dumps_indent indent level v +:+ rest.
Proof.
  destruct (dumps_indent_head indent level v) as (c & t & E & Hc). rewrite E. simpl.
  destruct (starts_value_facts c Hc) as [Hw _]. rewrite Hw. reflexivity.
Qed.

Lemma join_array_tail_indent (indent level : nat) (x : pyval) (xs : list pyval) :
  join ("," +:+ newline_indent indent (Datatypes.S level))
    (List.map (json_dumps_indent indent (Datatypes.S level)) (x :: xs))
  +:+ newline_indent indent level +:+ "]"
  = json_dumps_indent indent (Datatypes.S level) x +:+
    array_tail_indent indent level xs.
Proof.
  revert x. induction xs as [|y ys IH]; intros x; [reflexivity|].
  cbn [List.map]. rewrite join_cons2. cbn [List.map] in IH.
  rewrite !append_assoc, IH. cbn [array_tail_indent].
  rewrite ?append_assoc. reflexivity.
Qed.

Lemma dumps_indent_list_cons (indent level : nat) (x : pyval) (xs : list pyval) :
  json_dumps_indent indent level (PList (x :: xs))
  = "[" +:+ newline_indent indent (Datatypes.S level) +:+
    json_dumps_indent indent (Datatypes.S level) x +:+
    array_tail_indent indent level xs.
Proof.
  change (json_dumps_indent indent level (PList (x :: xs)))
    with ("[" +:+ newline_indent indent (Datatypes.S level) +:+
          join ("," +:+ newline_indent indent (Datatypes.S level))
            (List.map (json_dumps_indent indent (Datatypes.S level)) (x :: xs)) +:+
          newline_indent indent level +:+ "]").
  rewrite join_array_tail_indent. reflexivity.
Qed.

Lemma join_object_tail_indent (indent level : nat) (kv : string * pyval)
    (kvs : list (string * pyval)) :
  join ("," +:+ newline_indent indent (Datatypes.S level))
    (List.map (dump_pair_indent indent (Datatypes.S level)) (kv :: kvs))
  +:+ newline_indent indent level +:+ "}"
  = dump_pair_indent indent (Datatypes.S level) kv +:+
    object_tail_indent indent level kvs.
Proof.
  revert kv. induction kvs as [|kv' kvs IH]; intros kv; [reflexivity|].
  cbn [List.map]. rewrite join_cons2. cbn [List.map] in IH.
  rewrite !append_assoc, IH. cbn [object_tail_indent].
  rewrite ?append_assoc. reflexivity.
Qed.

Lemma dumps_indent_dict_cons (indent level : nat) (k : string) (x : pyval)
    (kvs : list (string * pyval)) :
  json_dumps_indent indent level (PDict ((k, x) :: kvs))
  = "{" +:+ newline_indent indent (Datatypes.S level) +:+
    json_string k +:+ ": " +:+ json_dumps_indent indent (Datatypes.S level) x +:+
    object_tail_indent indent level kvs.
Proof.
  change (json_dumps_indent indent level (PDict ((k, x) :: kvs)))
    with ("{" +:+ newline_indent indent (Datatypes.S level) +:+
          join ("," +:+ newline_indent indent (Datatypes.S level))
            (List.map (dump_pair_indent indent (Datatypes.S level)) ((k, x) :: kvs)) +:+
          newline_indent indent level +:+ "}").
  rewrite join_object_tail_indent. unfold dump_pair_indent.
  rewrite !append_assoc. reflexivity.
Qed.

Lemma array_tail_indent_head (indent level : nat) (xs : list pyval) (rest : string) :
  stops (array_tail_indent indent level xs +:+ rest) = true.
Proof. destruct xs; reflexivity. Qed.

Lemma object_tail_indent_head (indent level : nat) (kvs : list (string * pyval))
    (rest : string) :
  stops (object_tail_indent indent level kvs +:+ rest) = true.
Proof. destruct kvs; reflexivity. Qed.

Lemma array_items_dumps_indent (scan : string -> parsed pyval) (indent level : nat)
    (xs : list pyval) :
  forall (x : pyval) (acc : list pyval) (fuel : nat) (rest : string),
    (length xs < fuel)%nat ->
    (forall y r, In y (x :: xs) -> stops r = true ->
                 scan (json_dumps_indent indent (Datatypes.S level) y +:+ r)
                 = Parsed y r) ->
    array_items scan fuel
      (json_dumps_indent indent (Datatypes.S level) x +:+
       array_tail_indent indent level xs +:+ rest) acc
    = Parsed (PList (acc ++ x :: xs)) rest.
Proof.
  induction xs as [|y ys IH]; intros x acc fuel rest Hfuel Hscan;
    (destruct fuel as [|f]; [simpl in Hfuel; lia|]).
  - cbn [array_items].
    rewrite (Hscan x _ (or_introl eq_refl) (array_tail_indent_head _ _ [] rest)).
    cbn [array_tail_indent]. rewrite append_assoc, skip_ws_newline_indent.
    reflexivity.
  - cbn [array_items].
    rewrite (Hscan x _ (or_introl eq_refl) (array_tail_indent_head _ _ (y :: ys) rest)).
    cbn [array_tail_indent]. rewrite !append_assoc.
    change ("," +:+ ?t) with (String "," t).
    cbn [skip_ws]. change (is_ws ",") with false. cbv beta iota.
    change (code "," =? 93) with false. change (code "," =? 44) with true.
    cbv beta iota.
    rewrite skip_ws_newline_indent, skip_ws_dumps_indent.
    rewrite IH.
    + rewrite <- app_assoc. reflexivity.
    + simpl in Hfuel. lia.
    + intros z r Hin. apply Hscan. right. exact Hin.
Qed.

Lemma object_items_dumps_indent (scan : string -> parsed pyval) (indent level : nat)
    (kvs : list (string * pyval)) :
  forall (k : string) (x : pyval) (acc : list (string * pyval)) (fuel : nat)
         (rest : string),
    (length kvs < fuel)%nat ->
    (forall y r, In y (List.map snd ((k, x) :: kvs)) -> stops r = true ->
                 scan (json_dumps_indent indent (Datatypes.S level) y +:+ r)
                 = Parsed y r) ->
    distinct (List.map fst (acc ++ (k, x) :: kvs)) = true ->
    object_items scan fuel
      (json_escape k +:+
       String dquote (": " +:+ json_dumps_indent indent (Datatypes.S level) x +:+
                      object_tail_indent indent level kvs +:+ rest)) acc
    = Parsed (PDict (acc ++ (k, x) :: kvs)) rest.
Proof.
  induction kvs as [|[k' x'] kvs IH]; intros k x acc fuel rest Hfuel Hscan Hd;
    (destruct fuel as [|f]; [simpl in Hfuel; lia|]);
    cbn [object_items]; rewrite scanstring_escape;
    change (skip_ws (": " +:+ ?t)) with (": " +:+ t);
    assert (Hfresh : dict_set acc k x = acc ++ [(k, x)])
      by (apply dict_set_fresh; rewrite map_app in Hd;
          exact (distinct_middle _ _ _ Hd));
    match goal with
    | |- context [": " +:+ ?t] =>
        change (": " +:+ t) with (String ":" (String " " t))
    end;
    cbv beta iota; change (code ":" =? 58) with true; cbv beta iota;
    match goal with
    | |- context [skip_ws (String " " ?t)] =>
        change (skip_ws (String " " t)) with (skip_ws t)
    end;
    rewrite skip_ws_dumps_indent.
  - rewrite (Hscan x _ (or_introl eq_refl) (object_tail_indent_head _ _ [] rest)).
    cbn [object_tail_indent]. rewrite append_assoc, skip_ws_newline_indent, Hfresh.
    reflexivity.
  - rewrite (Hscan x _ (or_introl eq_refl)
               (object_tail_indent_head _ _ ((k', x') :: kvs) rest)).
    cbn [object_tail_indent dump_pair_indent]. rewrite !append_assoc.
    change ("," +:+ ?t) with (String "," t).
    cbn [skip_ws]. change (is_ws ",") with false. cbv beta iota.
    change (code "," =? 125) with false. change (code "," =? 44) with true.
    cbv beta iota.
    rewrite skip_ws_newline_indent, json_string_append.
    match goal with
    | |- context [skip_ws (String dquote ?t)] =>
        change (skip_ws (String dquote t)) with (String dquote t)
    end.
    cbv beta iota. change (code dquote =? 34) with true. cbv beta iota.
    rewrite Hfresh, IH.
    + rewrite <- app_assoc. reflexivity.
    + simpl in Hfuel. lia.
    + intros z r Hin. apply Hscan. right. exact Hin.
    + rewrite <- app_assoc. exact Hd.
Qed.

Lemma scan_once_dumps_indent (indent : nat) (fuel : nat) :
  forall (v : pyval) (level : nat) (rest : string),
    (size v <= fuel)%nat ->
    well_formed v = true ->
    stops rest = true ->
    scan_once fuel (json_dumps_indent indent level v +:+ rest) = Parsed v rest.
Proof.
  induction fuel as [|f IH]; intros v level rest Hsize Hwf He.
  { pose proof (size_pos v). lia. }
  destruct v as [|[]|z|s|xs|kvs].
  - simpl. reflexivity.
  - simpl. reflexivity.
  - simpl. reflexivity.
  - destruct (dec_head z) as (c & t & E & Hc).
    cbn [json_dumps_indent json_dumps].
    pose proof (match_number_dec_stops z rest He) as Hm.
    rewrite E in *. apply scan_once_numeric; [exact Hc|exact Hm].
  - cbn [json_dumps_indent json_dumps]. rewrite json_string_append.
    cbn [scan_once]. change (code dquote =? 34) with true. cbv beta iota.
    rewrite scanstring_escape. reflexivity.
  - destruct xs as [|x xs]; [reflexivity|].
    rewrite dumps_indent_list_cons, !append_assoc.
    change ("[" +:+ ?t) with (String "[" t).
    cbn [scan_once].
    change (code "[" =? 34) with false. change (code "[" =? 123) with false.
    change (code "[" =? 91) with true. cbv beta iota.
    rewrite skip_ws_newline_indent, skip_ws_dumps_indent.
    destruct (dumps_indent_head indent (Datatypes.S level) x) as (c & t & E & Hc).
    destruct (starts_value_facts c Hc) as (_ & H93 & _).
    rewrite E at 1. cbn [String.append]. rewrite H93.
    cbn [size] in Hsize. cbn [well_formed] in Hwf.
    apply (array_items_dumps_indent (scan_once f) indent level xs x [] f rest).
    + pose proof (length_le_sum (x :: xs)). simpl in *. lia.
    + intros y r Hin Hr. apply IH; [|exact (well_formed_in _ _ Hwf Hin)|exact Hr].
      pose proof (size_in_sum y (x :: xs) Hin). lia.
  - destruct kvs as [|[k x] kvs]; [reflexivity|].
    rewrite dumps_indent_dict_cons, !append_assoc.
    change ("{" +:+ ?t) with (String "{" t).
    cbn [scan_once].
    change (code "{" =? 34) with false. change (code "{" =? 123) with true.
    cbv beta iota.
    rewrite skip_ws_newline_indent, json_string_append.
    match goal with
    | |- context [skip_ws (String dquote ?t)] =>
        change (skip_ws (String dquote t)) with (String dquote t)
    end.
    cbv beta iota. change (code dquote =? 125) with false.
    change (code dquote =? 34) with true. cbv beta iota.
    cbn [size] in Hsize. cbn [well_formed] in Hwf.
    apply andb_true_iff in Hwf as [Hd Hall].
    apply (object_items_dumps_indent (scan_once f) indent level kvs k x [] f rest).
    + pose proof (length_le_pairs ((k, x) :: kvs)). unfold pair_size in *.
      simpl in *. lia.
    + intros y r Hin Hr.
      apply IH; [|exact (well_formed_in_pairs _ _ Hall Hin)|exact Hr].
      pose proof (size_in_pairs y ((k, x) :: kvs) Hin) as Hy.
      unfold pair_size in Hy. lia.
    + exact Hd.
Qed.

Lemma array_tail_indent_length (indent level : nat) (xs : list pyval) :
  (forall y, In y xs ->
     (size y <= String.length (json_dumps_indent indent (Datatypes.S level) y))%nat) ->
  (list_sum (List.map size xs)
   < String.length (array_tail_indent indent level xs))%nat.
Proof.
  induction xs as [|y ys IH]; intros Hall.
  - cbn [array_tail_indent]. unfold newline_indent.
    rewrite !length_append. simpl. lia.
  - cbn [array_tail_indent List.map]. rewrite !length_append.
    unfold list_sum in *. cbn [fold_right].
    specialize (IH (fun z Hz => Hall z (or_intror Hz))).
    pose proof (Hall y (or_introl eq_refl)).
    change (String.length ",") with 1%nat. lia.
Qed.

Lemma object_tail_indent_length (indent level : nat) (kvs : list (string * pyval)) :
  (forall y, In y (List.map snd kvs) ->
     (size y <= String.length (json_dumps_indent indent (Datatypes.S level) y))%nat) ->
  (list_sum (List.map pair_size kvs)
   < String.length (object_tail_indent indent level kvs))%nat.
Proof.
  induction kvs as [|[k y] kvs IH]; intros Hall.
  - cbn [object_tail_indent]. unfold newline_indent.
    rewrite !length_append. simpl. lia.
  - cbn [object_tail_indent dump_pair_indent List.map pair_size].
    rewrite !length_append.
    unfold list_sum in *. cbn [fold_right].
    specialize (IH (fun z Hz => Hall z (or_intror Hz))).
    pose proof (Hall y (or_introl eq_refl)).
    change (String.length ",") with 1%nat. lia.
Qed.

Lemma size_le_length_indent (indent : nat) (n : nat) :
  forall (v : pyval) (level : nat),
    (size v <= n)%nat ->
    (size v <= String.length (json_dumps_indent indent level v))%nat.
Proof.
  induction n as [|n IH]; intros v level Hn.
  { pose proof (size_pos v). lia. }
  destruct v as [|[]|z|s|xs|kvs]; try (simpl; lia).
  - destruct (dec_head z) as (c & t & E & _). simpl. rewrite E. simpl. lia.
  - destruct xs as [|x xs]; [simpl; lia|].
    rewrite dumps_indent_list_cons, !length_append.
    cbn [size List.map] in *. unfold list_sum in *. cbn [fold_right] in *.
    assert (Hin : forall y, In y (x :: xs) ->
              (size y <= String.length
                           (json_dumps_indent indent (Datatypes.S level) y))%nat).
    { intros y Hy. apply IH. pose proof (size_in_sum y (x :: xs) Hy).
      sum_lia. }
    pose proof (array_tail_indent_length indent level xs
                  (fun y Hy => Hin y (or_intror Hy))).
    pose proof (Hin x (or_introl eq_refl)).
    change (String.length "[") with 1%nat. sum_lia.
  - destruct kvs as [|[k x] kvs]; [simpl; lia|].
    rewrite dumps_indent_dict_cons, !length_append.
    cbn [size List.map] in *. unfold list_sum in *. cbn [fold_right] in *.
    assert (Hin : forall y, In y (List.map snd ((k, x) :: kvs)) ->
              (size y <= String.length
                           (json_dumps_indent indent (Datatypes.S level) y))%nat).
    { intros y Hy. apply IH. pose proof (size_in_pairs y ((k, x) :: kvs) Hy) as Hs.
      sum_lia. }
    pose proof (object_tail_indent_length indent level kvs
                  (fun y Hy => Hin y (or_intror Hy))) as Ht.
    pose proof (Hin x (or_introl eq_refl)).
    change (String.length "{") with 1%nat. sum_lia.
Qed.

(** Loading what was dumped with an indent gives the value back. *)
Lemma json_loads_dumps_indent (indent level : nat) (v : pyval) :
  well_formed v = true ->
  json_loads (json_dumps_indent indent level v) = Loaded v.
Proof.
  intros Hwf. unfold json_loads.
  rewrite <- (append_nil_r (json_dumps_indent indent level v)) at 2.
  rewrite skip_ws_dumps_indent, scan_once_dumps_indent;
    [reflexivity| |exact Hwf|reflexivity].
  pose proof (size_le_length_indent indent (size v) v level (le_n _)). lia.
Qed.

Section StatusFacts.
Context {S : Type}.
Variable H : forall o : op agentΣ, S -> reply (ans agentΣ o) * S.

(** X3: [get_agent_status_fn] without an agent id returns the validation
    error and does not call the pool; with one it asks the pool once, and an
    empty answer gives the text that the agent was not found. *)
Theorem get_agent_status_lookup (arguments : gmap string pyval) (s s1 : S)
    (status : pyval) :
  let agent_id := get arguments "agent_id" (PStr "") in
  (truthy agent_id = false ->
     run H (get_agent_status_fn arguments) s
     = ([], s, Ok (PStr "Error: agent_id is required")))
  /\ (truthy agent_id = true ->
      H (pool_get_status agent_id) s = (Ok status, s1) ->
      truthy status = false ->
      run H (get_agent_status_fn arguments) s
      = ([pool_get_status agent_id], s1,
         Ok (PStr ("Agent " +:+ py_str agent_id +:+ " not found.")))).
Proof.
  intros agent_id. unfold get_agent_status_fn. fold agent_id. split.
  - intros ->. reflexivity.
  - intros -> Hc Hs. cbn. rewrite Hc. cbn. rewrite Hs. reflexivity.
Qed.

(** X5: for an agent the pool knows, [get_agent_status_fn] returns the
    status as indented JSON: a text that [json.loads] reads back as the
    status the pool gave. *)
Theorem get_agent_status_json (arguments : gmap string pyval) (s s1 : S)
    (status : pyval) :
  let agent_id := get arguments "agent_id" (PStr "") in
  truthy agent_id = true ->
  H (pool_get_status agent_id) s = (Ok status, s1) ->
  truthy status = true ->
  well_formed status = true ->
  exists text,
    run H (get_agent_status_fn arguments) s
    = ([pool_get_status agent_id], s1, Ok (PStr text))
    /\ text = json_dumps_indent 2 0 status
    /\ json_loads text = Loaded status.
Proof.
  intros agent_id Hid Hc Hs Hwf. exists (json_dumps_indent 2 0 status).
  split; [|split; [reflexivity|exact (json_loads_dumps_indent 2 0 status Hwf)]].
  unfold get_agent_status_fn. fold agent_id. rewrite Hid. cbn. rewrite Hc. cbn.
  rewrite Hs. reflexivity.
Qed.
End StatusFacts.

Lemma get_agent_status_lookup_witness :
  run (Σ := agentΣ) one_agent_pool
    (get_agent_status_fn {[ "agent_id" := PStr "agent-7" ]}) false
  = ([pool_get_status (PStr "agent-7")], false, Ok (PStr "Agent agent-7 not found.")).
Proof.
  exact (proj2 (get_agent_status_lookup one_agent_pool
                  {[ "agent_id" := PStr "agent-7" ]} false false PNone)
           eq_refl eq_refl eq_refl).
Defined.

Lemma get_agent_status_json_witness :
  exists text,
    run (Σ := agentΣ) one_agent_pool
      (get_agent_status_fn {[ "agent_id" := PStr "agent-0" ]}) false
    = ([pool_get_status (PStr "agent-0")], false, Ok (PStr text))
    /\ text = json_dumps_indent 2 0 agent0_status
    /\ json_loads text = Loaded agent0_status.
Proof.
  exact (get_agent_status_json one_agent_pool {[ "agent_id" := PStr "agent-0" ]}
           false false agent0_status eq_refl eq_refl eq_refl eq_refl).
Defined.

(** ** Task completion tool: summaries, old-format results, output alphabet *)

(** X6: the summary [extract_completion_summary] reads from the output of
    [finish] is the [summary] argument, or "Task completed." when the
    argument was left out. *)
Theorem finish_summary_roundtrip (arguments : gmap string pyval) :
  map_Forall (fun _ v => well_formed v = true) arguments ->
  extract_completion_summary (finish arguments)
  = Within (Ok (get arguments "summary" (PStr "Task completed."))).
Proof.
  intros Hwf. unfold extract_completion_summary.
  change (is_task_complete (finish arguments)) with true. cbv iota.
  change (completion_data (finish arguments))
    with (to_json (CompletionReport_init
                     (get arguments "status" (PStr "success"))
                     (get arguments "summary" (PStr "Task completed."))
                     (get arguments "findings" (PList []))
                     (get arguments "artifacts" (PList []))
                     (get arguments "recommendations" (PList [])))).
  cbv zeta.
  rewrite from_json_to_json; [reflexivity|..];
    apply well_formed_get; (exact Hwf || reflexivity).
Qed.

Lemma finish_summary_roundtrip_witness :
  extract_completion_summary (finish partial_args) = Within (Ok (PStr "x")).
Proof.
  refine (finish_summary_roundtrip partial_args _).
  apply map_Forall_insert_2; [reflexivity|].
  apply map_Forall_insert_2; [reflexivity|].
  apply map_Forall_insert_2; [reflexivity|].
  apply map_Forall_empty.
Defined.

Lemma from_json_plain_text (data : string) :
  plain_text data = true ->
  exists e, from_json data = Within (Raise e)
            /\ is_JSONDecodeError e || is_TypeError e = true.
Proof.
  unfold plain_text, from_json, json_loads.
  destruct (skip_ws data) as [|c t] eqn:Et.
  { intros _. eexists. split; reflexivity. }
  intros Hp. apply andb_true_iff in Hp as [Hp Hinf].
  apply andb_true_iff in Hp as [Hc Hnan].
  apply negb_true_iff in Hc, Hnan, Hinf.
  apply orb_false_iff in Hc as [Hc H45]. apply orb_false_iff in Hc as [Hc Hdig].
  apply orb_false_iff in Hc as [Hc H91]. apply orb_false_iff in Hc as [H34 H123].
  assert (Hminus : startswith (String c t) "-Infinity" = false).
  { cbn [startswith]. destruct (Ascii.eqb_spec "-"%char c) as [<-|_]; [|reflexivity].
    discriminate H45. }
  assert (Hnum : match_number (String c t) = None).
  { unfold match_number. rewrite H45, Hdig. reflexivity. }
  cbn [scan_once]. rewrite H34, H123, H91.
  destruct (startswith (String c t) "null").
  { destruct (skip_ws (string_drop 4 (String c t))); eexists; split; reflexivity. }
  destruct (startswith (String c t) "true").
  { destruct (skip_ws (string_drop 4 (String c t))); eexists; split; reflexivity. }
  destruct (startswith (String c t) "false").
  { destruct (skip_ws (string_drop 5 (String c t))); eexists; split; reflexivity. }
  rewrite Hnum, Hnan, Hinf, Hminus. eexists. split; reflexivity.
Qed.

(** X8: a completion result of the old format is taken as a plain summary.
    When the payload, the text after the sentinel and one more character,
    starts no JSON value other than a literal (it is blank, or begins with a
    letter or a sign that opens no string, array, object or number),
    [json.loads] fails or gives a value that is no mapping; either is
    caught, the payload itself is the summary, and the report is a
    successful one with that summary and empty lists. *)
Theorem legacy_payload_fallback (result : string) :
  is_task_complete result = true ->
  plain_text (completion_data result) = true ->
  extract_completion_summary result = Within (Ok (PStr (completion_data result)))
  /\ extract_completion_report result
     = Within (Ok (Some {| status := PStr "success";
                           summary := PStr (completion_data result);
                           findings := PList [];
                           artifacts := PList [];
                           recommendations := PList [] |})).
Proof.
  intros Hc Hp. destruct (from_json_plain_text _ Hp) as (e & E & He).
  unfold extract_completion_summary, extract_completion_report.
  rewrite Hc, E, He. split; reflexivity.
Qed.

Lemma legacy_payload_fallback_witness :
  extract_completion_summary legacy_result = Within (Ok (PStr "all done"))
  /\ extract_completion_report legacy_result
     = Within (Ok (Some {| status := PStr "success"; summary := PStr "all done";
                           findings := PList []; artifacts := PList [];
                           recommendations := PList [] |})).
Proof.
  exact (legacy_payload_fallback legacy_result eq_refl eq_refl).
Defined.

Lemma all_chars_append (p : ascii -> bool) (a b : string) :
  all_chars p (a +:+ b) = all_chars p a && all_chars p b.
Proof.
  induction a as [|c a IH]; [reflexivity|].
  rewrite append_cons. cbn [all_chars]. rewrite IH, andb_assoc. reflexivity.
Qed.

Lemma all_chars_join (p : ascii -> bool) (sep : string) (l : list string) :
  all_chars p sep = true ->
  (forall x, In x l -> all_chars p x = true) ->
  all_chars p (join sep l) = true.
Proof.
  intros Hsep. induction l as [|x l IH]; intros Hl; [reflexivity|].
  destruct l as [|y l]; [exact (Hl x (or_introl eq_refl))|].
  rewrite join_cons2, !all_chars_append, Hsep, (Hl x (or_introl eq_refl)).
  rewrite IH; [reflexivity|]. intros z Hz. apply Hl. right. exact Hz.
Qed.

Lemma uint_printable (d : Decimal.uint) :
  all_chars printable_ascii (NilEmpty.string_of_uint d) = true.
Proof. induction d; simpl; try reflexivity; exact IHd. Qed.

Lemma dec_printable (z : Z) : all_chars printable_ascii (dec z) = true.
Proof.
  unfold dec. destruct (Z.to_int z) as [d|d]; unfold NilZero.string_of_int.
  - destruct d; try reflexivity; simpl; apply uint_printable.
  - cbn [all_chars]. destruct d; try reflexivity; simpl; apply uint_printable.
Qed.

Lemma json_escape_char_printable (c : ascii) :
  all_chars printable_ascii (json_escape_char c) = true.
Proof. destruct c as [[] [] [] [] [] [] [] []]; reflexivity. Qed.

Lemma json_string_printable (s : string) :
  all_chars printable_ascii (json_string s) = true.
Proof.
  unfold json_string. cbn [all_chars]. rewrite all_chars_append.
  change (printable_ascii dquote) with true.
  change (all_chars printable_ascii (String dquote "")) with true.
  rewrite andb_true_r. cbn [andb].
  induction s as [|c s IH]; [reflexivity|].
  cbn [json_escape]. rewrite all_chars_append, json_escape_char_printable, IH.
  reflexivity.
Qed.

Lemma json_dumps_printable (n : nat) :
  forall v : pyval, (size v <= n)%nat ->
    all_chars printable_ascii (json_dumps v) = true.
Proof.
  induction n as [|n IH]; intros v Hn.
  { pose proof (size_pos v). lia. }
  destruct v as [|[]|z|s|xs|kvs]; try reflexivity.
  - apply dec_printable.
  - apply json_string_printable.
  - cbn [json_dumps]. rewrite !all_chars_append. cbn [all_chars andb].
    apply andb_true_iff; split; [reflexivity|].
    apply andb_true_iff; split; [|reflexivity].
    apply all_chars_join; [reflexivity|].
    intros t Ht. apply in_map_iff in Ht as (x & <- & Hx). apply IH.
    pose proof (size_in_sum x xs Hx). cbn [size] in Hn. lia.
  - cbn [json_dumps]. rewrite !all_chars_append. cbn [all_chars andb].
    apply andb_true_iff; split; [reflexivity|].
    apply andb_true_iff; split; [|reflexivity].
    apply all_chars_join; [reflexivity|].
    intros t Ht. apply in_map_iff in Ht as ([k x] & <- & Hx).
    rewrite !all_chars_append, json_string_printable. cbn [andb all_chars].
    change (printable_ascii ":") with true. change (printable_ascii " ") with true.
    cbn [andb]. apply IH.
    assert (Hin : In x (List.map snd kvs)) by (apply in_map_iff; exists (k, x); auto).
    pose proof (size_in_pairs x kvs Hin) as Hs. unfold pair_size in Hs.
    cbn [size] in Hn. lia.
Qed.

(** X9: the text [finish] returns, the sentinel with the JSON of the report,
    is made of printable ASCII characters only, whatever the arguments hold:
    every other character of a summary or a finding is escaped, so the
    result is a single line. *)
Theorem finish_output_ascii (arguments : gmap string pyval) :
  all_chars printable_ascii (finish arguments) = true.
Proof.
  unfold finish. rewrite !all_chars_append.
  change (all_chars printable_ascii TASK_COMPLETE_SIGNAL) with true.
  change (all_chars printable_ascii ":") with true. cbn [andb].
  unfold to_json. apply (json_dumps_printable _ _ (le_n _)).
Qed.

(** ** Filesystem tools: the workspace check, reading ranges, rejected edits *)

Ltac no_write_step :=
  match goal with
  | |- never_calls _ (bind _ _) => apply never_calls_bind; [|intros]
  | |- never_calls _ (mbind _ _) => apply never_calls_bind; [|intros]
  | |- never_calls _ (try_except _ _) => apply never_calls_try; [|intros]
  | |- never_calls _ (_validate_path _) => apply validate_path_no_write
  | |- never_calls _ (read_content _) => apply read_content_no_write
  | |- never_calls _ (if ?b then _ else _) => destruct b
  | |- never_calls _ (lift ?r) => destruct r; exact I
  | |- never_calls _ (call _) => split; [reflexivity|intros []; intros; exact I]
  | |- never_calls _ (Ret _) => exact I
  | |- never_calls _ (Throw _) => exact I
  end.

Lemma read_file_body_no_write (filepath start_line end_line : pyval) :
  never_calls (Σ := fsΣ) is_write (read_file_body filepath start_line end_line).
Proof. unfold read_file_body. repeat no_write_step. Qed.

(** X10: [read_file] never writes: whatever its arguments are and whatever
    the file system answers, no call it makes is a write. *)
Theorem read_file_never_writes {S : Type}
    (H : forall o : op fsΣ, S -> reply (ans fsΣ o) * S)
    (arguments : gmap string pyval) (s : S) :
  existsb is_write (trace H (read_file arguments) s) = false.
Proof.
  apply (never_calls_trace (Σ := fsΣ)). unfold read_file.
  apply never_calls_bind; [destruct (subscript arguments "path"); exact I|].
  intros filepath. apply never_calls_try; [apply read_file_body_no_write|].
  intros e. destruct (is_ValueError e); exact I.
Qed.

Lemma clamp_index (x n : Z) :
  (m ← py_min (PInt x) (PInt n); py_max (PInt 0) m)
  = Ok (PInt (Z.max 0 (Z.min x n))).
Proof.
  unfold py_min, py_max, py_lt, py_gt. cbn.
  destruct (n <? x) eqn:E1; cbn; [destruct (0 <? n) eqn:E2|destruct (0 <? x) eqn:E2];
    do 2 f_equal; lia.
Qed.

Lemma numbered_length (first : Z) (lines : list string) :
  length (numbered first lines) = length lines.
Proof.
  revert first. induction lines as [|l lines IH]; intros first; [reflexivity|].
  cbn. f_equal. apply IH.
Qed.

Lemma numbered_nth (lines : list string) :
  forall (first : Z) (k : nat), (k < length lines)%nat ->
    nth k (numbered first lines) ""
    = format_4d (first + Z.of_nat k) +:+ " | " +:+ nth k lines "".
Proof.
  induction lines as [|l lines IH]; intros first k Hk; [cbn in Hk; lia|].
  destruct k as [|k]; cbn [numbered nth].
  - rewrite Z.add_0_r. reflexivity.
  - rewrite IH by (cbn in Hk; lia). do 2 f_equal. lia.
Qed.

Lemma slice_length (lines : list string) (start stop : Z) :
  0 <= start -> start <= stop -> stop <= Z.of_nat (length lines) ->
  length (slice lines start stop) = Z.to_nat (stop - start).
Proof.
  intros H0 H1 H2. unfold slice.
  rewrite List.length_firstn, List.length_skipn. lia.
Qed.

Lemma slice_nth (lines : list string) (start stop : Z) (k : nat) :
  0 <= start -> (k < Z.to_nat (stop - start))%nat ->
  nth k (slice lines start stop) "" = nth (Z.to_nat start + k) lines "".
Proof.
  intros H0 Hk. unfold slice. rewrite List.nth_firstn.
  destruct (Nat.ltb_spec k (Z.to_nat (stop - start))); [|lia].
  apply List.nth_skipn.
Qed.

Section ReadFacts.
Context {S : Type}.
Variable H : forall o : op fsΣ, S -> reply (ans fsΣ o) * S.

(** X11: a path that [relative_to] places outside the workspace root is
    refused by [read_file] and by [replace_in_file] with the same text, and
    after the three calls of the check nothing more is asked of the file
    system: the file is neither looked for, nor read, nor written. *)
Theorem outside_workspace_refused (arguments : gmap string pyval)
    (filepath : pyval) (path root : string) (e : exn) (s s1 s2 s3 : S) :
  arguments !! "path" = Some filepath ->
  H (path_resolve filepath) s = (Ok path, s1) ->
  H workspace_root s1 = (Ok (Some root), s2) ->
  H (relative_to path root) s2 = (Raise e, s3) ->
  is_ValueError e = true ->
  let checks := [path_resolve filepath; workspace_root; relative_to path root] in
  let refusal :=
    PStr ("Error: Path '" +:+ py_str filepath +:+ "' is outside workspace root") in
  run H (read_file arguments) s = (checks, s3, Ok refusal)
  /\ (is_Some (arguments !! "old_string") ->
      is_Some (arguments !! "new_string") ->
      run H (replace_in_file arguments) s = (checks, s3, Ok refusal)).
Proof.
  intros Hp H1 H2 H3 He checks refusal. split.
  - unfold read_file, subscript, read_file_body, _validate_path. rewrite Hp.
    cbn. rewrite H1. cbn. rewrite H2. cbn. rewrite H3. cbn. rewrite He. reflexivity.
  - intros [o Ho] [n Hn].
    unfold replace_in_file, subscript, replace_in_file_body, _validate_path.
    rewrite Hp, Ho, Hn.
    cbn. rewrite H1. cbn. rewrite H2. cbn. rewrite H3. cbn. rewrite He. reflexivity.
Qed.

Variables (filepath : pyval) (path content : string) (s s1 s2 s3 s4 : S)
  (tr1 tr4 : list (op fsΣ)).
Hypothesis Hvalid : run H (_validate_path filepath) s = (tr1, s1, Ok path).
Hypothesis Hexists : H (path_exists path) s1 = (Ok true, s2).
Hypothesis Hfile : H (path_is_file path) s2 = (Ok true, s3).
Hypothesis Hread : run H (read_content path) s3 = (tr4, s4, Ok content).

Lemma read_listing_run (start_line end_line : pyval) (s0 e0 : Z) :
  let lines := splitlines content in
  let n := Z.of_nat (length lines) in
  (truthy start_line = false /\ s0 = 0) \/ (truthy start_line = true /\ start_line = PInt (s0 + 1)) ->
  (truthy end_line = false /\ e0 = n) \/ (truthy end_line = true /\ end_line = PInt e0) ->
  let first := Z.max 0 (Z.min s0 n) in
  let last := Z.max 0 (Z.min e0 n) in
  run H (read_file_body filepath start_line end_line) s
  = (tr1 ++ [path_exists path; path_is_file path] ++ tr4, s4,
     Ok (PStr
           (if last <=? first then
              "Error: Invalid line range " +:+ py_str start_line +:+ "-" +:+
              py_str end_line +:+ " (file has " +:+ dec n +:+ " lines)"
            else
              ("File: " +:+ py_str filepath +:+ " (lines " +:+ dec (first + 1) +:+
               "-" +:+ dec last +:+ " of " +:+ dec n +:+ ")") +:+ nl +:+
              string_repeat rule_char 60 +:+ nl +:+
              join nl (numbered (first + 1) (slice lines first last))))).
Proof.
  intros lines n Hs He first last. unfold read_file_body.
  unfold mbind, prog_bind.
  rewrite (run_bind H _ _ s s1 tr1 path Hvalid).
  cbn [bind call run]. rewrite Hexists. cbn [bind negb run]. rewrite Hfile.
  cbn [bind negb].
  rewrite (run_bind H _ _ s3 s4 tr4 content Hread).
  fold lines. fold n.
  assert (E1 : (if truthy start_line then lift (Σ := fsΣ) (py_sub start_line (PInt 1))
                else Ret (PInt 0)) = Ret (PInt s0)).
  { destruct Hs as [[-> ->]|[-> ->]]; [reflexivity|]. cbn. do 2 f_equal. lia. }
  assert (E2 : (if truthy end_line then end_line else PInt n) = PInt e0).
  { destruct He as [[-> ->]|[-> ->]]; reflexivity. }
  rewrite E1, E2. cbn [bind].
  pose proof (clamp_index s0 n) as C1. pose proof (clamp_index e0 n) as C2.
  unfold mbind in C1, C2. rewrite C1, C2. fold first. fold last. cbn [lift bind index as_int default id].
  destruct (last <=? first); cbn [run py_str]; rewrite <- ?List.app_assoc;
    cbn [app]; rewrite ?List.app_nil_r; reflexivity.
Qed.

Lemma read_file_run (arguments : gmap string pyval) (v : pyval) :
  arguments !! "path" = Some filepath ->
  run H (read_file_body filepath (get arguments "start_line" PNone)
           (get arguments "end_line" PNone)) s
  = (tr1 ++ [path_exists path; path_is_file path] ++ tr4, s4, Ok v) ->
  run H (read_file arguments) s
  = (tr1 ++ [path_exists path; path_is_file path] ++ tr4, s4, Ok v).
Proof.
  intros Hp Hb. unfold read_file, subscript. rewrite Hp. prog_simpl.
  exact (run_try_ok H _ _ _ _ _ _ Hb).
Qed.

(** X12: asked for the lines [a] to [b] of a file of [n] lines, with
    [1 <= a <= b <= n], [read_file] returns a header naming the range and
    the total, a rule, and exactly the [b - a + 1] lines from the [a]-th to
    the [b]-th, each after its own 1-based number in four columns. *)
Theorem read_file_lists_range (arguments : gmap string pyval) (a b : Z) :
  arguments !! "path" = Some filepath ->
  arguments !! "start_line" = Some (PInt a) ->
  arguments !! "end_line" = Some (PInt b) ->
  let lines := splitlines content in
  let n := Z.of_nat (length lines) in
  1 <= a -> a <= b -> b <= n ->
  exists body,
    run H (read_file arguments) s
    = (tr1 ++ [path_exists path; path_is_file path] ++ tr4, s4,
       Ok (PStr (("File: " +:+ py_str filepath +:+ " (lines " +:+ dec a +:+ "-" +:+
                  dec b +:+ " of " +:+ dec n +:+ ")") +:+ nl +:+
                 string_repeat rule_char 60 +:+ nl +:+ join nl body)))
    /\ length body = Z.to_nat (b - a + 1)
    /\ forall k, (k < length body)%nat ->
         nth k body ""
         = format_4d (a + Z.of_nat k) +:+ " | " +:+
           nth (Z.to_nat (a - 1) + k) lines "".
Proof.
  intros Hp Ha Hb lines n H1 H2 H3.
  exists (numbered a (slice lines (a - 1) b)).
  assert (Hlen : length (slice lines (a - 1) b) = Z.to_nat (b - a + 1)).
  { rewrite slice_length by (fold n; lia). f_equal. lia. }
  split; [|split].
  - apply read_file_run; [exact Hp|]. unfold get. rewrite Ha, Hb. cbn [default].
    pose proof (read_listing_run (PInt a) (PInt b) (a - 1) b) as R.
    cbv zeta in R. fold lines in R. fold n in R.
    replace (Z.max 0 (Z.min (a - 1) n)) with (a - 1) in R by lia.
    replace (Z.max 0 (Z.min b n)) with b in R by lia.
    replace (a - 1 + 1) with a in R by lia.
    destruct (Z.leb_spec b (a - 1)) as [Hle|_]; [lia|].
    apply R; right; (split; [|reflexivity]); cbn;
      [destruct (Z.eqb_spec a 0)|destruct (Z.eqb_spec b 0)]; (reflexivity || lia).
  - rewrite numbered_length. exact Hlen.
  - intros k Hk. rewrite numbered_length, Hlen in Hk.
    rewrite numbered_nth by (rewrite Hlen; exact Hk).
    rewrite slice_nth; [reflexivity|lia|]. replace (b - (a - 1)) with (b - a + 1) by lia.
    exact Hk.
Qed.

(** X13: an empty file cannot be listed: whatever bounds are left out or
    given as integers that the interpreter can write as text (at most 4300
    digits, see [writable_int]), [read_file] answers that the line range is
    invalid for a file of 0 lines, naming the bounds as given. *)
Theorem read_file_empty_file (arguments : gmap string pyval) :
  arguments !! "path" = Some filepath ->
  content = "" ->
  let start_line := get arguments "start_line" PNone in
  let end_line := get arguments "end_line" PNone in
  (start_line = PNone \/ exists a, start_line = PInt a /\ writable_int a) ->
  (end_line = PNone \/ exists b, end_line = PInt b /\ writable_int b) ->
  run H (read_file arguments) s
  = (tr1 ++ [path_exists path; path_is_file path] ++ tr4, s4,
     Ok (PStr ("Error: Invalid line range " +:+ py_str start_line +:+ "-" +:+
               py_str end_line +:+ " (file has 0 lines)"))).
Proof.
  intros Hp Hc start_line end_line Hs He.
  assert (Hs1 : start_line = PNone \/ exists a, start_line = PInt a)
    by (destruct Hs as [?|(a & ? & _)]; eauto).
  assert (He1 : end_line = PNone \/ exists b, end_line = PInt b)
    by (destruct He as [?|(b & ? & _)]; eauto).
  clear Hs He. rename Hs1 into Hs. rename He1 into He.
  apply read_file_run; [exact Hp|]. fold start_line. fold end_line.
  assert (Hs' : exists s0,
            (truthy start_line = false /\ s0 = 0)
            \/ (truthy start_line = true /\ start_line = PInt (s0 + 1))).
  { destruct Hs as [->|[a ->]]; [exists 0; left; split; reflexivity|].
    destruct (Z.eqb_spec a 0) as [->|Hne]; [exists 0; left; split; reflexivity|].
    exists (a - 1). right. split; [|do 1 f_equal; lia].
    cbn. destruct (Z.eqb_spec a 0); [contradiction|reflexivity]. }
  assert (He' : exists e0,
            (truthy end_line = false /\ e0 = 0)
            \/ (truthy end_line = true /\ end_line = PInt e0)).
  { destruct He as [->|[b ->]]; [exists 0; left; split; reflexivity|].
    destruct (Z.eqb_spec b 0) as [->|Hne]; [exists 0; left; split; reflexivity|].
    exists b. right. split; [|reflexivity].
    cbn. destruct (Z.eqb_spec b 0); [contradiction|reflexivity]. }
  destruct Hs' as [s0 Hs0]. destruct He' as [e0 He0].
  pose proof (read_listing_run start_line end_line s0 e0) as R.
  cbv zeta in R. subst content. cbn [splitlines splitlines_from String.eqb length] in R.
  change (Z.of_nat 0) with 0 in R.
  specialize (R Hs0 He0).
  destruct (Z.leb_spec (Z.max 0 (Z.min e0 0)) (Z.max 0 (Z.min s0 0))) as [_|Hlt];
    [exact R|lia].
Qed.

(** X14: with the start left out or at most 1 and the end left out, 0 or at
    least the number of lines, [read_file] lists the whole of a non-empty
    file: the header says lines 1 to [n] of [n], and the [k]-th listed line
    is the [k]-th line of the file after its number. *)
Theorem read_file_whole_file (arguments : gmap string pyval) :
  arguments !! "path" = Some filepath ->
  let lines := splitlines content in
  let n := Z.of_nat (length lines) in
  let start_line := get arguments "start_line" PNone in
  let end_line := get arguments "end_line" PNone in
  0 < n ->
  (start_line = PNone \/ exists a, start_line = PInt a /\ a <= 1) ->
  (end_line = PNone \/ exists b, end_line = PInt b /\ (b = 0 \/ n <= b)) ->
  exists body,
    run H (read_file arguments) s
    = (tr1 ++ [path_exists path; path_is_file path] ++ tr4, s4,
       Ok (PStr (("File: " +:+ py_str filepath +:+ " (lines 1-" +:+ dec n +:+
                  " of " +:+ dec n +:+ ")") +:+ nl +:+
                 string_repeat rule_char 60 +:+ nl +:+ join nl body)))
    /\ length body = length lines
    /\ forall k, (k < length lines)%nat ->
         nth k body "" = format_4d (1 + Z.of_nat k) +:+ " | " +:+ nth k lines "".
Proof.
  intros Hp lines n start_line end_line Hn Hs He.
  exists (numbered 1 lines). split; [|split].
  - apply read_file_run; [exact Hp|]. fold start_line. fold end_line.
    assert (Hs' : exists s0, s0 <= 0 /\
              ((truthy start_line = false /\ s0 = 0)
               \/ (truthy start_line = true /\ start_line = PInt (s0 + 1)))).
    { destruct Hs as [->|[a [-> Ha]]]; [exists 0; split; [lia|left; split; reflexivity]|].
      destruct (Z.eqb_spec a 0) as [->|Hne];
        [exists 0; split; [lia|left; split; reflexivity]|].
      exists (a - 1). split; [lia|]. right. split; [|do 1 f_equal; lia].
      cbn. destruct (Z.eqb_spec a 0); [contradiction|reflexivity]. }
    assert (He' : exists e0, n <= e0 /\
              ((truthy end_line = false /\ e0 = n)
               \/ (truthy end_line = true /\ end_line = PInt e0))).
    { destruct He as [->|[b [-> Hb]]]; [exists n; split; [lia|left; split; reflexivity]|].
      destruct (Z.eqb_spec b 0) as [->|Hne];
        [exists n; split; [lia|left; split; reflexivity]|].
      exists b. split; [lia|]. right. split; [|reflexivity].
      cbn. destruct (Z.eqb_spec b 0); [contradiction|reflexivity]. }
    destruct Hs' as (s0 & Hs0 & Hs1). destruct He' as (e0 & He0 & He1).
    pose proof (read_listing_run start_line end_line s0 e0) as R.
    cbv zeta in R. fold lines in R. fold n in R. specialize (R Hs1 He1).
    replace (Z.max 0 (Z.min s0 n)) with 0 in R by lia.
    replace (Z.max 0 (Z.min e0 n)) with n in R by lia.
    destruct (Z.leb_spec n 0) as [Hle|_]; [lia|].
    change (0 + 1) with 1 in R.
    assert (Hall : slice lines 0 n = lines).
    { unfold slice. cbn [Z.to_nat skipn]. apply List.firstn_all2. lia. }
    rewrite Hall in R. exact R.
  - apply numbered_length.
  - intros k Hk. apply numbered_nth. exact Hk.
Qed.
End ReadFacts.


Lemma outside_workspace_refused_witness :
  run (Σ := fsΣ) memfs_handler (read_file {[ "path" := PStr "/etc/passwd" ]}) notes_fs
  = ([path_resolve (PStr "/etc/passwd"); workspace_root;
      relative_to "/etc/passwd" "/work"], notes_fs,
     Ok (PStr "Error: Path '/etc/passwd' is outside workspace root")).
Proof.
  exact (proj1 (outside_workspace_refused memfs_handler
                  {[ "path" := PStr "/etc/passwd" ]} (PStr "/etc/passwd")
                  "/etc/passwd" "/work"
                  (Exn ValueError "'/etc/passwd' is not in the subpath of '/work'")
                  notes_fs notes_fs notes_fs notes_fs
                  eq_refl eq_refl eq_refl eq_refl eq_refl)).
Defined.


Lemma read_file_lists_range_witness :
  exists body,
    outcome (Σ := fsΣ) memfs_handler
      (read_file (read_args "/work/notes.txt" (PInt 2) (PInt 2))) notes_fs
    = Ok (PStr (("File: /work/notes.txt (lines 2-2 of 2)") +:+ nl +:+
                string_repeat rule_char 60 +:+ nl +:+ join nl body))
    /\ body = ["   2 | gamma"].
Proof.
  unshelve epose proof
    (read_file_lists_range memfs_handler (PStr "/work/notes.txt")
       "/work/notes.txt" ("alpha beta" +:+ nl +:+ "gamma")
       notes_fs notes_fs notes_fs notes_fs notes_fs
       [path_resolve (PStr "/work/notes.txt"); workspace_root;
        relative_to "/work/notes.txt" "/work"]
       [read_text "/work/notes.txt" "utf-8"]
       _ _ _ _
       (read_args "/work/notes.txt" (PInt 2) (PInt 2)) 2 2 _ _ _ _ _ _)
    as W; try (vm_compute; reflexivity); try (vm_compute; discriminate).
  destruct W as (body & Hrun & Hlen & Hnth).
  exists body. split.
  - unfold outcome. rewrite Hrun. reflexivity.
  - destruct body as [|l [|l2 body]]; try discriminate Hlen.
    f_equal. exact (Hnth 0%nat (le_n 1)).
Defined.

Lemma read_file_empty_file_witness :
  outcome (Σ := fsΣ) memfs_handler
    (read_file {[ "path" := PStr "/work/empty.txt"; "start_line" := PInt 3 ]})
    empty_file_fs
  = Ok (PStr "Error: Invalid line range 3-None (file has 0 lines)").
Proof.
  unfold outcome.
  unshelve erewrite (read_file_empty_file memfs_handler (PStr "/work/empty.txt")
             "/work/empty.txt" "" empty_file_fs empty_file_fs empty_file_fs
             empty_file_fs empty_file_fs
             [path_resolve (PStr "/work/empty.txt"); workspace_root;
              relative_to "/work/empty.txt" "/work"]
             [read_text "/work/empty.txt" "utf-8"]
             _ _ _ _
             {[ "path" := PStr "/work/empty.txt"; "start_line" := PInt 3 ]} _ _
             (or_intror (ex_intro _ 3 (conj _ _))) (or_introl _));
    try (vm_compute; reflexivity).
Defined.

Lemma read_file_whole_file_witness :
  exists body,
    outcome (Σ := fsΣ) memfs_handler
      (read_file (read_args "/work/notes.txt" (PInt (-3)) (PInt 99))) notes_fs
    = Ok (PStr (("File: /work/notes.txt (lines 1-2 of 2)") +:+ nl +:+
                string_repeat rule_char 60 +:+ nl +:+ join nl body))
    /\ length body = 2%nat.
Proof.
  unshelve epose proof
    (read_file_whole_file memfs_handler (PStr "/work/notes.txt")
       "/work/notes.txt" ("alpha beta" +:+ nl +:+ "gamma")
       notes_fs notes_fs notes_fs notes_fs notes_fs
       [path_resolve (PStr "/work/notes.txt"); workspace_root;
        relative_to "/work/notes.txt" "/work"]
       [read_text "/work/notes.txt" "utf-8"]
       _ _ _ _
       (read_args "/work/notes.txt" (PInt (-3)) (PInt 99)) _ _
       (or_intror (ex_intro _ (-3) (conj _ _)))
       (or_intror (ex_intro _ 99 (conj _ (or_intror _)))))
    as W; try (vm_compute; reflexivity); try (vm_compute; discriminate).
  destruct W as (body & Hrun & Hlen & Hnth).
  exists body. split; [|exact Hlen].
  unfold outcome. rewrite Hrun. reflexivity.
Defined.

Section RejectedEdits.
Context {S : Type}.
Variable H : forall o : op fsΣ, S -> reply (ans fsΣ o) * S.

(** X15: [replace_in_file] writes nothing when a replacement argument is
    not a text: a non-text [old_string] is refused when it is counted, and
    a non-text [new_string], for an [old_string] found exactly once, when
    the replacement is made; either way the answer is the error text of the
    tool and the calls are those that read the file. *)
Theorem replace_in_file_rejects_non_text (arguments : gmap string pyval)
    (filepath old_string new_string : pyval) (s s1 s2 s3 : S)
    (tr1 tr3 : list (op fsΣ)) (path content : string) :
  arguments !! "path" = Some filepath ->
  arguments !! "old_string" = Some old_string ->
  arguments !! "new_string" = Some new_string ->
  run H (_validate_path filepath) s = (tr1, s1, Ok path) ->
  H (path_exists path) s1 = (Ok true, s2) ->
  run H (read_content path) s2 = (tr3, s3, Ok content) ->
  let reads := tr1 ++ [path_exists path] ++ tr3 in
  (is_str old_string = false ->
     run H (replace_in_file arguments) s
     = (reads, s3,
        Ok (PStr ("Error replacing in file: must be str, not " +:+
                  type_name old_string))))
  /\ (forall old, old_string = PStr old -> str_count content old = 1%nat ->
      is_str new_string = false ->
      run H (replace_in_file arguments) s
      = (reads, s3,
         Ok (PStr ("Error replacing in file: replace() argument 2 must be str, not "
                   +:+ type_name new_string)))).
Proof.
  intros Hp Ho Hn Hv He Hr reads.
  assert (Hfn : replace_in_file arguments
                = try_except (replace_in_file_body filepath old_string new_string)
                    (fun e => if is_ValueError e
                              then Ret (PStr ("Error: " +:+ exn_msg e))
                              else Ret (PStr ("Error replacing in file: " +:+ exn_msg e)))).
  { unfold replace_in_file, subscript. rewrite Hp, Ho, Hn. reflexivity. }
  rewrite Hfn.
  split.
  - intros Hold.
    assert (Hb : run H (replace_in_file_body filepath old_string new_string) s
                 = (reads, s3, Raise (Exn TypeError ("must be str, not " +:+
                                                     type_name old_string)))).
    { unfold replace_in_file_body. unfold mbind, prog_bind.
      rewrite (run_bind H _ _ s s1 tr1 path Hv).
      cbn [bind call run]. rewrite He. cbn [bind negb].
      rewrite (run_bind H _ _ s2 s3 tr3 content Hr).
      destruct old_string; try discriminate Hold; cbn; unfold reads;
        rewrite <- ?List.app_assoc, ?List.app_nil_r; reflexivity. }
    rewrite (run_try_raise H _ _ _ _ _ _ Hb). cbn. rewrite List.app_nil_r.
    reflexivity.
  - intros old -> Hc Hnew.
    assert (Hb : run H (replace_in_file_body filepath (PStr old) new_string) s
                 = (reads, s3,
                    Raise (Exn TypeError ("replace() argument 2 must be str, not " +:+
                                          type_name new_string)))).
    { unfold replace_in_file_body. unfold mbind, prog_bind.
      rewrite (run_bind H _ _ s s1 tr1 path Hv).
      cbn [bind call run]. rewrite He. cbn [bind negb].
      rewrite (run_bind H _ _ s2 s3 tr3 content Hr).
      cbn [py_count lift bind]. rewrite Hc. cbn [Nat.eqb Nat.ltb Nat.leb].
      destruct new_string; try discriminate Hnew; cbn; unfold reads;
        rewrite <- ?List.app_assoc, ?List.app_nil_r; reflexivity. }
    rewrite (run_try_raise H _ _ _ _ _ _ Hb). cbn. rewrite List.app_nil_r.
    reflexivity.
Qed.
End RejectedEdits.

Lemma replace_in_file_rejects_non_text_witness :
  run (Σ := fsΣ) memfs_handler
    (replace_in_file {[ "path" := PStr "/work/notes.txt";
                        "old_string" := PInt 7; "new_string" := PStr "x" ]}) notes_fs
  = ([path_resolve (PStr "/work/notes.txt"); workspace_root;
      relative_to "/work/notes.txt" "/work"; path_exists "/work/notes.txt";
      read_text "/work/notes.txt" "utf-8"], notes_fs,
     Ok (PStr "Error replacing in file: must be str, not int")).
Proof.
  exact (proj1 (replace_in_file_rejects_non_text memfs_handler
                  {[ "path" := PStr "/work/notes.txt";
                     "old_string" := PInt 7; "new_string" := PStr "x" ]}
                  (PStr "/work/notes.txt") (PInt 7) (PStr "x")
                  notes_fs notes_fs notes_fs notes_fs
                  [path_resolve (PStr "/work/notes.txt"); workspace_root;
                   relative_to "/work/notes.txt" "/work"]
                  [read_text "/work/notes.txt" "utf-8"]
                  "/work/notes.txt" ("alpha beta" +:+ nl +:+ "gamma")
                  eq_refl eq_refl eq_refl eq_refl eq_refl eq_refl) eq_refl).
Defined.

(** ** Programs of the filesystem tools among the calls of the other tools *)

Section EmbedFacts.
Context {S : Type}.
Variable H : forall o : op toolΣ, S -> reply (ans toolΣ o) * S.

Lemma run_embed {A} (p : prog fsΣ A) (s : S) :
  run H (embed p) s
  = let '(tr, s1, out) := run (Σ := fsΣ) (fun o => H (fs_call o)) p s in
    (List.map fs_call tr, s1, out).
Proof.
  revert s. induction p as [a|e|o k IH]; intros s; cbn; try reflexivity.
  destruct (H (fs_call o) s) as [r s1]. rewrite IH.
  destruct (run _ (k r) s1) as [[tr s2] out]. reflexivity.
Qed.
End EmbedFacts.

Lemma run_try_bind {Σ A B S} (H : forall o : op Σ, S -> reply (ans Σ o) * S)
    (p : prog Σ A) (f : A -> prog Σ B) (h : exn -> prog Σ B)
    (s s1 : S) (tr : list (op Σ)) (a : A) :
  run H p s = (tr, s1, Ok a) ->
  run H (try_except (bind p f) h) s
  = let '(tr2, s2, out) := run H (try_except (f a) h) s1 in (tr ++ tr2, s2, out).
Proof.
  revert s tr. induction p as [a'|e|o k IH]; cbn; intros s tr Hr.
  - inversion Hr; subst. destruct (run H (try_except (f a) h) s1) as [[tr2 s2] out].
    reflexivity.
  - discriminate Hr.
  - destruct (H o s) as [r s'].
    destruct (run H (k r) s') as [[tr' s''] out'] eqn:E.
    inversion Hr; subst. rewrite (IH r s' tr' E).
    destruct (run H (try_except (f a) h) s1) as [[tr2 s2] out]. reflexivity.
Qed.

(** ** [write_file] *)

Lemma write_file_body_text (filepath content append : pyval) :
  all_rets is_text (write_file_body filepath content append).
Proof.
  unfold write_file_body.
  apply all_rets_bind; intros path.
  apply all_rets_bind; intros _.
  apply all_rets_bind; intros _.
  apply all_rets_bind; intros _.
  apply all_rets_bind; intros n. cbn. eexists. reflexivity.
Qed.

Section WriteFacts.
Context {S : Type}.
Variable H : forall o : op toolΣ, S -> reply (ans toolΣ o) * S.

(** X16: given its two required arguments, [write_file] returns a text and
    never raises, whatever the content is and whatever the system answers:
    every failure comes back as an error text. *)
Theorem write_file_returns_text (arguments : gmap string pyval) (s : S) :
  is_Some (arguments !! "path") ->
  is_Some (arguments !! "content") ->
  exists t, outcome H (write_file arguments) s = Ok (PStr t).
Proof.
  intros [fp Hfp] [c Hc].
  assert (Hr : returns is_text (write_file arguments)).
  { unfold write_file, subscript. rewrite Hfp, Hc. prog_simpl.
    apply returns_try; [apply write_file_body_text|].
    intros e. destruct (is_ValueError e); cbn; eexists; reflexivity. }
  destruct (returns_outcome is_text _ H s Hr) as [a [E [t ->]]].
  exists t. exact E.
Qed.

(** X17: a path outside the workspace root is refused by [write_file]
    before anything is touched: after the three calls of the check no
    directory is made and no file is opened. *)
Theorem write_file_outside_workspace (arguments : gmap string pyval)
    (filepath : pyval) (path root : string) (e : exn) (s s1 s2 s3 : S) :
  arguments !! "path" = Some filepath ->
  is_Some (arguments !! "content") ->
  H (fs_call (path_resolve filepath)) s = (Ok path, s1) ->
  H (fs_call workspace_root) s1 = (Ok (Some root), s2) ->
  H (fs_call (relative_to path root)) s2 = (Raise e, s3) ->
  is_ValueError e = true ->
  run H (write_file arguments) s
  = ([fs_call (path_resolve filepath); fs_call workspace_root;
      fs_call (relative_to path root)], s3,
     Ok (PStr ("Error: Path '" +:+ py_str filepath +:+
               "' is outside workspace root"))).
Proof.
  intros Hp [c Hc] H1 H2 H3 He.
  unfold write_file, subscript, write_file_body, _validate_path. rewrite Hp, Hc.
  cbn. rewrite H1. cbn. rewrite H2. cbn. rewrite H3. cbn. rewrite He. reflexivity.
Qed.

Variables (arguments : gmap string pyval) (filepath content : pyval)
  (path : string) (s s1 s2 s3 s4 s5 : S) (tr1 : list (op fsΣ)).
Hypothesis Hpath : arguments !! "path" = Some filepath.
Hypothesis Hcontent : arguments !! "content" = Some content.
Hypothesis Hvalid :
  run (Σ := fsΣ) (fun o => H (fs_call o)) (_validate_path filepath) s
  = (tr1, s1, Ok path).
Hypothesis Hmkdir : H (mkdir_parents path) s1 = (Ok tt, s2).
Hypothesis Hopen :
  H (open_file path (if truthy (get arguments "append" (PBool false))
                     then "a" else "w")) s2 = (Ok tt, s3).
Hypothesis Hclose : H (file_close path) s4 = (Ok tt, s5).

Lemma write_file_opened :
  run H (write_file arguments) s
  = let '(tr, s', out) :=
      run H (try_except
               (_ ← with_file path (call (Σ := toolΣ) (file_write path content));
                n ← lift (py_len content);
                Ret (PStr ((if truthy (get arguments "append" (PBool false))
                            then "Appended to" else "Wrote") +:+
                           " " +:+ dec n +:+ " bytes to " +:+ py_str filepath)))
               (fun e => if is_ValueError e then Ret (PStr ("Error: " +:+ exn_msg e))
                         else Ret (PStr ("Error writing file: " +:+ exn_msg e)))) s3 in
    (List.map fs_call tr1 ++
     [mkdir_parents path;
      open_file path (if truthy (get arguments "append" (PBool false))
                      then "a" else "w")] ++ tr, s', out).
Proof.
  unfold write_file, subscript. rewrite Hpath, Hcontent.
  unfold write_file_body. unfold mbind, prog_bind. cbn [lift bind].
  assert (Hv : run H (embed (_validate_path filepath)) s
               = (List.map fs_call tr1, s1, Ok path)).
  { rewrite run_embed, Hvalid. reflexivity. }
  rewrite (run_try_bind H _ _ _ _ _ _ _ Hv).
  cbn [bind call try_except run]. rewrite Hmkdir.
  cbn [bind try_except run]. rewrite Hopen. cbn [bind try_except run].
  destruct (run H _ s3) as [[tr s'] out]. reflexivity.
Qed.

(** X18: when the path is inside the workspace and the system lets the
    directory be made, the file be opened, written and closed, [write_file]
    makes these calls in this order, the file opened for appending exactly
    when [append] is true, hands the content to the file unchanged and
    reports the number of characters of the content. *)
Theorem write_file_sequence (text : string) (written : Z) :
  content = PStr text ->
  H (file_write path (PStr text)) s3 = (Ok written, s4) ->
  let append := truthy (get arguments "append" (PBool false)) in
  run H (write_file arguments) s
  = (List.map fs_call tr1 ++
     [mkdir_parents path; open_file path (if append then "a" else "w");
      file_write path (PStr text); file_close path], s5,
     Ok (PStr ((if append then "Appended to" else "Wrote") +:+ " " +:+
               dec (Z.of_nat (String.length text)) +:+ " bytes to " +:+
               py_str filepath))).
Proof.
  intros Hc Hw append. rewrite write_file_opened. subst content.
  cbn. rewrite Hw. cbn. rewrite Hclose. cbn. reflexivity.
Qed.

(** X19: when the write fails, the directory has already been made and the
    file opened, in mode [w] unless appending; the file is closed all the
    same, and the failure comes back as an error text: [Error: ...] for a
    [ValueError], as an encoding error is, and [Error writing file: ...]
    for anything else. *)
Theorem write_file_failed_write (e : exn) :
  H (file_write path content) s3 = (Raise e, s4) ->
  let append := truthy (get arguments "append" (PBool false)) in
  run H (write_file arguments) s
  = (List.map fs_call tr1 ++
     [mkdir_parents path; open_file path (if append then "a" else "w");
      file_write path content; file_close path], s5,
     Ok (PStr ((if is_ValueError e then "Error: " else "Error writing file: ") +:+
               exn_msg e))).
Proof.
  intros Hw append. rewrite write_file_opened.
  cbn. rewrite Hw. cbn. rewrite Hclose. cbn.
  destruct (is_ValueError e); reflexivity.
Qed.
End WriteFacts.

Lemma write_file_returns_text_witness :
  exists t,
    outcome (Σ := toolΣ) open_system
      (write_file (write_args "/work/poc.py" (PInt 5))) []
    = Ok (PStr t).
Proof.
  unshelve eapply (write_file_returns_text open_system
                     (write_args "/work/poc.py" (PInt 5)) []);
    vm_compute; eexists; reflexivity.
Defined.

Lemma write_file_outside_workspace_witness :
  run (Σ := toolΣ) open_system (write_file (write_args "/etc/passwd" (PStr "x"))) []
  = ([fs_call (path_resolve (PStr "/etc/passwd")); fs_call workspace_root;
      fs_call (relative_to "/etc/passwd" "/work")], [],
     Ok (PStr "Error: Path '/etc/passwd' is outside workspace root")).
Proof.
  unshelve erewrite (write_file_outside_workspace open_system
                       (write_args "/etc/passwd" (PStr "x")) (PStr "/etc/passwd")
                       "/etc/passwd" "/work"
                       (Exn ValueError "'/etc/passwd' is not in the subpath of '/work'")
                       [] [] [] [] _ _ _ _ _ _);
    try (vm_compute; reflexivity).
  vm_compute. eexists. reflexivity.
Defined.

Lemma write_file_sequence_witness :
  run (Σ := toolΣ) open_system (write_file (write_args "/work/poc.py" (PStr "print(1)"))) []
  = ([fs_call (path_resolve (PStr "/work/poc.py")); fs_call workspace_root;
      fs_call (relative_to "/work/poc.py" "/work");
      mkdir_parents "/work/poc.py"; open_file "/work/poc.py" "w";
      file_write "/work/poc.py" (PStr "print(1)"); file_close "/work/poc.py"],
     ["print(1)"], Ok (PStr "Wrote 8 bytes to /work/poc.py")).
Proof.
  unshelve erewrite (write_file_sequence open_system
                       (write_args "/work/poc.py" (PStr "print(1)"))
                       (PStr "/work/poc.py") (PStr "print(1)") "/work/poc.py"
                       [] [] [] [] ["print(1)"] ["print(1)"]
                       [path_resolve (PStr "/work/poc.py"); workspace_root;
                        relative_to "/work/poc.py" "/work"]
                       _ _ _ _ _ _ "print(1)" 8 _ _);
    try (vm_compute; reflexivity).
Defined.

Lemma write_file_failed_write_witness :
  run (Σ := toolΣ) open_system (write_file (write_args "/work/poc.py" (PInt 5))) []
  = ([fs_call (path_resolve (PStr "/work/poc.py")); fs_call workspace_root;
      fs_call (relative_to "/work/poc.py" "/work");
      mkdir_parents "/work/poc.py"; open_file "/work/poc.py" "w";
      file_write "/work/poc.py" (PInt 5); file_close "/work/poc.py"],
     [], Ok (PStr "Error writing file: write() argument must be str, not int")).
Proof.
  unshelve erewrite (write_file_failed_write open_system
                       (write_args "/work/poc.py" (PInt 5))
                       (PStr "/work/poc.py") (PInt 5) "/work/poc.py"
                       [] [] [] [] [] []
                       [path_resolve (PStr "/work/poc.py"); workspace_root;
                        relative_to "/work/poc.py" "/work"]
                       _ _ _ _ _ _
                       (Exn TypeError "write() argument must be str, not int") _);
    try (vm_compute; reflexivity).
Defined.

(** ** Code search: the matches of one file *)

Lemma py_range_In (a b j : Z) : In j (py_range a b) <-> a <= j < b.
Proof.
  unfold py_range. rewrite in_map_iff. split.
  - intros (k & <- & Hk). apply in_seq in Hk. lia.
  - intros Hj. exists (Z.to_nat (j - a)). split; [lia|]. apply in_seq. lia.
Qed.

Lemma py_range_length (a b : Z) : length (py_range a b) = Z.to_nat (b - a).
Proof. unfold py_range. rewrite length_map, length_seq. reflexivity. Qed.

Lemma context_of_int (lines : list string) (i c : Z) :
  context_of lines i (PInt c)
  = Ok (List.map (fun j => (j + 1,
                            (if j =? i then arrow_prefix else plain_prefix),
                            nth (Z.to_nat j) lines ""))
          (py_range (Z.max 0 (i - c))
             (Z.min (Z.of_nat (length lines)) (i + c + 1)))).
Proof.
  unfold context_of, py_sub, py_add, py_max, py_min, py_gt, py_lt. cbn.
  destruct (0 <? i - c) eqn:E1; destruct (i + c + 1 <? Z.of_nat (length lines)) eqn:E2;
    cbn; do 3 f_equal; lia.
Qed.

(** X20: the context of a match at line [i + 1], for a context of [c >= 0]
    lines: its entries are the lines numbered from [max(1, i + 1 - c)] to
    [min(n, i + 1 + c)], once each, with their texts; the matching line is
    among them and it alone carries the arrow.  So there are at most
    [2 c + 1] entries, fewer only where the file begins or ends. *)
Theorem context_window (lines : list string) (i c : Z) :
  0 <= c ->
  0 <= i < Z.of_nat (length lines) ->
  let n := Z.of_nat (length lines) in
  exists context,
    context_of lines i (PInt c) = Ok context
    /\ Z.of_nat (length context) = Z.min n (i + 1 + c) - Z.max 1 (i + 1 - c) + 1
    /\ List.map (fun entry => entry.1.1) context
       = py_range (Z.max 1 (i + 1 - c)) (Z.min n (i + 1 + c) + 1)
    /\ forall k prefix text,
         In (k, prefix, text) context <->
         Z.max 1 (i + 1 - c) <= k <= Z.min n (i + 1 + c)
         /\ prefix = (if k =? i + 1 then arrow_prefix else plain_prefix)
         /\ text = nth (Z.to_nat (k - 1)) lines "".
Proof.
  intros Hc Hi n. eexists. split; [apply context_of_int|]. fold n. split; [|split].
  - rewrite length_map, py_range_length. lia.
  - rewrite List.map_map. cbn [fst]. unfold py_range. rewrite List.map_map.
    replace (Z.to_nat (Z.min n (i + 1 + c) + 1 - Z.max 1 (i + 1 - c)))
      with (Z.to_nat (Z.min n (i + c + 1) - Z.max 0 (i - c))) by lia.
    apply List.map_ext. intros k. lia.
  - intros k prefix text. rewrite in_map_iff. split.
    + intros (j & E & Hj). apply py_range_In in Hj. inversion E; subst.
      split; [lia|]. split.
      * destruct (Z.eqb_spec j i), (Z.eqb_spec (j + 1) (i + 1)); (reflexivity || lia).
      * replace (j + 1 - 1) with j by lia. reflexivity.
    + intros (Hk & -> & ->). exists (k - 1). split.
      * assert (E : (k - 1 =? i) = (k =? i + 1))
          by (destruct (Z.eqb_spec (k - 1) i), (Z.eqb_spec k (i + 1));
              (reflexivity || lia)).
        rewrite E. replace (k - 1 + 1) with k by lia. reflexivity.
      * apply py_range_In. lia.
Qed.

Lemma context_window_witness :
  context_of ["a"; "b"; "c"; "d"] 1 (PInt 1)
  = Ok [(1, plain_prefix, "a"); (2, arrow_prefix, "b"); (3, plain_prefix, "c")].
Proof.
  destruct (context_window ["a"; "b"; "c"; "d"] 1 1 ltac:(lia) ltac:(cbn; lia))
    as (context & E & _). rewrite E. f_equal.
  rewrite context_of_int in E. injection E as <-. reflexivity.
Defined.

Lemma search_lines_acc (search : string -> bool) (filepath : string) (c : Z)
    (lines : list string) :
  forall (todo : list string) (i : Z) (acc : list search_match),
    search_lines search filepath (PInt c) lines i todo acc
    = acc ++ search_lines search filepath (PInt c) lines i todo [].
Proof.
  induction todo as [|line rest IH]; intros i acc; cbn [search_lines].
  - rewrite List.app_nil_r. reflexivity.
  - destruct (search line); [|apply IH].
    rewrite context_of_int. rewrite IH. rewrite (IH _ ([] ++ _)).
    rewrite <- List.app_assoc. reflexivity.
Qed.

Lemma search_lines_from (search : string -> bool) (filepath : string) (c : Z)
    (lines : list string) :
  forall (todo done : list string),
    lines = done ++ todo ->
    search_lines search filepath (PInt c) lines (Z.of_nat (length done)) todo []
    = List.map (fun k =>
                  {| m_file := filepath;
                     m_line := Z.of_nat k + 1;
                     m_match := py_strip (nth k lines "");
                     m_context :=
                       List.map (fun j => (j + 1,
                                           (if j =? Z.of_nat k then arrow_prefix
                                            else plain_prefix),
                                           nth (Z.to_nat j) lines ""))
                         (py_range (Z.max 0 (Z.of_nat k - c))
                            (Z.min (Z.of_nat (length lines)) (Z.of_nat k + c + 1))) |})
        (List.filter (fun k => search (nth k lines ""))
           (seq (length done) (length todo))).
Proof.
  induction todo as [|line rest IH]; intros done Hl; [reflexivity|].
  cbn [search_lines length seq List.filter].
  assert (Hnth : nth (length done) lines "" = line).
  { rewrite Hl, List.app_nth2, Nat.sub_diag by lia. reflexivity. }
  assert (Hnext : lines = (done ++ [line]) ++ rest).
  { rewrite <- List.app_assoc. exact Hl. }
  specialize (IH (done ++ [line]) Hnext).
  rewrite List.length_app in IH. cbn [length] in IH.
  replace (Z.of_nat (length done + 1)) with (Z.of_nat (length done) + 1) in IH by lia.
  replace (length done + 1)%nat with (Datatypes.S (length done)) in IH by lia.
  rewrite Hnth. destruct (search line).
  - rewrite context_of_int, search_lines_acc, IH. cbn [app List.map].
    rewrite Hnth. reflexivity.
  - exact IH.
Qed.

Lemma search_lines_all (search : string -> bool) (filepath : string) (c : Z)
    (lines : list string) :
  search_lines search filepath (PInt c) lines 0 lines []
  = List.map (fun k =>
                {| m_file := filepath;
                   m_line := Z.of_nat k + 1;
                   m_match := py_strip (nth k lines "");
                   m_context :=
                     List.map (fun j => (j + 1,
                                         (if j =? Z.of_nat k then arrow_prefix
                                          else plain_prefix),
                                         nth (Z.to_nat j) lines ""))
                       (py_range (Z.max 0 (Z.of_nat k - c))
                          (Z.min (Z.of_nat (length lines)) (Z.of_nat k + c + 1))) |})
      (List.filter (fun k => search (nth k lines "")) (seq 0 (length lines))).
Proof. exact (search_lines_from search filepath c lines lines [] eq_refl). Qed.

(** X21: with an integer context, [_search_file]'s loop reports exactly the
    lines in which the pattern is found, in the order of the file, each
    under its 1-based number, with the file's path, the line stripped of
    the white space around it, and the context of that line. *)
Theorem search_lines_matches (search : string -> bool) (filepath : string) (c : Z)
    (lines : list string) :
  let found := search_lines search filepath (PInt c) lines 0 lines [] in
  List.map m_line found
  = List.map (fun k => Z.of_nat k + 1)
      (List.filter (fun k => search (nth k lines "")) (seq 0 (length lines)))
  /\ Forall (fun m =>
               m_file m = filepath
               /\ m_match m = py_strip (nth (Z.to_nat (m_line m - 1)) lines "")
               /\ context_of lines (m_line m - 1) (PInt c) = Ok (m_context m))
       found.
Proof.
  intros found. unfold found.
  rewrite search_lines_all.
  split.
  - rewrite List.map_map. reflexivity.
  - apply List.Forall_forall. intros m Hm. apply in_map_iff in Hm as (k & <- & _).
    cbn [m_file m_match m_line m_context].
    replace (Z.of_nat k + 1 - 1) with (Z.of_nat k) by lia.
    rewrite Nat2Z.id, context_of_int. repeat split.
Qed.

(** X22: the two edges of the context argument.  With a negative number the
    window is empty, so every match is listed without any line, its own
    included; and with a value that is no number the subtraction raises at
    the first matching line, the exception is swallowed, and the file
    reports no match at all. *)
Theorem search_lines_context_edges (search : string -> bool) (filepath : string)
    (lines : list string) :
  (forall c, c < 0 ->
     Forall (fun m => m_context m = [])
       (search_lines search filepath (PInt c) lines 0 lines []))
  /\ (forall context_lines, as_int context_lines = None ->
        search_lines search filepath context_lines lines 0 lines [] = []).
Proof.
  split.
  - intros c Hc.
    rewrite search_lines_all.
    apply List.Forall_forall. intros m Hm. apply in_map_iff in Hm as (k & <- & _).
    cbn [m_context]. unfold py_range.
    replace (Z.to_nat _) with 0%nat by lia. reflexivity.
  - intros context_lines Hn.
    assert (Hall : forall todo i,
              search_lines search filepath context_lines lines i todo [] = []).
    { induction todo as [|line rest IH]; intros i; [reflexivity|].
      cbn [search_lines]. destruct (search line); [|apply IH].
      unfold context_of, py_sub. cbn [as_int]. rewrite Hn. reflexivity. }
    apply Hall.
Qed.

Lemma search_lines_context_edges_witness :
  search_lines (String.eqb "x") "/f" (PInt (-1)) ["a"; "x"] 0 ["a"; "x"] []
  = [{| m_file := "/f"; m_line := 2; m_match := "x"; m_context := [] |}]
  /\ search_lines (String.eqb "x") "/f" (PStr "2") ["a"; "x"] 0 ["a"; "x"] [] = [].
Proof.
  destruct (search_lines_context_edges (String.eqb "x") "/f" ["a"; "x"]) as [E1 E2].
  split; [|exact (E2 (PStr "2") eq_refl)].
  specialize (E1 (-1) ltac:(lia)). reflexivity.
Defined.

(** ** Code search: the files that are searched *)

Section WalkFacts.
Variable lib : library.
Variable pattern : pyval.




End WalkFacts.



(** ** Code search: the loop over the files and the tool *)

Section SearchFacts.
Context {S : Type}.
Variable H : forall o : op toolΣ, S -> reply (ans toolΣ o) * S.

Lemma search_file_run (filepath : string) (search : string -> bool)
    (context_lines : pyval) (s : S) :
  run H (_search_file filepath search context_lines) s
  = ([read_text_ignore filepath], (H (read_text_ignore filepath) s).2,
     Ok (match (H (read_text_ignore filepath) s).1 with
         | Ok content =>
             search_lines search filepath context_lines (splitlines content) 0
               (splitlines content) []
         | Raise _ => []
         end)).
Proof.
  unfold _search_file. cbn.
  destruct (H (read_text_ignore filepath) s) as [[content|e] s1]; reflexivity.
Qed.

Lemma search_files_step (search : string -> bool) (context_lines : pyval)
    (limit : Z) (filepath : string) (rest : list string)
    (matches : list search_match) (files_searched : Z) (s : S) :
  run H (search_files search context_lines limit (filepath :: rest) matches
           files_searched) s
  = let s1 := (H (read_text_ignore filepath) s).2 in
    let file_matches :=
      match (H (read_text_ignore filepath) s).1 with
      | Ok content =>
          search_lines search filepath context_lines (splitlines content) 0
            (splitlines content) []
      | Raise _ => []
      end in
    let matches1 := match file_matches with
                    | [] => matches
                    | _ => matches ++ file_matches
                    end in
    if limit <=? Z.of_nat (length matches1)
    then ([read_text_ignore filepath], s1, Ok (matches1, files_searched + 1))
    else let '(tr, s2, out) :=
           run H (search_files search context_lines limit rest matches1
                    (files_searched + 1)) s1 in
         (read_text_ignore filepath :: tr, s2, out).
Proof.
  cbn [search_files]. unfold mbind, prog_bind.
  rewrite (run_bind H _ _ _ _ _ _ (search_file_run filepath search context_lines s)).
  cbv zeta.
  destruct (limit <=? _); [reflexivity|].
  destruct (run H _ _) as [[tr s2] out]. reflexivity.
Qed.

(** X24: the loop over the files stops at the limit.  If, after the files
    of a first list, the matches have reached the limit, then with any
    further files after them the run is the same: the same calls, the same
    matches and the same count of files searched, so none of the further
    files is read. *)
Theorem search_stops_at_limit (search : string -> bool) (context_lines : pyval)
    (limit : Z) (further : list string) :
  forall (batch : list string) (acc : list search_match) (searched : Z) (s s1 : S)
         (calls : list (op toolΣ)) (matches : list search_match) (count : Z),
    batch <> [] ->
    run H (search_files search context_lines limit batch acc searched) s
    = (calls, s1, Ok (matches, count)) ->
    limit <= Z.of_nat (length matches) ->
    run H (search_files search context_lines limit (batch ++ further) acc searched) s
    = (calls, s1, Ok (matches, count)).
Proof.
  induction batch as [|filepath rest IH]; intros acc searched s s1 calls matches count
    Hne Hrun Hlimit; [contradiction Hne; reflexivity|].
  cbn [app]. rewrite search_files_step in *. cbv zeta in *.
  destruct (limit <=? _) eqn:E; [exact Hrun|].
  destruct rest as [|next rest].
  - cbn [search_files run] in Hrun. apply Z.leb_gt in E. inversion Hrun; subst.
    exfalso. exact (proj1 (Z.lt_nge _ _) E Hlimit).
  - destruct (run H (search_files search context_lines limit (next :: rest) _ _) _)
      as [[tr s2] out] eqn:Er.
    inversion Hrun; subst.
    rewrite (IH _ _ _ _ _ _ _ ltac:(discriminate) Er Hlimit). reflexivity.
Qed.

Lemma search_lines_nothing (search : string -> bool) (filepath : string)
    (context_lines : pyval) (lines : list string) :
  forall (todo : list string) (i : Z),
    (forall line, In line todo -> search line = false) ->
    search_lines search filepath context_lines lines i todo [] = [].
Proof.
  induction todo as [|line rest IH]; intros i Hnone; [reflexivity|].
  cbn [search_lines]. rewrite (Hnone line) by (left; reflexivity).
  apply IH. intros l Hl. apply Hnone. right. exact Hl.
Qed.

Lemma search_files_nothing (search : string -> bool) (context_lines : pyval)
    (limit : Z) :
  0 < limit ->
  forall (batch : list string) (searched : Z) (s : S),
    (forall content line,
        In (Ok content) (texts_read H batch s).1 -> In line (splitlines content) ->
        search line = false) ->
    run H (search_files search context_lines limit batch [] searched) s
    = (List.map read_text_ignore batch, (texts_read H batch s).2,
       Ok ([], searched + Z.of_nat (length batch))).
Proof.
  intros Hlimit.
  induction batch as [|filepath rest IH]; intros searched s Hnone.
  { cbn. rewrite Z.add_0_r. reflexivity. }
  rewrite search_files_step. cbv zeta.
  cbn [texts_read] in Hnone |- *.
  destruct (H (read_text_ignore filepath) s) as [text s1] eqn:Eh.
  destruct (texts_read H rest s1) as [texts s2] eqn:Et.
  cbn [fst snd] in Hnone |- *.
  assert (E : match text with
              | Ok content =>
                  search_lines search filepath context_lines (splitlines content) 0
                    (splitlines content) []
              | Raise _ => []
              end = []).
  { destruct text as [content|e]; [|reflexivity].
    apply search_lines_nothing. intros line Hl.
    apply (Hnone content line); [left; reflexivity|exact Hl]. }
  rewrite E. cbn [length].
  destruct (Z.leb_spec limit (Z.of_nat 0)) as [Hle|_]; [cbn in Hle; lia|].
  rewrite (IH (searched + 1) s1).
  - rewrite Et. cbn [List.map length snd]. do 3 f_equal. lia.
  - intros content line Hin. rewrite Et in Hin. apply Hnone. right. exact Hin.
Qed.
End SearchFacts.

Lemma all_rets_bind_with {Σ A B} (Q : A -> Prop) (P : B -> Prop) (p : prog Σ A)
    (f : A -> prog Σ B) :
  all_rets Q p -> (forall a, Q a -> all_rets P (f a)) -> all_rets P (bind p f).
Proof.
  intros Hp Hf. induction p as [a|e|o k IH]; cbn in *; [apply Hf, Hp|exact I|].
  intros r. apply IH, Hp.
Qed.

Lemma search_code_body_text (lib : library)
    (query search_path file_pattern use_regex case_sensitive context_lines : pyval) :
  all_rets is_text
    (search_code_body lib query search_path file_pattern use_regex case_sensitive
       context_lines).
Proof.
  unfold search_code_body.
  apply all_rets_bind; intros path.
  apply all_rets_bind; intros found.
  destruct (negb found); [cbn; eexists; reflexivity|].
  apply (all_rets_bind_with
           (fun r : (string -> bool) + pyval =>
              match r with inl _ => True | inr answer => is_text answer end)).
  - destruct (truthy use_regex).
    + apply all_rets_bind. intros [search|msg]; cbn; [exact I|eexists; reflexivity].
    + apply all_rets_bind. intros escaped.
      destruct (re_compile lib escaped _); cbn; [exact I|eexists; reflexivity].
  - intros [search|answer] Hr; [|exact Hr].
    apply all_rets_bind; intros is_file.
    apply all_rets_bind; intros files_to_search.
    apply all_rets_bind; intros [matches files_searched].
    destruct matches; cbn; eexists; reflexivity.
Qed.

Ltac run_step :=
  cbn [mbind prog_bind bind call lift try_except run negb].

Section ToolSearchFacts.
Context {S : Type}.
Variable H : forall o : op toolΣ, S -> reply (ans toolΣ o) * S.
Variable lib : library.

(** X25: given a query and, for [context_lines], an integer or nothing,
    [search_code] with the statements of its [try] block returns a text and
    never raises, whatever the library and the system answer. *)
Theorem search_code_returns_text (arguments : gmap string pyval) (s : S) :
  is_Some (arguments !! "query") ->
  is_Some (as_int (get arguments "context_lines" (PInt MAX_CONTEXT_LINES))) ->
  exists t, outcome H (search_code_tool lib arguments) s = Ok (PStr t).
Proof.
  intros [q Hq] Hc.
  assert (Hr : returns is_text (search_code_tool lib arguments)).
  { unfold search_code_tool, subscript. rewrite Hq.
    destruct (py_min_int _ (PInt 10) Hc (ex_intro _ 10 eq_refl)) as [m Hm].
    prog_simpl. rewrite Hm. prog_simpl.
    apply returns_try; [apply search_code_body_text|].
    intros e. cbn. eexists; reflexivity. }
  destruct (returns_outcome is_text _ H s Hr) as [a [E [t ->]]].
  exists t. exact E.
Qed.

Variables (arguments : gmap string pyval) (query : pyval) (path : string)
  (s s1 s2 : S).
Hypothesis Hquery : arguments !! "query" = Some query.
Hypothesis Hcontext :
  is_Some (as_int (get arguments "context_lines" (PInt MAX_CONTEXT_LINES))).
Hypothesis Hresolve :
  H (fs_call (path_resolve (get arguments "path" (PStr ".")))) s = (Ok path, s1).

Lemma search_code_tool_run :
  exists context_lines,
    py_min (get arguments "context_lines" (PInt MAX_CONTEXT_LINES)) (PInt 10)
    = Ok context_lines
    /\ is_Some (as_int context_lines)
    /\ search_code_tool lib arguments
       = try_except
           (search_code_body lib query (get arguments "path" (PStr "."))
              (get arguments "pattern" PNone) (get arguments "regex" (PBool false))
              (get arguments "case_sensitive" (PBool false)) context_lines)
           (fun e => Ret (PStr ("Error searching code: " +:+ exn_msg e))).
Proof.
  destruct Hcontext as [c Hc].
  unfold py_min, py_lt. rewrite Hc. cbn [as_int].
  eexists. split; [reflexivity|]. split.
  - destruct (10 <? c); [eexists; reflexivity|exists c; exact Hc].
  - unfold search_code_tool, subscript, py_min, py_lt. rewrite Hquery, Hc.
    reflexivity.
Qed.

(** X26: the two early errors of [search_code].  A path that does not exist
    is reported after the two calls that resolve and test it; and a query
    that is to be a regular expression and does not compile is reported
    with the message of [re.error].  In both cases no directory is walked
    and no file is read. *)
Theorem search_code_early_errors :
  (H (fs_call (path_exists path)) s1 = (Ok false, s2) ->
     run H (search_code_tool lib arguments) s
     = ([fs_call (path_resolve (get arguments "path" (PStr ".")));
         fs_call (path_exists path)], s2,
        Ok (PStr ("Error: Path not found: " +:+
                  py_str (get arguments "path" (PStr "."))))))
  /\ (forall pattern msg,
        H (fs_call (path_exists path)) s1 = (Ok true, s2) ->
        truthy (get arguments "regex" (PBool false)) = true ->
        query = PStr pattern ->
        re_compile lib pattern
          (if truthy (get arguments "case_sensitive" (PBool false))
           then NoFlags else IGNORECASE) = ReError msg ->
        run H (search_code_tool lib arguments) s
        = ([fs_call (path_resolve (get arguments "path" (PStr ".")));
            fs_call (path_exists path)], s2,
           Ok (PStr ("Error: Invalid regex pattern: " +:+ msg)))).
Proof.
  destruct search_code_tool_run as (context_lines & _ & _ & ->).
  unfold search_code_body. split.
  - intros He. cbn. rewrite Hresolve. cbn. rewrite He. reflexivity.
  - intros pattern msg He Hregex -> Hc.
    cbn. rewrite Hresolve. cbn. rewrite He. cbn. rewrite Hregex. cbn.
    rewrite Hc. reflexivity.
Qed.

(** X27: a search that finds nothing.  When the path is a directory and the
    pattern is found in no line of the texts the system gives for the
    searchable files of the walk, read one after the other, [search_code]
    reads each of those files once, in the order of the walk, and answers
    that no matches were found, naming the query and the number of those
    files. *)
Theorem search_code_no_matches (search : string -> bool) (tree : dir_tree)
    (found : list string) (s3 s4 : S) :
  H (fs_call (path_exists path)) s1 = (Ok true, s2) ->
  (if truthy (get arguments "regex" (PBool false))
   then py_compile lib query
          (if truthy (get arguments "case_sensitive" (PBool false))
           then NoFlags else IGNORECASE)
   else c ← py_escape lib query;
        Ok (re_compile lib c
              (if truthy (get arguments "case_sensitive" (PBool false))
               then NoFlags else IGNORECASE)))
  = Ok (Pattern search) ->
  H (fs_call (path_is_file path)) s2 = (Ok false, s3) ->
  H (os_walk path) s3 = (Ok tree, s4) ->
  _get_searchable_files lib path tree (get arguments "pattern" PNone) = Ok found ->
  (forall content line,
      In (Ok content) (texts_read H found s4).1 -> In line (splitlines content) ->
      search line = false) ->
  run H (search_code_tool lib arguments) s
  = ([fs_call (path_resolve (get arguments "path" (PStr ".")));
      fs_call (path_exists path); fs_call (path_is_file path); os_walk path]
     ++ List.map read_text_ignore found, (texts_read H found s4).2,
     Ok (PStr ("No matches found for '" +:+ py_str query +:+ "' in " +:+
               dec (Z.of_nat (length found)) +:+ " files"))).
Proof.
  intros He Hc Hf Hw Hfiles Hnone.
  destruct search_code_tool_run as (context_lines & _ & _ & ->).
  pose proof (search_files_nothing H search context_lines MAX_RESULTS
                ltac:(reflexivity) found 0 s4 Hnone) as Hs.
  unfold search_code_body. cbv zeta.
  destruct (truthy (get arguments "regex" (PBool false))) eqn:Hregex.
  - rewrite Hc. run_step. rewrite Hresolve. run_step. rewrite He. run_step.
    rewrite Hf. run_step. rewrite Hw. run_step. rewrite Hfiles. run_step.
    unfold mbind, prog_bind. rewrite (run_try_bind H _ _ _ _ _ _ _ Hs). cbn.
    rewrite List.app_nil_r. reflexivity.
  - destruct (py_escape lib query) as [c|e] eqn:Hesc; [|discriminate Hc].
    cbn in Hc. injection Hc as Hc.
    run_step. rewrite Hresolve. run_step. rewrite He. run_step. rewrite Hc. run_step.
    rewrite Hf. run_step. rewrite Hw. run_step. rewrite Hfiles. run_step.
    unfold mbind, prog_bind. rewrite (run_try_bind H _ _ _ _ _ _ _ Hs). cbn.
    rewrite List.app_nil_r. reflexivity.
Qed.
End ToolSearchFacts.

Lemma search_stops_at_limit_witness :
  run (Σ := toolΣ) open_system
    (search_files (fun line => startswith line "import") (PInt 0) 1
       (["/w/a.py"] ++ ["/w/b.py"]) [] 0) []
  = ([read_text_ignore "/w/a.py"], [],
     Ok ([{| m_file := "/w/a.py"; m_line := 1; m_match := "import os";
             m_context := [(1, arrow_prefix, "import os")] |}], 1)).
Proof.
  unshelve refine
    (search_stops_at_limit open_system (fun line => startswith line "import")
       (PInt 0) 1 ["/w/b.py"] ["/w/a.py"] [] 0 [] []
       [read_text_ignore "/w/a.py"]
       [{| m_file := "/w/a.py"; m_line := 1; m_match := "import os";
           m_context := [(1, arrow_prefix, "import os")] |}] 1 _ _ _);
    try (vm_compute; reflexivity); try discriminate.
Defined.

Lemma search_code_returns_text_witness :
  exists t,
    outcome (Σ := toolΣ) open_system
      (search_code_tool literal_library {[ "query" := PStr "import" ]}) []
    = Ok (PStr t).
Proof.
  unshelve refine (search_code_returns_text open_system literal_library
                     {[ "query" := PStr "import" ]} [] _ _);
    vm_compute; eexists; reflexivity.
Defined.

Lemma search_code_early_errors_witness :
  run (Σ := toolΣ) open_system
    (search_code_tool literal_library
       {[ "query" := PStr "("; "regex" := PBool true ]}) []
  = ([fs_call (path_resolve (get {[ "query" := PStr "("; "regex" := PBool true ]}
                               "path" (PStr "."))); fs_call (path_exists ".")], [],
     Ok (PStr ("Error: Invalid regex pattern: " +:+
               "missing ), unterminated subpattern at position 0"))).
Proof.
  unshelve refine
    (proj2 (search_code_early_errors open_system literal_library
              {[ "query" := PStr "("; "regex" := PBool true ]} (PStr "(") "."
              [] [] [] _ _ _)
       "(" "missing ), unterminated subpattern at position 0" _ _ _ _);
    try (vm_compute; reflexivity); try (vm_compute; eexists; reflexivity).
Defined.

Lemma search_code_no_matches_witness :
  run (Σ := toolΣ) open_system
    (search_code_tool literal_library {[ "query" := PStr "password" ]}) []
  = ([fs_call (path_resolve (get {[ "query" := PStr "password" ]} "path" (PStr ".")));
      fs_call (path_exists "."); fs_call (path_is_file "."); os_walk "."]
     ++ List.map read_text_ignore ["./a.py"; "./b.py"],
     (texts_read open_system ["./a.py"; "./b.py"] []).2,
     Ok (PStr ("No matches found for '" +:+ py_str (PStr "password") +:+ "' in " +:+
               dec (Z.of_nat (length ["./a.py"; "./b.py"])) +:+ " files"))).
Proof.
  unshelve refine
    (search_code_no_matches open_system literal_library
       {[ "query" := PStr "password" ]} (PStr "password") "." [] [] []
       _ _ _ (fun line => (0 <? str_count line "password")%nat)
       (Dir [] ["a.py"; "b.py"]) ["./a.py"; "./b.py"] [] []
       _ _ _ _ _ _);
    try (vm_compute; reflexivity); try (vm_compute; eexists; reflexivity).
  intros content line Hin Hl. vm_compute in Hin.
  destruct Hin as [[= <-]|[[= <-]|[]]]; vm_compute in Hl;
    destruct Hl as [<-|[<-|[]]]; reflexivity.
Defined.

(** ** [find_definition] *)

Lemma find_definition_body_text (lib : library) (name search_path def_type : pyval)
    (selected : list string) :
  all_rets is_text (find_definition_body lib name search_path def_type selected).
Proof.
  unfold find_definition_body.
  destruct (re_compile lib _ MULTILINE) as [search|msg]; [|cbn; eexists; reflexivity].
  apply all_rets_bind; intros path.
  apply all_rets_bind; intros found.
  destruct (negb found); [cbn; eexists; reflexivity|].
  apply all_rets_bind; intros tree.
  apply all_rets_bind; intros files_to_search.
  apply all_rets_bind; intros [matches files_searched].
  destruct matches; cbn; eexists; reflexivity.
Qed.

Section DefinitionFacts.
Context {S : Type}.
Variable H : forall o : op toolΣ, S -> reply (ans toolΣ o) * S.
Variable lib : library.

(** X28: what [find_definition] settles before it asks anything of the
    system.  A name that is not a text makes [re.escape] raise a
    [TypeError], which leaves the tool uncaught, the patterns being built
    outside the [try] block; and a type that is none of [any], [function],
    [class] and [variable] is answered with an error text.  In both cases
    no call is made. *)
Theorem find_definition_rejects (arguments : gmap string pyval) (name : pyval)
    (s : S) :
  arguments !! "name" = Some name ->
  (is_str name = false ->
     exists msg,
       run H (find_definition lib arguments) s = ([], s, Raise (Exn TypeError msg)))
  /\ (forall kind,
        is_str name = true ->
        get arguments "type" (PStr "any") = PStr kind ->
        ~ In kind ["any"; "function"; "class"; "variable"] ->
        run H (find_definition lib arguments) s
        = ([], s, Ok (PStr ("Error: Unknown definition type '" +:+ kind +:+ "'")))).
Proof.
  intros Hn. unfold find_definition, subscript. rewrite Hn. split.
  - intros Hs. destruct name; try discriminate Hs; cbn; eexists; reflexivity.
  - intros kind Hs Hk Hnot. destruct name as [| | |n| |]; try discriminate Hs.
    rewrite Hk. cbn [py_escape lift mbind prog_bind bind].
    assert (Hany : py_eqb (PStr kind) (PStr "any") = false).
    { cbn. destruct (String.eqb_spec kind "any") as [->|_]; [|reflexivity].
      contradiction Hnot. left. reflexivity. }
    rewrite Hany. unfold patterns_get, definition_patterns. cbn [assoc_list].
    destruct (String.eqb_spec kind "function") as [->|_];
      [contradiction Hnot; right; left; reflexivity|].
    destruct (String.eqb_spec kind "class") as [->|_];
      [contradiction Hnot; right; right; left; reflexivity|].
    destruct (String.eqb_spec kind "variable") as [->|_];
      [contradiction Hnot; right; right; right; left; reflexivity|].
    reflexivity.
Qed.

(** X29: for a name that is a text and a type that is a text,
    [find_definition] returns a text and never raises, whatever the regex
    library and the file system answer. *)
Theorem find_definition_returns_text (arguments : gmap string pyval)
    (name kind : string) (s : S) :
  arguments !! "name" = Some (PStr name) ->
  get arguments "type" (PStr "any") = PStr kind ->
  exists t, outcome H (find_definition lib arguments) s = Ok (PStr t).
Proof.
  intros Hn Hk.
  assert (Hr : returns is_text (find_definition lib arguments)).
  { unfold find_definition, subscript. rewrite Hn, Hk.
    cbn [py_escape lift mbind prog_bind bind].
    destruct (py_eqb (PStr kind) (PStr "any")); cbn [lift bind patterns_get].
    - cbn [definition_patterns List.map List.concat snd app].
      apply returns_try; [apply find_definition_body_text|].
      intros e. cbn. eexists; reflexivity.
    - destruct (default [] _) as [|p ps]; [cbn; eexists; reflexivity|].
      apply returns_try; [apply find_definition_body_text|].
      intros e. cbn. eexists; reflexivity. }
  destruct (returns_outcome is_text _ H s Hr) as [a [E [t ->]]].
  exists t. exact E.
Qed.

(** X30: a search for a definition that finds nothing.  For one of the
    three kinds, [find_definition] compiles the alternation of the kind's
    patterns, each in a group, for multi-line matching, and walks the
    directory without a glob pattern.  When the compiled pattern is found in
    no line of the texts the system gives for the searchable files, read one
    after the other, it reads each of those files once and answers that no
    definition was found, naming the name, the kind and the number of
    files. *)
Theorem find_definition_none_found (arguments : gmap string pyval)
    (name kind path : string) (patterns : list string) (search : string -> bool)
    (tree : dir_tree) (found : list string) (s s1 s2 s3 : S) :
  arguments !! "name" = Some (PStr name) ->
  get arguments "type" (PStr "any") = PStr kind ->
  kind <> "any" ->
  assoc_list kind (definition_patterns (re_escape lib name)) = Some patterns ->
  re_compile lib (join "|" (List.map (fun p => "(" +:+ p +:+ ")") patterns)) MULTILINE
  = Pattern search ->
  H (fs_call (path_resolve (get arguments "path" (PStr ".")))) s = (Ok path, s1) ->
  H (fs_call (path_exists path)) s1 = (Ok true, s2) ->
  H (os_walk path) s2 = (Ok tree, s3) ->
  _get_searchable_files lib path tree PNone = Ok found ->
  (forall content line,
      In (Ok content) (texts_read H found s3).1 -> In line (splitlines content) ->
      search line = false) ->
  run H (find_definition lib arguments) s
  = ([fs_call (path_resolve (get arguments "path" (PStr ".")));
      fs_call (path_exists path); os_walk path]
     ++ List.map read_text_ignore found, (texts_read H found s3).2,
     Ok (PStr ("No definition found for '" +:+ name +:+ "' (" +:+ kind +:+ ") in " +:+
               dec (Z.of_nat (length found)) +:+ " files"))).
Proof.
  intros Hn Hk Hany Hpat Hc Hres He Hw Hfiles Hnone.
  pose proof (search_files_nothing H search (PInt 5) 10 ltac:(reflexivity)
                found 0 s3 Hnone) as Hs.
  unfold find_definition, subscript. rewrite Hn, Hk.
  cbn [py_escape lift mbind prog_bind bind].
  assert (E : py_eqb (PStr kind) (PStr "any") = false).
  { cbn. destruct (String.eqb_spec kind "any"); [contradiction|reflexivity]. }
  rewrite E. cbn [patterns_get lift bind]. rewrite Hpat. cbn [default id].
  assert (Hne : patterns <> []).
  { intros ->. unfold definition_patterns in Hpat. cbn [assoc_list] in Hpat.
    repeat match type of Hpat with
           | (if ?b then _ else _) = _ => destruct b; [discriminate Hpat|]
           end. discriminate Hpat. }
  destruct patterns as [|p ps]; [contradiction Hne; reflexivity|].
  cbn [mbind prog_bind bind]. unfold find_definition_body. cbv zeta. rewrite Hc.
  run_step. rewrite Hres. run_step. rewrite He. run_step. rewrite Hw. run_step.
  rewrite Hfiles. run_step.
  unfold mbind, prog_bind. rewrite (run_try_bind H _ _ _ _ _ _ _ Hs). cbn.
  rewrite List.app_nil_r. reflexivity.
Qed.
End DefinitionFacts.

Lemma find_definition_rejects_witness :
  run (Σ := toolΣ) open_system
    (find_definition literal_library
       {[ "name" := PStr "main"; "type" := PStr "method" ]}) []
  = ([], [], Ok (PStr ("Error: Unknown definition type '" +:+ "method" +:+ "'"))).
Proof.
  unshelve refine
    (proj2 (find_definition_rejects open_system literal_library
              {[ "name" := PStr "main"; "type" := PStr "method" ]} (PStr "main") [] _)
       "method" _ _ _);
    try (vm_compute; reflexivity).
  cbn. intuition discriminate.
Defined.

Lemma find_definition_returns_text_witness :
  exists t,
    outcome (Σ := toolΣ) open_system
      (find_definition literal_library {[ "name" := PStr "main" ]}) []
    = Ok (PStr t).
Proof.
  unshelve refine (find_definition_returns_text open_system literal_library
                     {[ "name" := PStr "main" ]} "main" "any" [] _ _);
    vm_compute; reflexivity.
Defined.

Lemma find_definition_none_found_witness :
  run (Σ := toolΣ) open_system
    (find_definition literal_library
       {[ "name" := PStr "main"; "type" := PStr "class" ]}) []
  = ([fs_call (path_resolve (get {[ "name" := PStr "main"; "type" := PStr "class" ]}
                               "path" (PStr ".")));
      fs_call (path_exists "."); os_walk "."]
     ++ List.map read_text_ignore ["./a.py"; "./b.py"],
     (texts_read open_system ["./a.py"; "./b.py"] []).2,
     Ok (PStr ("No definition found for '" +:+ "main" +:+ "' (" +:+ "class" +:+
               ") in " +:+ dec (Z.of_nat (length ["./a.py"; "./b.py"])) +:+
               " files"))).
Proof.
  unshelve refine
    (find_definition_none_found open_system literal_library
       {[ "name" := PStr "main"; "type" := PStr "class" ]} "main" "class" "."
       (default [] (assoc_list "class" (definition_patterns "main")))
       (fun line =>
          (0 <? str_count line
                  (join "|" (List.map (fun p => "(" +:+ p +:+ ")")
                               (default [] (assoc_list "class"
                                              (definition_patterns "main"))))))%nat)
       (Dir [] ["a.py"; "b.py"]) ["./a.py"; "./b.py"] [] [] [] []
       _ _ _ _ _ _ _ _ _ _);
    try (vm_compute; reflexivity); try discriminate.
  intros content line Hin Hl. vm_compute in Hin.
  destruct Hin as [[= <-]|[[= <-]|[]]]; vm_compute in Hl;
    destruct Hl as [<-|[<-|[]]]; vm_compute; reflexivity.
Defined.
